(** * TLS cipher suite names and IANA identifiers

    A shallow embedding of [lib/vtls/cipher_suite.c]: the token text
    [cs_txt], the packed table [cs_list], the encoder [cs_str_to_zip], the
    decoder [cs_zip_to_str], and the three exported functions
    [Curl_cipher_suite_lookup_id], [Curl_cipher_suite_walk_str] and
    [Curl_cipher_suite_get_str].

    Conventions of the embedding.
    - A [char] is an [ascii]; a [uint8_t] or [uint16_t] is a [Z] with the
      truncation written out ([uint8_t], [uint16_t] below).
    - A [const char *] that points into a NUL-terminated array is the list of
      the bytes from the pointer onwards.  [p + n] is [drop n p], [p++] is
      [tl p], and [*p] is [deref p], which reads the terminating NUL once the
      list is exhausted.  A NUL inside the list ends the C string as well.
    - A writable buffer [char *buf] of [buf_size] bytes is a [list ascii]
      updated in place with stdpp's list insert; [&buf[len]] is the pair of
      the buffer and the offset [len].
    - A function returning [int] with an out-parameter returns a pair, or a
      sum whose left side says at which [return -1] it gave up. *)

From Stdlib Require Import ZArith Ascii String List Lia Bool.
From stdpp Require Import base list.

Local Open Scope Z_scope.

(** ** Bytes, C strings and fixed-width integers *)

Definition NUL : ascii := "000"%char.

Definition lit (s : string) : list ascii := list_ascii_of_string s.

Definition deref (p : list ascii) : ascii := hd NUL p.

Definition is_nul (c : ascii) : bool := Ascii.eqb c NUL.

Definition uint8_t (x : Z) : Z := x mod 256.

Definition uint16_t (x : Z) : Z := x mod 65536.

Fixpoint strlen (p : list ascii) : nat :=
  match p with
  | [] => O
  | c :: p' => if is_nul c then O else S (strlen p')
  end.

(** The bytes of the C string at [p], without the terminator. *)
Definition c_str (p : list ascii) : list ascii := take (strlen p) p.

(** ** Helpers of curl that live outside this translation unit *)

(** Modelled from the spec: [Curl_raw_toupper] of lib/strcase.c is not part
    of the unit; names are "compared case-insensitively" over ASCII, so the
    model maps [a]..[z] to [A]..[Z] and leaves every other byte alone. *)
Definition Curl_raw_toupper (c : ascii) : ascii :=
  let n := N_of_ascii c in
  if ((97 <=? n) && (n <=? 122))%N then ascii_of_N (n - 32) else c.

(** Modelled from the spec: [strncasecompare] (curl_strnequal of
    lib/strcase.c) is not part of the unit; it is the "case-insensitive"
    comparison of at most [max] bytes of two NUL-terminated strings: it walks
    both strings while neither has ended and [max] is not used up, fails on
    the first pair of bytes that differ after upper-casing, succeeds when
    [max] bytes agreed, and otherwise compares the two bytes at which it
    stopped. *)
Fixpoint strncasecompare (first second : list ascii) (max : nat) : bool :=
  match max with
  | O => true
  | S max' =>
      let a := deref first in
      let b := deref second in
      if negb (is_nul a) && negb (is_nul b) then
        if Ascii.eqb (Curl_raw_toupper a) (Curl_raw_toupper b)
        then strncasecompare (tl first) (tl second) max'
        else false
      else Ascii.eqb (Curl_raw_toupper a) (Curl_raw_toupper b)
  end.

(** Modelled from the spec: [msnprintf] (curl_printf.h) is not part of the
    unit; it writes a "NUL-terminated (or length-bounded)" text.  Given the
    already formatted [text], a destination at offset [off] of [buf] and the
    room [size], it stores the longest prefix of [text] that leaves room for
    the terminator, stores the terminator after it, and returns the number of
    bytes stored before the terminator.  With no room at all it stores
    nothing and returns 0.  It never returns a negative number. *)
Definition msnprintf (buf : list ascii) (off size : nat) (text : list ascii)
  : Z * list ascii :=
  match size with
  | O => (0, buf)
  | S room =>
      let out := take room text in
      (Z.of_nat (length out),
       <[(off + length out)%nat := NUL]> (list_inserts off out buf))
  end.

(** The conversion ["%04x"] applied to a 16-bit value: four lower-case
    hexadecimal digits. *)
Definition hex_digit (d : Z) : ascii :=
  nth (Z.to_nat d) (lit "0123456789abcdef") NUL.

Definition fmt_04x (v : Z) : list ascii :=
  [hex_digit (v / 4096 mod 16); hex_digit (v / 256 mod 16);
   hex_digit (v / 16 mod 16); hex_digit (v mod 16)].

(** ** The token text and its indexes *)

(** [cs_txt]: the parts of cipher suite names, each followed by a NUL; the
    first part is the empty string. *)
Definition cs_txt : list ascii :=
  Eval cbv in
  lit "" ++ [NUL] ++
  lit "TLS" ++ [NUL] ++
  lit "WITH" ++ [NUL] ++
  lit "128" ++ [NUL] ++
  lit "256" ++ [NUL] ++
  lit "3DES" ++ [NUL] ++
  lit "8" ++ [NUL] ++
  lit "AES" ++ [NUL] ++
  lit "AES128" ++ [NUL] ++
  lit "AES256" ++ [NUL] ++
  lit "CBC" ++ [NUL] ++
  lit "CBC3" ++ [NUL] ++
  lit "CCM" ++ [NUL] ++
  lit "CCM8" ++ [NUL] ++
  lit "CHACHA20" ++ [NUL] ++
  lit "DES" ++ [NUL] ++
  lit "DHE" ++ [NUL] ++
  lit "ECDH" ++ [NUL] ++
  lit "ECDHE" ++ [NUL] ++
  lit "ECDSA" ++ [NUL] ++
  lit "EDE" ++ [NUL] ++
  lit "GCM" ++ [NUL] ++
  lit "MD5" ++ [NUL] ++
  lit "NULL" ++ [NUL] ++
  lit "POLY1305" ++ [NUL] ++
  lit "PSK" ++ [NUL] ++
  lit "RSA" ++ [NUL] ++
  lit "SHA" ++ [NUL] ++
  lit "SHA256" ++ [NUL] ++
  lit "SHA384" ++ [NUL] ++
  lit "ARIA" ++ [NUL] ++
  lit "ARIA128" ++ [NUL] ++
  lit "ARIA256" ++ [NUL] ++
  lit "CAMELLIA" ++ [NUL] ++
  lit "CAMELLIA128" ++ [NUL] ++
  lit "CAMELLIA256" ++ [NUL].

(** Indexes of the parts of [cs_txt] (the anonymous enum). *)
Definition CS_TXT_IDX_ : Z := 0.
Definition CS_TXT_IDX_TLS : Z := 1.
Definition CS_TXT_IDX_WITH : Z := 2.
Definition CS_TXT_IDX_128 : Z := 3.
Definition CS_TXT_IDX_256 : Z := 4.
Definition CS_TXT_IDX_3DES : Z := 5.
Definition CS_TXT_IDX_8 : Z := 6.
Definition CS_TXT_IDX_AES : Z := 7.
Definition CS_TXT_IDX_AES128 : Z := 8.
Definition CS_TXT_IDX_AES256 : Z := 9.
Definition CS_TXT_IDX_CBC : Z := 10.
Definition CS_TXT_IDX_CBC3 : Z := 11.
Definition CS_TXT_IDX_CCM : Z := 12.
Definition CS_TXT_IDX_CCM8 : Z := 13.
Definition CS_TXT_IDX_CHACHA20 : Z := 14.
Definition CS_TXT_IDX_DES : Z := 15.
Definition CS_TXT_IDX_DHE : Z := 16.
Definition CS_TXT_IDX_ECDH : Z := 17.
Definition CS_TXT_IDX_ECDHE : Z := 18.
Definition CS_TXT_IDX_ECDSA : Z := 19.
Definition CS_TXT_IDX_EDE : Z := 20.
Definition CS_TXT_IDX_GCM : Z := 21.
Definition CS_TXT_IDX_MD5 : Z := 22.
Definition CS_TXT_IDX_NULL : Z := 23.
Definition CS_TXT_IDX_POLY1305 : Z := 24.
Definition CS_TXT_IDX_PSK : Z := 25.
Definition CS_TXT_IDX_RSA : Z := 26.
Definition CS_TXT_IDX_SHA : Z := 27.
Definition CS_TXT_IDX_SHA256 : Z := 28.
Definition CS_TXT_IDX_SHA384 : Z := 29.
Definition CS_TXT_IDX_ARIA : Z := 30.
Definition CS_TXT_IDX_ARIA128 : Z := 31.
Definition CS_TXT_IDX_ARIA256 : Z := 32.
Definition CS_TXT_IDX_CAMELLIA : Z := 33.
Definition CS_TXT_IDX_CAMELLIA128 : Z := 34.
Definition CS_TXT_IDX_CAMELLIA256 : Z := 35.
Definition CS_TXT_LEN : Z := 36.

(** ** The packed table *)

(** [CS_ZIP_IDX]: eight 6-bit indexes in six bytes. *)
Definition CS_ZIP_IDX (a b c d e f g h : Z) : list Z :=
  [ uint8_t (Z.lor (Z.shiftl a 2) (Z.shiftr (Z.land b 0x3F) 4));
    uint8_t (Z.lor (Z.shiftl b 4) (Z.shiftr (Z.land c 0x3F) 2));
    uint8_t (Z.lor (Z.shiftl c 6) (Z.land d 0x3F));
    uint8_t (Z.lor (Z.shiftl e 2) (Z.shiftr (Z.land f 0x3F) 4));
    uint8_t (Z.lor (Z.shiftl f 4) (Z.shiftr (Z.land g 0x3F) 2));
    uint8_t (Z.lor (Z.shiftl g 6) (Z.land h 0x3F)) ].

(** [struct cs_entry { uint16_t id; uint8_t zip[6]; }] *)
Record cs_entry : Type := mk_cs_entry {
  cs_entry_id : Z;
  cs_entry_zip : list Z
}.

Definition CS_ENTRY (id a b c d e f g h : Z) : cs_entry :=
  mk_cs_entry id (CS_ZIP_IDX a b c d e f g h).

Definition cs_list : list cs_entry := [
  CS_ENTRY 0x002F CS_TXT_IDX_TLS CS_TXT_IDX_RSA CS_TXT_IDX_WITH CS_TXT_IDX_AES CS_TXT_IDX_128 CS_TXT_IDX_CBC CS_TXT_IDX_SHA CS_TXT_IDX_;
  CS_ENTRY 0x002F CS_TXT_IDX_AES128 CS_TXT_IDX_SHA CS_TXT_IDX_ CS_TXT_IDX_ CS_TXT_IDX_ CS_TXT_IDX_ CS_TXT_IDX_ CS_TXT_IDX_;
  CS_ENTRY 0x0035 CS_TXT_IDX_TLS CS_TXT_IDX_RSA CS_TXT_IDX_WITH CS_TXT_IDX_AES CS_TXT_IDX_256 CS_TXT_IDX_CBC CS_TXT_IDX_SHA CS_TXT_IDX_;
  CS_ENTRY 0x0035 CS_TXT_IDX_AES256 CS_TXT_IDX_SHA CS_TXT_IDX_ CS_TXT_IDX_ CS_TXT_IDX_ CS_TXT_IDX_ CS_TXT_IDX_ CS_TXT_IDX_;
  CS_ENTRY 0x003C CS_TXT_IDX_TLS CS_TXT_IDX_RSA CS_TXT_IDX_WITH CS_TXT_IDX_AES CS_TXT_IDX_128 CS_TXT_IDX_CBC CS_TXT_IDX_SHA256 CS_TXT_IDX_;
  CS_ENTRY 0x003C CS_TXT_IDX_AES128 CS_TXT_IDX_SHA256 CS_TXT_IDX_ CS_TXT_IDX_ CS_TXT_IDX_ CS_TXT_IDX_ CS_TXT_IDX_ CS_TXT_IDX_;
  CS_ENTRY 0x003D CS_TXT_IDX_TLS CS_TXT_IDX_RSA CS_TXT_IDX_WITH CS_TXT_IDX_AES CS_TXT_IDX_256 CS_TXT_IDX_CBC CS_TXT_IDX_SHA256 CS_TXT_IDX_;
  CS_ENTRY 0x003D CS_TXT_IDX_AES256 CS_TXT_IDX_SHA256 CS_TXT_IDX_ CS_TXT_IDX_ CS_TXT_IDX_ CS_TXT_IDX_ CS_TXT_IDX_ CS_TXT_IDX_;
  CS_ENTRY 0x009C CS_TXT_IDX_TLS CS_TXT_IDX_RSA CS_TXT_IDX_WITH CS_TXT_IDX_AES CS_TXT_IDX_128 CS_TXT_IDX_GCM CS_TXT_IDX_SHA256 CS_TXT_IDX_;
  CS_ENTRY 0x009C CS_TXT_IDX_AES128 CS_TXT_IDX_GCM CS_TXT_IDX_SHA256 CS_TXT_IDX_ CS_TXT_IDX_ CS_TXT_IDX_ CS_TXT_IDX_ CS_TXT_IDX_;
  CS_ENTRY 0x009D CS_TXT_IDX_TLS CS_TXT_IDX_RSA CS_TXT_IDX_WITH CS_TXT_IDX_AES CS_TXT_IDX_256 CS_TXT_IDX_GCM CS_TXT_IDX_SHA384 CS_TXT_IDX_;
  CS_ENTRY 0x009D CS_TXT_IDX_AES256 CS_TXT_IDX_GCM CS_TXT_IDX_SHA384 CS_TXT_IDX_ CS_TXT_IDX_ CS_TXT_IDX_ CS_TXT_IDX_ CS_TXT_IDX_;
  CS_ENTRY 0xC004 CS_TXT_IDX_TLS CS_TXT_IDX_ECDH CS_TXT_IDX_ECDSA CS_TXT_IDX_WITH CS_TXT_IDX_AES CS_TXT_IDX_128 CS_TXT_IDX_CBC CS_TXT_IDX_SHA;
  CS_ENTRY 0xC004 CS_TXT_IDX_ECDH CS_TXT_IDX_ECDSA CS_TXT_IDX_AES128 CS_TXT_IDX_SHA CS_TXT_IDX_ CS_TXT_IDX_ CS_TXT_IDX_ CS_TXT_IDX_;
  CS_ENTRY 0xC005 CS_TXT_IDX_TLS CS_TXT_IDX_ECDH CS_TXT_IDX_ECDSA CS_TXT_IDX_WITH CS_TXT_IDX_AES CS_TXT_IDX_256 CS_TXT_IDX_CBC CS_TXT_IDX_SHA;
  CS_ENTRY 0xC005 CS_TXT_IDX_ECDH CS_TXT_IDX_ECDSA CS_TXT_IDX_AES256 CS_TXT_IDX_SHA CS_TXT_IDX_ CS_TXT_IDX_ CS_TXT_IDX_ CS_TXT_IDX_;
  CS_ENTRY 0xC009 CS_TXT_IDX_TLS CS_TXT_IDX_ECDHE CS_TXT_IDX_ECDSA CS_TXT_IDX_WITH CS_TXT_IDX_AES CS_TXT_IDX_128 CS_TXT_IDX_CBC CS_TXT_IDX_SHA;
  CS_ENTRY 0xC009 CS_TXT_IDX_ECDHE CS_TXT_IDX_ECDSA CS_TXT_IDX_AES128 CS_TXT_IDX_SHA CS_TXT_IDX_ CS_TXT_IDX_ CS_TXT_IDX_ CS_TXT_IDX_;
  CS_ENTRY 0xC00A CS_TXT_IDX_TLS CS_TXT_IDX_ECDHE CS_TXT_IDX_ECDSA CS_TXT_IDX_WITH CS_TXT_IDX_AES CS_TXT_IDX_256 CS_TXT_IDX_CBC CS_TXT_IDX_SHA;
  CS_ENTRY 0xC00A CS_TXT_IDX_ECDHE CS_TXT_IDX_ECDSA CS_TXT_IDX_AES256 CS_TXT_IDX_SHA CS_TXT_IDX_ CS_TXT_IDX_ CS_TXT_IDX_ CS_TXT_IDX_;
  CS_ENTRY 0xC00E CS_TXT_IDX_TLS CS_TXT_IDX_ECDH CS_TXT_IDX_RSA CS_TXT_IDX_WITH CS_TXT_IDX_AES CS_TXT_IDX_128 CS_TXT_IDX_CBC CS_TXT_IDX_SHA;
  CS_ENTRY 0xC00E CS_TXT_IDX_ECDH CS_TXT_IDX_RSA CS_TXT_IDX_AES128 CS_TXT_IDX_SHA CS_TXT_IDX_ CS_TXT_IDX_ CS_TXT_IDX_ CS_TXT_IDX_;
  CS_ENTRY 0xC00F CS_TXT_IDX_TLS CS_TXT_IDX_ECDH CS_TXT_IDX_RSA CS_TXT_IDX_WITH CS_TXT_IDX_AES CS_TXT_IDX_256 CS_TXT_IDX_CBC CS_TXT_IDX_SHA;
  CS_ENTRY 0xC00F CS_TXT_IDX_ECDH CS_TXT_IDX_RSA CS_TXT_IDX_AES256 CS_TXT_IDX_SHA CS_TXT_IDX_ CS_TXT_IDX_ CS_TXT_IDX_ CS_TXT_IDX_;
  CS_ENTRY 0xC013 CS_TXT_IDX_TLS CS_TXT_IDX_ECDHE CS_TXT_IDX_RSA CS_TXT_IDX_WITH CS_TXT_IDX_AES CS_TXT_IDX_128 CS_TXT_IDX_CBC CS_TXT_IDX_SHA;
  CS_ENTRY 0xC013 CS_TXT_IDX_ECDHE CS_TXT_IDX_RSA CS_TXT_IDX_AES128 CS_TXT_IDX_SHA CS_TXT_IDX_ CS_TXT_IDX_ CS_TXT_IDX_ CS_TXT_IDX_;
  CS_ENTRY 0xC014 CS_TXT_IDX_TLS CS_TXT_IDX_ECDHE CS_TXT_IDX_RSA CS_TXT_IDX_WITH CS_TXT_IDX_AES CS_TXT_IDX_256 CS_TXT_IDX_CBC CS_TXT_IDX_SHA;
  CS_ENTRY 0xC014 CS_TXT_IDX_ECDHE CS_TXT_IDX_RSA CS_TXT_IDX_AES256 CS_TXT_IDX_SHA CS_TXT_IDX_ CS_TXT_IDX_ CS_TXT_IDX_ CS_TXT_IDX_;
  CS_ENTRY 0xC023 CS_TXT_IDX_TLS CS_TXT_IDX_ECDHE CS_TXT_IDX_ECDSA CS_TXT_IDX_WITH CS_TXT_IDX_AES CS_TXT_IDX_128 CS_TXT_IDX_CBC CS_TXT_IDX_SHA256;
  CS_ENTRY 0xC023 CS_TXT_IDX_ECDHE CS_TXT_IDX_ECDSA CS_TXT_IDX_AES128 CS_TXT_IDX_SHA256 CS_TXT_IDX_ CS_TXT_IDX_ CS_TXT_IDX_ CS_TXT_IDX_;
  CS_ENTRY 0xC024 CS_TXT_IDX_TLS CS_TXT_IDX_ECDHE CS_TXT_IDX_ECDSA CS_TXT_IDX_WITH CS_TXT_IDX_AES CS_TXT_IDX_256 CS_TXT_IDX_CBC CS_TXT_IDX_SHA384;
  CS_ENTRY 0xC024 CS_TXT_IDX_ECDHE CS_TXT_IDX_ECDSA CS_TXT_IDX_AES256 CS_TXT_IDX_SHA384 CS_TXT_IDX_ CS_TXT_IDX_ CS_TXT_IDX_ CS_TXT_IDX_;
  CS_ENTRY 0xC025 CS_TXT_IDX_TLS CS_TXT_IDX_ECDH CS_TXT_IDX_ECDSA CS_TXT_IDX_WITH CS_TXT_IDX_AES CS_TXT_IDX_128 CS_TXT_IDX_CBC CS_TXT_IDX_SHA256;
  CS_ENTRY 0xC025 CS_TXT_IDX_ECDH CS_TXT_IDX_ECDSA CS_TXT_IDX_AES128 CS_TXT_IDX_SHA256 CS_TXT_IDX_ CS_TXT_IDX_ CS_TXT_IDX_ CS_TXT_IDX_;
  CS_ENTRY 0xC026 CS_TXT_IDX_TLS CS_TXT_IDX_ECDH CS_TXT_IDX_ECDSA CS_TXT_IDX_WITH CS_TXT_IDX_AES CS_TXT_IDX_256 CS_TXT_IDX_CBC CS_TXT_IDX_SHA384;
  CS_ENTRY 0xC026 CS_TXT_IDX_ECDH CS_TXT_IDX_ECDSA CS_TXT_IDX_AES256 CS_TXT_IDX_SHA384 CS_TXT_IDX_ CS_TXT_IDX_ CS_TXT_IDX_ CS_TXT_IDX_;
  CS_ENTRY 0xC027 CS_TXT_IDX_TLS CS_TXT_IDX_ECDHE CS_TXT_IDX_RSA CS_TXT_IDX_WITH CS_TXT_IDX_AES CS_TXT_IDX_128 CS_TXT_IDX_CBC CS_TXT_IDX_SHA256;
  CS_ENTRY 0xC027 CS_TXT_IDX_ECDHE CS_TXT_IDX_RSA CS_TXT_IDX_AES128 CS_TXT_IDX_SHA256 CS_TXT_IDX_ CS_TXT_IDX_ CS_TXT_IDX_ CS_TXT_IDX_;
  CS_ENTRY 0xC028 CS_TXT_IDX_TLS CS_TXT_IDX_ECDHE CS_TXT_IDX_RSA CS_TXT_IDX_WITH CS_TXT_IDX_AES CS_TXT_IDX_256 CS_TXT_IDX_CBC CS_TXT_IDX_SHA384;
  CS_ENTRY 0xC028 CS_TXT_IDX_ECDHE CS_TXT_IDX_RSA CS_TXT_IDX_AES256 CS_TXT_IDX_SHA384 CS_TXT_IDX_ CS_TXT_IDX_ CS_TXT_IDX_ CS_TXT_IDX_;
  CS_ENTRY 0xC029 CS_TXT_IDX_TLS CS_TXT_IDX_ECDH CS_TXT_IDX_RSA CS_TXT_IDX_WITH CS_TXT_IDX_AES CS_TXT_IDX_128 CS_TXT_IDX_CBC CS_TXT_IDX_SHA256;
  CS_ENTRY 0xC029 CS_TXT_IDX_ECDH CS_TXT_IDX_RSA CS_TXT_IDX_AES128 CS_TXT_IDX_SHA256 CS_TXT_IDX_ CS_TXT_IDX_ CS_TXT_IDX_ CS_TXT_IDX_;
  CS_ENTRY 0xC02A CS_TXT_IDX_TLS CS_TXT_IDX_ECDH CS_TXT_IDX_RSA CS_TXT_IDX_WITH CS_TXT_IDX_AES CS_TXT_IDX_256 CS_TXT_IDX_CBC CS_TXT_IDX_SHA384;
  CS_ENTRY 0xC02A CS_TXT_IDX_ECDH CS_TXT_IDX_RSA CS_TXT_IDX_AES256 CS_TXT_IDX_SHA384 CS_TXT_IDX_ CS_TXT_IDX_ CS_TXT_IDX_ CS_TXT_IDX_;
  CS_ENTRY 0xC02B CS_TXT_IDX_TLS CS_TXT_IDX_ECDHE CS_TXT_IDX_ECDSA CS_TXT_IDX_WITH CS_TXT_IDX_AES CS_TXT_IDX_128 CS_TXT_IDX_GCM CS_TXT_IDX_SHA256;
  CS_ENTRY 0xC02B CS_TXT_IDX_ECDHE CS_TXT_IDX_ECDSA CS_TXT_IDX_AES128 CS_TXT_IDX_GCM CS_TXT_IDX_SHA256 CS_TXT_IDX_ CS_TXT_IDX_ CS_TXT_IDX_;
  CS_ENTRY 0xC02C CS_TXT_IDX_TLS CS_TXT_IDX_ECDHE CS_TXT_IDX_ECDSA CS_TXT_IDX_WITH CS_TXT_IDX_AES CS_TXT_IDX_256 CS_TXT_IDX_GCM CS_TXT_IDX_SHA384;
  CS_ENTRY 0xC02C CS_TXT_IDX_ECDHE CS_TXT_IDX_ECDSA CS_TXT_IDX_AES256 CS_TXT_IDX_GCM CS_TXT_IDX_SHA384 CS_TXT_IDX_ CS_TXT_IDX_ CS_TXT_IDX_;
  CS_ENTRY 0xC02D CS_TXT_IDX_TLS CS_TXT_IDX_ECDH CS_TXT_IDX_ECDSA CS_TXT_IDX_WITH CS_TXT_IDX_AES CS_TXT_IDX_128 CS_TXT_IDX_GCM CS_TXT_IDX_SHA256;
  CS_ENTRY 0xC02D CS_TXT_IDX_ECDH CS_TXT_IDX_ECDSA CS_TXT_IDX_AES128 CS_TXT_IDX_GCM CS_TXT_IDX_SHA256 CS_TXT_IDX_ CS_TXT_IDX_ CS_TXT_IDX_;
  CS_ENTRY 0xC02E CS_TXT_IDX_TLS CS_TXT_IDX_ECDH CS_TXT_IDX_ECDSA CS_TXT_IDX_WITH CS_TXT_IDX_AES CS_TXT_IDX_256 CS_TXT_IDX_GCM CS_TXT_IDX_SHA384;
  CS_ENTRY 0xC02E CS_TXT_IDX_ECDH CS_TXT_IDX_ECDSA CS_TXT_IDX_AES256 CS_TXT_IDX_GCM CS_TXT_IDX_SHA384 CS_TXT_IDX_ CS_TXT_IDX_ CS_TXT_IDX_;
  CS_ENTRY 0xC02F CS_TXT_IDX_TLS CS_TXT_IDX_ECDHE CS_TXT_IDX_RSA CS_TXT_IDX_WITH CS_TXT_IDX_AES CS_TXT_IDX_128 CS_TXT_IDX_GCM CS_TXT_IDX_SHA256;
  CS_ENTRY 0xC02F CS_TXT_IDX_ECDHE CS_TXT_IDX_RSA CS_TXT_IDX_AES128 CS_TXT_IDX_GCM CS_TXT_IDX_SHA256 CS_TXT_IDX_ CS_TXT_IDX_ CS_TXT_IDX_;
  CS_ENTRY 0xC030 CS_TXT_IDX_TLS CS_TXT_IDX_ECDHE CS_TXT_IDX_RSA CS_TXT_IDX_WITH CS_TXT_IDX_AES CS_TXT_IDX_256 CS_TXT_IDX_GCM CS_TXT_IDX_SHA384;
  CS_ENTRY 0xC030 CS_TXT_IDX_ECDHE CS_TXT_IDX_RSA CS_TXT_IDX_AES256 CS_TXT_IDX_GCM CS_TXT_IDX_SHA384 CS_TXT_IDX_ CS_TXT_IDX_ CS_TXT_IDX_;
  CS_ENTRY 0xC031 CS_TXT_IDX_TLS CS_TXT_IDX_ECDH CS_TXT_IDX_RSA CS_TXT_IDX_WITH CS_TXT_IDX_AES CS_TXT_IDX_128 CS_TXT_IDX_GCM CS_TXT_IDX_SHA256;
  CS_ENTRY 0xC031 CS_TXT_IDX_ECDH CS_TXT_IDX_RSA CS_TXT_IDX_AES128 CS_TXT_IDX_GCM CS_TXT_IDX_SHA256 CS_TXT_IDX_ CS_TXT_IDX_ CS_TXT_IDX_;
  CS_ENTRY 0xC032 CS_TXT_IDX_TLS CS_TXT_IDX_ECDH CS_TXT_IDX_RSA CS_TXT_IDX_WITH CS_TXT_IDX_AES CS_TXT_IDX_256 CS_TXT_IDX_GCM CS_TXT_IDX_SHA384;
  CS_ENTRY 0xC032 CS_TXT_IDX_ECDH CS_TXT_IDX_RSA CS_TXT_IDX_AES256 CS_TXT_IDX_GCM CS_TXT_IDX_SHA384 CS_TXT_IDX_ CS_TXT_IDX_ CS_TXT_IDX_;
  CS_ENTRY 0xCCA8 CS_TXT_IDX_TLS CS_TXT_IDX_ECDHE CS_TXT_IDX_RSA CS_TXT_IDX_WITH CS_TXT_IDX_CHACHA20 CS_TXT_IDX_POLY1305 CS_TXT_IDX_SHA256 CS_TXT_IDX_;
  CS_ENTRY 0xCCA8 CS_TXT_IDX_ECDHE CS_TXT_IDX_RSA CS_TXT_IDX_CHACHA20 CS_TXT_IDX_POLY1305 CS_TXT_IDX_ CS_TXT_IDX_ CS_TXT_IDX_ CS_TXT_IDX_;
  CS_ENTRY 0xCCA9 CS_TXT_IDX_TLS CS_TXT_IDX_ECDHE CS_TXT_IDX_ECDSA CS_TXT_IDX_WITH CS_TXT_IDX_CHACHA20 CS_TXT_IDX_POLY1305 CS_TXT_IDX_SHA256 CS_TXT_IDX_;
  CS_ENTRY 0xCCA9 CS_TXT_IDX_ECDHE CS_TXT_IDX_ECDSA CS_TXT_IDX_CHACHA20 CS_TXT_IDX_POLY1305 CS_TXT_IDX_ CS_TXT_IDX_ CS_TXT_IDX_ CS_TXT_IDX_;

  CS_ENTRY 0x0001 CS_TXT_IDX_TLS CS_TXT_IDX_RSA CS_TXT_IDX_WITH CS_TXT_IDX_NULL CS_TXT_IDX_MD5 CS_TXT_IDX_ CS_TXT_IDX_ CS_TXT_IDX_;
  CS_ENTRY 0x0001 CS_TXT_IDX_NULL CS_TXT_IDX_MD5 CS_TXT_IDX_ CS_TXT_IDX_ CS_TXT_IDX_ CS_TXT_IDX_ CS_TXT_IDX_ CS_TXT_IDX_;
  CS_ENTRY 0x0002 CS_TXT_IDX_TLS CS_TXT_IDX_RSA CS_TXT_IDX_WITH CS_TXT_IDX_NULL CS_TXT_IDX_SHA CS_TXT_IDX_ CS_TXT_IDX_ CS_TXT_IDX_;
  CS_ENTRY 0x0002 CS_TXT_IDX_NULL CS_TXT_IDX_SHA CS_TXT_IDX_ CS_TXT_IDX_ CS_TXT_IDX_ CS_TXT_IDX_ CS_TXT_IDX_ CS_TXT_IDX_;
  CS_ENTRY 0x002C CS_TXT_IDX_TLS CS_TXT_IDX_PSK CS_TXT_IDX_WITH CS_TXT_IDX_NULL CS_TXT_IDX_SHA CS_TXT_IDX_ CS_TXT_IDX_ CS_TXT_IDX_;
  CS_ENTRY 0x002C CS_TXT_IDX_PSK CS_TXT_IDX_NULL CS_TXT_IDX_SHA CS_TXT_IDX_ CS_TXT_IDX_ CS_TXT_IDX_ CS_TXT_IDX_ CS_TXT_IDX_;
  CS_ENTRY 0x002D CS_TXT_IDX_TLS CS_TXT_IDX_DHE CS_TXT_IDX_PSK CS_TXT_IDX_WITH CS_TXT_IDX_NULL CS_TXT_IDX_SHA CS_TXT_IDX_ CS_TXT_IDX_;
  CS_ENTRY 0x002D CS_TXT_IDX_DHE CS_TXT_IDX_PSK CS_TXT_IDX_NULL CS_TXT_IDX_SHA CS_TXT_IDX_ CS_TXT_IDX_ CS_TXT_IDX_ CS_TXT_IDX_;
  CS_ENTRY 0x002E CS_TXT_IDX_TLS CS_TXT_IDX_RSA CS_TXT_IDX_PSK CS_TXT_IDX_WITH CS_TXT_IDX_NULL CS_TXT_IDX_SHA CS_TXT_IDX_ CS_TXT_IDX_;
  CS_ENTRY 0x002E CS_TXT_IDX_RSA CS_TXT_IDX_PSK CS_TXT_IDX_NULL CS_TXT_IDX_SHA CS_TXT_IDX_ CS_TXT_IDX_ CS_TXT_IDX_ CS_TXT_IDX_;
  CS_ENTRY 0x0033 CS_TXT_IDX_TLS CS_TXT_IDX_DHE CS_TXT_IDX_RSA CS_TXT_IDX_WITH CS_TXT_IDX_AES CS_TXT_IDX_128 CS_TXT_IDX_CBC CS_TXT_IDX_SHA;
  CS_ENTRY 0x0033 CS_TXT_IDX_DHE CS_TXT_IDX_RSA CS_TXT_IDX_AES128 CS_TXT_IDX_SHA CS_TXT_IDX_ CS_TXT_IDX_ CS_TXT_IDX_ CS_TXT_IDX_;
  CS_ENTRY 0x0039 CS_TXT_IDX_TLS CS_TXT_IDX_DHE CS_TXT_IDX_RSA CS_TXT_IDX_WITH CS_TXT_IDX_AES CS_TXT_IDX_256 CS_TXT_IDX_CBC CS_TXT_IDX_SHA;
  CS_ENTRY 0x0039 CS_TXT_IDX_DHE CS_TXT_IDX_RSA CS_TXT_IDX_AES256 CS_TXT_IDX_SHA CS_TXT_IDX_ CS_TXT_IDX_ CS_TXT_IDX_ CS_TXT_IDX_;
  CS_ENTRY 0x003B CS_TXT_IDX_TLS CS_TXT_IDX_RSA CS_TXT_IDX_WITH CS_TXT_IDX_NULL CS_TXT_IDX_SHA256 CS_TXT_IDX_ CS_TXT_IDX_ CS_TXT_IDX_;
  CS_ENTRY 0x003B CS_TXT_IDX_NULL CS_TXT_IDX_SHA256 CS_TXT_IDX_ CS_TXT_IDX_ CS_TXT_IDX_ CS_TXT_IDX_ CS_TXT_IDX_ CS_TXT_IDX_;
  CS_ENTRY 0x0067 CS_TXT_IDX_TLS CS_TXT_IDX_DHE CS_TXT_IDX_RSA CS_TXT_IDX_WITH CS_TXT_IDX_AES CS_TXT_IDX_128 CS_TXT_IDX_CBC CS_TXT_IDX_SHA256;
  CS_ENTRY 0x0067 CS_TXT_IDX_DHE CS_TXT_IDX_RSA CS_TXT_IDX_AES128 CS_TXT_IDX_SHA256 CS_TXT_IDX_ CS_TXT_IDX_ CS_TXT_IDX_ CS_TXT_IDX_;
  CS_ENTRY 0x006B CS_TXT_IDX_TLS CS_TXT_IDX_DHE CS_TXT_IDX_RSA CS_TXT_IDX_WITH CS_TXT_IDX_AES CS_TXT_IDX_256 CS_TXT_IDX_CBC CS_TXT_IDX_SHA256;
  CS_ENTRY 0x006B CS_TXT_IDX_DHE CS_TXT_IDX_RSA CS_TXT_IDX_AES256 CS_TXT_IDX_SHA256 CS_TXT_IDX_ CS_TXT_IDX_ CS_TXT_IDX_ CS_TXT_IDX_;
  CS_ENTRY 0x008C CS_TXT_IDX_TLS CS_TXT_IDX_PSK CS_TXT_IDX_WITH CS_TXT_IDX_AES CS_TXT_IDX_128 CS_TXT_IDX_CBC CS_TXT_IDX_SHA CS_TXT_IDX_;
  CS_ENTRY 0x008C CS_TXT_IDX_PSK CS_TXT_IDX_AES128 CS_TXT_IDX_CBC CS_TXT_IDX_SHA CS_TXT_IDX_ CS_TXT_IDX_ CS_TXT_IDX_ CS_TXT_IDX_;
  CS_ENTRY 0x008D CS_TXT_IDX_TLS CS_TXT_IDX_PSK CS_TXT_IDX_WITH CS_TXT_IDX_AES CS_TXT_IDX_256 CS_TXT_IDX_CBC CS_TXT_IDX_SHA CS_TXT_IDX_;
  CS_ENTRY 0x008D CS_TXT_IDX_PSK CS_TXT_IDX_AES256 CS_TXT_IDX_CBC CS_TXT_IDX_SHA CS_TXT_IDX_ CS_TXT_IDX_ CS_TXT_IDX_ CS_TXT_IDX_;
  CS_ENTRY 0x0090 CS_TXT_IDX_TLS CS_TXT_IDX_DHE CS_TXT_IDX_PSK CS_TXT_IDX_WITH CS_TXT_IDX_AES CS_TXT_IDX_128 CS_TXT_IDX_CBC CS_TXT_IDX_SHA;
  CS_ENTRY 0x0090 CS_TXT_IDX_DHE CS_TXT_IDX_PSK CS_TXT_IDX_AES128 CS_TXT_IDX_CBC CS_TXT_IDX_SHA CS_TXT_IDX_ CS_TXT_IDX_ CS_TXT_IDX_;
  CS_ENTRY 0x0091 CS_TXT_IDX_TLS CS_TXT_IDX_DHE CS_TXT_IDX_PSK CS_TXT_IDX_WITH CS_TXT_IDX_AES CS_TXT_IDX_256 CS_TXT_IDX_CBC CS_TXT_IDX_SHA;
  CS_ENTRY 0x0091 CS_TXT_IDX_DHE CS_TXT_IDX_PSK CS_TXT_IDX_AES256 CS_TXT_IDX_CBC CS_TXT_IDX_SHA CS_TXT_IDX_ CS_TXT_IDX_ CS_TXT_IDX_;
  CS_ENTRY 0x0094 CS_TXT_IDX_TLS CS_TXT_IDX_RSA CS_TXT_IDX_PSK CS_TXT_IDX_WITH CS_TXT_IDX_AES CS_TXT_IDX_128 CS_TXT_IDX_CBC CS_TXT_IDX_SHA;
  CS_ENTRY 0x0094 CS_TXT_IDX_RSA CS_TXT_IDX_PSK CS_TXT_IDX_AES128 CS_TXT_IDX_CBC CS_TXT_IDX_SHA CS_TXT_IDX_ CS_TXT_IDX_ CS_TXT_IDX_;
  CS_ENTRY 0x0095 CS_TXT_IDX_TLS CS_TXT_IDX_RSA CS_TXT_IDX_PSK CS_TXT_IDX_WITH CS_TXT_IDX_AES CS_TXT_IDX_256 CS_TXT_IDX_CBC CS_TXT_IDX_SHA;
  CS_ENTRY 0x0095 CS_TXT_IDX_RSA CS_TXT_IDX_PSK CS_TXT_IDX_AES256 CS_TXT_IDX_CBC CS_TXT_IDX_SHA CS_TXT_IDX_ CS_TXT_IDX_ CS_TXT_IDX_;
  CS_ENTRY 0x009E CS_TXT_IDX_TLS CS_TXT_IDX_DHE CS_TXT_IDX_RSA CS_TXT_IDX_WITH CS_TXT_IDX_AES CS_TXT_IDX_128 CS_TXT_IDX_GCM CS_TXT_IDX_SHA256;
  CS_ENTRY 0x009E CS_TXT_IDX_DHE CS_TXT_IDX_RSA CS_TXT_IDX_AES128 CS_TXT_IDX_GCM CS_TXT_IDX_SHA256 CS_TXT_IDX_ CS_TXT_IDX_ CS_TXT_IDX_;
  CS_ENTRY 0x009F CS_TXT_IDX_TLS CS_TXT_IDX_DHE CS_TXT_IDX_RSA CS_TXT_IDX_WITH CS_TXT_IDX_AES CS_TXT_IDX_256 CS_TXT_IDX_GCM CS_TXT_IDX_SHA384;
  CS_ENTRY 0x009F CS_TXT_IDX_DHE CS_TXT_IDX_RSA CS_TXT_IDX_AES256 CS_TXT_IDX_GCM CS_TXT_IDX_SHA384 CS_TXT_IDX_ CS_TXT_IDX_ CS_TXT_IDX_;
  CS_ENTRY 0x00A8 CS_TXT_IDX_TLS CS_TXT_IDX_PSK CS_TXT_IDX_WITH CS_TXT_IDX_AES CS_TXT_IDX_128 CS_TXT_IDX_GCM CS_TXT_IDX_SHA256 CS_TXT_IDX_;
  CS_ENTRY 0x00A8 CS_TXT_IDX_PSK CS_TXT_IDX_AES128 CS_TXT_IDX_GCM CS_TXT_IDX_SHA256 CS_TXT_IDX_ CS_TXT_IDX_ CS_TXT_IDX_ CS_TXT_IDX_;
  CS_ENTRY 0x00A9 CS_TXT_IDX_TLS CS_TXT_IDX_PSK CS_TXT_IDX_WITH CS_TXT_IDX_AES CS_TXT_IDX_256 CS_TXT_IDX_GCM CS_TXT_IDX_SHA384 CS_TXT_IDX_;
  CS_ENTRY 0x00A9 CS_TXT_IDX_PSK CS_TXT_IDX_AES256 CS_TXT_IDX_GCM CS_TXT_IDX_SHA384 CS_TXT_IDX_ CS_TXT_IDX_ CS_TXT_IDX_ CS_TXT_IDX_;
  CS_ENTRY 0x00AA CS_TXT_IDX_TLS CS_TXT_IDX_DHE CS_TXT_IDX_PSK CS_TXT_IDX_WITH CS_TXT_IDX_AES CS_TXT_IDX_128 CS_TXT_IDX_GCM CS_TXT_IDX_SHA256;
  CS_ENTRY 0x00AA CS_TXT_IDX_DHE CS_TXT_IDX_PSK CS_TXT_IDX_AES128 CS_TXT_IDX_GCM CS_TXT_IDX_SHA256 CS_TXT_IDX_ CS_TXT_IDX_ CS_TXT_IDX_;
  CS_ENTRY 0x00AB CS_TXT_IDX_TLS CS_TXT_IDX_DHE CS_TXT_IDX_PSK CS_TXT_IDX_WITH CS_TXT_IDX_AES CS_TXT_IDX_256 CS_TXT_IDX_GCM CS_TXT_IDX_SHA384;
  CS_ENTRY 0x00AB CS_TXT_IDX_DHE CS_TXT_IDX_PSK CS_TXT_IDX_AES256 CS_TXT_IDX_GCM CS_TXT_IDX_SHA384 CS_TXT_IDX_ CS_TXT_IDX_ CS_TXT_IDX_;
  CS_ENTRY 0x00AC CS_TXT_IDX_TLS CS_TXT_IDX_RSA CS_TXT_IDX_PSK CS_TXT_IDX_WITH CS_TXT_IDX_AES CS_TXT_IDX_128 CS_TXT_IDX_GCM CS_TXT_IDX_SHA256;
  CS_ENTRY 0x00AC CS_TXT_IDX_RSA CS_TXT_IDX_PSK CS_TXT_IDX_AES128 CS_TXT_IDX_GCM CS_TXT_IDX_SHA256 CS_TXT_IDX_ CS_TXT_IDX_ CS_TXT_IDX_;
  CS_ENTRY 0x00AD CS_TXT_IDX_TLS CS_TXT_IDX_RSA CS_TXT_IDX_PSK CS_TXT_IDX_WITH CS_TXT_IDX_AES CS_TXT_IDX_256 CS_TXT_IDX_GCM CS_TXT_IDX_SHA384;
  CS_ENTRY 0x00AD CS_TXT_IDX_RSA CS_TXT_IDX_PSK CS_TXT_IDX_AES256 CS_TXT_IDX_GCM CS_TXT_IDX_SHA384 CS_TXT_IDX_ CS_TXT_IDX_ CS_TXT_IDX_;
  CS_ENTRY 0x00AE CS_TXT_IDX_TLS CS_TXT_IDX_PSK CS_TXT_IDX_WITH CS_TXT_IDX_AES CS_TXT_IDX_128 CS_TXT_IDX_CBC CS_TXT_IDX_SHA256 CS_TXT_IDX_;
  CS_ENTRY 0x00AE CS_TXT_IDX_PSK CS_TXT_IDX_AES128 CS_TXT_IDX_CBC CS_TXT_IDX_SHA256 CS_TXT_IDX_ CS_TXT_IDX_ CS_TXT_IDX_ CS_TXT_IDX_;
  CS_ENTRY 0x00AF CS_TXT_IDX_TLS CS_TXT_IDX_PSK CS_TXT_IDX_WITH CS_TXT_IDX_AES CS_TXT_IDX_256 CS_TXT_IDX_CBC CS_TXT_IDX_SHA384 CS_TXT_IDX_;
  CS_ENTRY 0x00AF CS_TXT_IDX_PSK CS_TXT_IDX_AES256 CS_TXT_IDX_CBC CS_TXT_IDX_SHA384 CS_TXT_IDX_ CS_TXT_IDX_ CS_TXT_IDX_ CS_TXT_IDX_;
  CS_ENTRY 0x00B0 CS_TXT_IDX_TLS CS_TXT_IDX_PSK CS_TXT_IDX_WITH CS_TXT_IDX_NULL CS_TXT_IDX_SHA256 CS_TXT_IDX_ CS_TXT_IDX_ CS_TXT_IDX_;
  CS_ENTRY 0x00B0 CS_TXT_IDX_PSK CS_TXT_IDX_NULL CS_TXT_IDX_SHA256 CS_TXT_IDX_ CS_TXT_IDX_ CS_TXT_IDX_ CS_TXT_IDX_ CS_TXT_IDX_;
  CS_ENTRY 0x00B1 CS_TXT_IDX_TLS CS_TXT_IDX_PSK CS_TXT_IDX_WITH CS_TXT_IDX_NULL CS_TXT_IDX_SHA384 CS_TXT_IDX_ CS_TXT_IDX_ CS_TXT_IDX_;
  CS_ENTRY 0x00B1 CS_TXT_IDX_PSK CS_TXT_IDX_NULL CS_TXT_IDX_SHA384 CS_TXT_IDX_ CS_TXT_IDX_ CS_TXT_IDX_ CS_TXT_IDX_ CS_TXT_IDX_;
  CS_ENTRY 0x00B2 CS_TXT_IDX_TLS CS_TXT_IDX_DHE CS_TXT_IDX_PSK CS_TXT_IDX_WITH CS_TXT_IDX_AES CS_TXT_IDX_128 CS_TXT_IDX_CBC CS_TXT_IDX_SHA256;
  CS_ENTRY 0x00B2 CS_TXT_IDX_DHE CS_TXT_IDX_PSK CS_TXT_IDX_AES128 CS_TXT_IDX_CBC CS_TXT_IDX_SHA256 CS_TXT_IDX_ CS_TXT_IDX_ CS_TXT_IDX_;
  CS_ENTRY 0x00B3 CS_TXT_IDX_TLS CS_TXT_IDX_DHE CS_TXT_IDX_PSK CS_TXT_IDX_WITH CS_TXT_IDX_AES CS_TXT_IDX_256 CS_TXT_IDX_CBC CS_TXT_IDX_SHA384;
  CS_ENTRY 0x00B3 CS_TXT_IDX_DHE CS_TXT_IDX_PSK CS_TXT_IDX_AES256 CS_TXT_IDX_CBC CS_TXT_IDX_SHA384 CS_TXT_IDX_ CS_TXT_IDX_ CS_TXT_IDX_;
  CS_ENTRY 0x00B4 CS_TXT_IDX_TLS CS_TXT_IDX_DHE CS_TXT_IDX_PSK CS_TXT_IDX_WITH CS_TXT_IDX_NULL CS_TXT_IDX_SHA256 CS_TXT_IDX_ CS_TXT_IDX_;
  CS_ENTRY 0x00B4 CS_TXT_IDX_DHE CS_TXT_IDX_PSK CS_TXT_IDX_NULL CS_TXT_IDX_SHA256 CS_TXT_IDX_ CS_TXT_IDX_ CS_TXT_IDX_ CS_TXT_IDX_;
  CS_ENTRY 0x00B5 CS_TXT_IDX_TLS CS_TXT_IDX_DHE CS_TXT_IDX_PSK CS_TXT_IDX_WITH CS_TXT_IDX_NULL CS_TXT_IDX_SHA384 CS_TXT_IDX_ CS_TXT_IDX_;
  CS_ENTRY 0x00B5 CS_TXT_IDX_DHE CS_TXT_IDX_PSK CS_TXT_IDX_NULL CS_TXT_IDX_SHA384 CS_TXT_IDX_ CS_TXT_IDX_ CS_TXT_IDX_ CS_TXT_IDX_;
  CS_ENTRY 0x00B6 CS_TXT_IDX_TLS CS_TXT_IDX_RSA CS_TXT_IDX_PSK CS_TXT_IDX_WITH CS_TXT_IDX_AES CS_TXT_IDX_128 CS_TXT_IDX_CBC CS_TXT_IDX_SHA256;
  CS_ENTRY 0x00B6 CS_TXT_IDX_RSA CS_TXT_IDX_PSK CS_TXT_IDX_AES128 CS_TXT_IDX_CBC CS_TXT_IDX_SHA256 CS_TXT_IDX_ CS_TXT_IDX_ CS_TXT_IDX_;
  CS_ENTRY 0x00B7 CS_TXT_IDX_TLS CS_TXT_IDX_RSA CS_TXT_IDX_PSK CS_TXT_IDX_WITH CS_TXT_IDX_AES CS_TXT_IDX_256 CS_TXT_IDX_CBC CS_TXT_IDX_SHA384;
  CS_ENTRY 0x00B7 CS_TXT_IDX_RSA CS_TXT_IDX_PSK CS_TXT_IDX_AES256 CS_TXT_IDX_CBC CS_TXT_IDX_SHA384 CS_TXT_IDX_ CS_TXT_IDX_ CS_TXT_IDX_;
  CS_ENTRY 0x00B8 CS_TXT_IDX_TLS CS_TXT_IDX_RSA CS_TXT_IDX_PSK CS_TXT_IDX_WITH CS_TXT_IDX_NULL CS_TXT_IDX_SHA256 CS_TXT_IDX_ CS_TXT_IDX_;
  CS_ENTRY 0x00B8 CS_TXT_IDX_RSA CS_TXT_IDX_PSK CS_TXT_IDX_NULL CS_TXT_IDX_SHA256 CS_TXT_IDX_ CS_TXT_IDX_ CS_TXT_IDX_ CS_TXT_IDX_;
  CS_ENTRY 0x00B9 CS_TXT_IDX_TLS CS_TXT_IDX_RSA CS_TXT_IDX_PSK CS_TXT_IDX_WITH CS_TXT_IDX_NULL CS_TXT_IDX_SHA384 CS_TXT_IDX_ CS_TXT_IDX_;
  CS_ENTRY 0x00B9 CS_TXT_IDX_RSA CS_TXT_IDX_PSK CS_TXT_IDX_NULL CS_TXT_IDX_SHA384 CS_TXT_IDX_ CS_TXT_IDX_ CS_TXT_IDX_ CS_TXT_IDX_;
  CS_ENTRY 0x1301 CS_TXT_IDX_TLS CS_TXT_IDX_AES CS_TXT_IDX_128 CS_TXT_IDX_GCM CS_TXT_IDX_SHA256 CS_TXT_IDX_ CS_TXT_IDX_ CS_TXT_IDX_;
  CS_ENTRY 0x1302 CS_TXT_IDX_TLS CS_TXT_IDX_AES CS_TXT_IDX_256 CS_TXT_IDX_GCM CS_TXT_IDX_SHA384 CS_TXT_IDX_ CS_TXT_IDX_ CS_TXT_IDX_;
  CS_ENTRY 0x1303 CS_TXT_IDX_TLS CS_TXT_IDX_CHACHA20 CS_TXT_IDX_POLY1305 CS_TXT_IDX_SHA256 CS_TXT_IDX_ CS_TXT_IDX_ CS_TXT_IDX_ CS_TXT_IDX_;
  CS_ENTRY 0x1304 CS_TXT_IDX_TLS CS_TXT_IDX_AES CS_TXT_IDX_128 CS_TXT_IDX_CCM CS_TXT_IDX_SHA256 CS_TXT_IDX_ CS_TXT_IDX_ CS_TXT_IDX_;
  CS_ENTRY 0x1305 CS_TXT_IDX_TLS CS_TXT_IDX_AES CS_TXT_IDX_128 CS_TXT_IDX_CCM CS_TXT_IDX_8 CS_TXT_IDX_SHA256 CS_TXT_IDX_ CS_TXT_IDX_;
  CS_ENTRY 0xC001 CS_TXT_IDX_TLS CS_TXT_IDX_ECDH CS_TXT_IDX_ECDSA CS_TXT_IDX_WITH CS_TXT_IDX_NULL CS_TXT_IDX_SHA CS_TXT_IDX_ CS_TXT_IDX_;
  CS_ENTRY 0xC001 CS_TXT_IDX_ECDH CS_TXT_IDX_ECDSA CS_TXT_IDX_NULL CS_TXT_IDX_SHA CS_TXT_IDX_ CS_TXT_IDX_ CS_TXT_IDX_ CS_TXT_IDX_;
  CS_ENTRY 0xC006 CS_TXT_IDX_TLS CS_TXT_IDX_ECDHE CS_TXT_IDX_ECDSA CS_TXT_IDX_WITH CS_TXT_IDX_NULL CS_TXT_IDX_SHA CS_TXT_IDX_ CS_TXT_IDX_;
  CS_ENTRY 0xC006 CS_TXT_IDX_ECDHE CS_TXT_IDX_ECDSA CS_TXT_IDX_NULL CS_TXT_IDX_SHA CS_TXT_IDX_ CS_TXT_IDX_ CS_TXT_IDX_ CS_TXT_IDX_;
  CS_ENTRY 0xC00B CS_TXT_IDX_TLS CS_TXT_IDX_ECDH CS_TXT_IDX_RSA CS_TXT_IDX_WITH CS_TXT_IDX_NULL CS_TXT_IDX_SHA CS_TXT_IDX_ CS_TXT_IDX_;
  CS_ENTRY 0xC00B CS_TXT_IDX_ECDH CS_TXT_IDX_RSA CS_TXT_IDX_NULL CS_TXT_IDX_SHA CS_TXT_IDX_ CS_TXT_IDX_ CS_TXT_IDX_ CS_TXT_IDX_;
  CS_ENTRY 0xC010 CS_TXT_IDX_TLS CS_TXT_IDX_ECDHE CS_TXT_IDX_RSA CS_TXT_IDX_WITH CS_TXT_IDX_NULL CS_TXT_IDX_SHA CS_TXT_IDX_ CS_TXT_IDX_;
  CS_ENTRY 0xC010 CS_TXT_IDX_ECDHE CS_TXT_IDX_RSA CS_TXT_IDX_NULL CS_TXT_IDX_SHA CS_TXT_IDX_ CS_TXT_IDX_ CS_TXT_IDX_ CS_TXT_IDX_;
  CS_ENTRY 0xC035 CS_TXT_IDX_TLS CS_TXT_IDX_ECDHE CS_TXT_IDX_PSK CS_TXT_IDX_WITH CS_TXT_IDX_AES CS_TXT_IDX_128 CS_TXT_IDX_CBC CS_TXT_IDX_SHA;
  CS_ENTRY 0xC035 CS_TXT_IDX_ECDHE CS_TXT_IDX_PSK CS_TXT_IDX_AES128 CS_TXT_IDX_CBC CS_TXT_IDX_SHA CS_TXT_IDX_ CS_TXT_IDX_ CS_TXT_IDX_;
  CS_ENTRY 0xC036 CS_TXT_IDX_TLS CS_TXT_IDX_ECDHE CS_TXT_IDX_PSK CS_TXT_IDX_WITH CS_TXT_IDX_AES CS_TXT_IDX_256 CS_TXT_IDX_CBC CS_TXT_IDX_SHA;
  CS_ENTRY 0xC036 CS_TXT_IDX_ECDHE CS_TXT_IDX_PSK CS_TXT_IDX_AES256 CS_TXT_IDX_CBC CS_TXT_IDX_SHA CS_TXT_IDX_ CS_TXT_IDX_ CS_TXT_IDX_;
  CS_ENTRY 0xCCAB CS_TXT_IDX_TLS CS_TXT_IDX_PSK CS_TXT_IDX_WITH CS_TXT_IDX_CHACHA20 CS_TXT_IDX_POLY1305 CS_TXT_IDX_SHA256 CS_TXT_IDX_ CS_TXT_IDX_;
  CS_ENTRY 0xCCAB CS_TXT_IDX_PSK CS_TXT_IDX_CHACHA20 CS_TXT_IDX_POLY1305 CS_TXT_IDX_ CS_TXT_IDX_ CS_TXT_IDX_ CS_TXT_IDX_ CS_TXT_IDX_;

  CS_ENTRY 0xC09C CS_TXT_IDX_TLS CS_TXT_IDX_RSA CS_TXT_IDX_WITH CS_TXT_IDX_AES CS_TXT_IDX_128 CS_TXT_IDX_CCM CS_TXT_IDX_ CS_TXT_IDX_;
  CS_ENTRY 0xC09C CS_TXT_IDX_AES128 CS_TXT_IDX_CCM CS_TXT_IDX_ CS_TXT_IDX_ CS_TXT_IDX_ CS_TXT_IDX_ CS_TXT_IDX_ CS_TXT_IDX_;
  CS_ENTRY 0xC09D CS_TXT_IDX_TLS CS_TXT_IDX_RSA CS_TXT_IDX_WITH CS_TXT_IDX_AES CS_TXT_IDX_256 CS_TXT_IDX_CCM CS_TXT_IDX_ CS_TXT_IDX_;
  CS_ENTRY 0xC09D CS_TXT_IDX_AES256 CS_TXT_IDX_CCM CS_TXT_IDX_ CS_TXT_IDX_ CS_TXT_IDX_ CS_TXT_IDX_ CS_TXT_IDX_ CS_TXT_IDX_;
  CS_ENTRY 0xC0A0 CS_TXT_IDX_TLS CS_TXT_IDX_RSA CS_TXT_IDX_WITH CS_TXT_IDX_AES CS_TXT_IDX_128 CS_TXT_IDX_CCM CS_TXT_IDX_8 CS_TXT_IDX_;
  CS_ENTRY 0xC0A0 CS_TXT_IDX_AES128 CS_TXT_IDX_CCM8 CS_TXT_IDX_ CS_TXT_IDX_ CS_TXT_IDX_ CS_TXT_IDX_ CS_TXT_IDX_ CS_TXT_IDX_;
  CS_ENTRY 0xC0A1 CS_TXT_IDX_TLS CS_TXT_IDX_RSA CS_TXT_IDX_WITH CS_TXT_IDX_AES CS_TXT_IDX_256 CS_TXT_IDX_CCM CS_TXT_IDX_8 CS_TXT_IDX_;
  CS_ENTRY 0xC0A1 CS_TXT_IDX_AES256 CS_TXT_IDX_CCM8 CS_TXT_IDX_ CS_TXT_IDX_ CS_TXT_IDX_ CS_TXT_IDX_ CS_TXT_IDX_ CS_TXT_IDX_;
  CS_ENTRY 0xC0AC CS_TXT_IDX_TLS CS_TXT_IDX_ECDHE CS_TXT_IDX_ECDSA CS_TXT_IDX_WITH CS_TXT_IDX_AES CS_TXT_IDX_128 CS_TXT_IDX_CCM CS_TXT_IDX_;
  CS_ENTRY 0xC0AC CS_TXT_IDX_ECDHE CS_TXT_IDX_ECDSA CS_TXT_IDX_AES128 CS_TXT_IDX_CCM CS_TXT_IDX_ CS_TXT_IDX_ CS_TXT_IDX_ CS_TXT_IDX_;
  CS_ENTRY 0xC0AD CS_TXT_IDX_TLS CS_TXT_IDX_ECDHE CS_TXT_IDX_ECDSA CS_TXT_IDX_WITH CS_TXT_IDX_AES CS_TXT_IDX_256 CS_TXT_IDX_CCM CS_TXT_IDX_;
  CS_ENTRY 0xC0AD CS_TXT_IDX_ECDHE CS_TXT_IDX_ECDSA CS_TXT_IDX_AES256 CS_TXT_IDX_CCM CS_TXT_IDX_ CS_TXT_IDX_ CS_TXT_IDX_ CS_TXT_IDX_;
  CS_ENTRY 0xC0AE CS_TXT_IDX_TLS CS_TXT_IDX_ECDHE CS_TXT_IDX_ECDSA CS_TXT_IDX_WITH CS_TXT_IDX_AES CS_TXT_IDX_128 CS_TXT_IDX_CCM CS_TXT_IDX_8;
  CS_ENTRY 0xC0AE CS_TXT_IDX_ECDHE CS_TXT_IDX_ECDSA CS_TXT_IDX_AES128 CS_TXT_IDX_CCM8 CS_TXT_IDX_ CS_TXT_IDX_ CS_TXT_IDX_ CS_TXT_IDX_;
  CS_ENTRY 0xC0AF CS_TXT_IDX_TLS CS_TXT_IDX_ECDHE CS_TXT_IDX_ECDSA CS_TXT_IDX_WITH CS_TXT_IDX_AES CS_TXT_IDX_256 CS_TXT_IDX_CCM CS_TXT_IDX_8;
  CS_ENTRY 0xC0AF CS_TXT_IDX_ECDHE CS_TXT_IDX_ECDSA CS_TXT_IDX_AES256 CS_TXT_IDX_CCM8 CS_TXT_IDX_ CS_TXT_IDX_ CS_TXT_IDX_ CS_TXT_IDX_;

  (* entries marked ns are non-standard, they are not in openssl *)
  CS_ENTRY 0x0041 CS_TXT_IDX_TLS CS_TXT_IDX_RSA CS_TXT_IDX_WITH CS_TXT_IDX_CAMELLIA CS_TXT_IDX_128 CS_TXT_IDX_CBC CS_TXT_IDX_SHA CS_TXT_IDX_;
  CS_ENTRY 0x0041 CS_TXT_IDX_CAMELLIA128 CS_TXT_IDX_SHA CS_TXT_IDX_ CS_TXT_IDX_ CS_TXT_IDX_ CS_TXT_IDX_ CS_TXT_IDX_ CS_TXT_IDX_;
  CS_ENTRY 0x0045 CS_TXT_IDX_TLS CS_TXT_IDX_DHE CS_TXT_IDX_RSA CS_TXT_IDX_WITH CS_TXT_IDX_CAMELLIA CS_TXT_IDX_128 CS_TXT_IDX_CBC CS_TXT_IDX_SHA;
  CS_ENTRY 0x0045 CS_TXT_IDX_DHE CS_TXT_IDX_RSA CS_TXT_IDX_CAMELLIA128 CS_TXT_IDX_SHA CS_TXT_IDX_ CS_TXT_IDX_ CS_TXT_IDX_ CS_TXT_IDX_;
  CS_ENTRY 0x0084 CS_TXT_IDX_TLS CS_TXT_IDX_RSA CS_TXT_IDX_WITH CS_TXT_IDX_CAMELLIA CS_TXT_IDX_256 CS_TXT_IDX_CBC CS_TXT_IDX_SHA CS_TXT_IDX_;
  CS_ENTRY 0x0084 CS_TXT_IDX_CAMELLIA256 CS_TXT_IDX_SHA CS_TXT_IDX_ CS_TXT_IDX_ CS_TXT_IDX_ CS_TXT_IDX_ CS_TXT_IDX_ CS_TXT_IDX_;
  CS_ENTRY 0x0088 CS_TXT_IDX_TLS CS_TXT_IDX_DHE CS_TXT_IDX_RSA CS_TXT_IDX_WITH CS_TXT_IDX_CAMELLIA CS_TXT_IDX_256 CS_TXT_IDX_CBC CS_TXT_IDX_SHA;
  CS_ENTRY 0x0088 CS_TXT_IDX_DHE CS_TXT_IDX_RSA CS_TXT_IDX_CAMELLIA256 CS_TXT_IDX_SHA CS_TXT_IDX_ CS_TXT_IDX_ CS_TXT_IDX_ CS_TXT_IDX_;
  CS_ENTRY 0x00BA CS_TXT_IDX_TLS CS_TXT_IDX_RSA CS_TXT_IDX_WITH CS_TXT_IDX_CAMELLIA CS_TXT_IDX_128 CS_TXT_IDX_CBC CS_TXT_IDX_SHA256 CS_TXT_IDX_;
  CS_ENTRY 0x00BA CS_TXT_IDX_CAMELLIA128 CS_TXT_IDX_SHA256 CS_TXT_IDX_ CS_TXT_IDX_ CS_TXT_IDX_ CS_TXT_IDX_ CS_TXT_IDX_ CS_TXT_IDX_;
  CS_ENTRY 0x00BE CS_TXT_IDX_TLS CS_TXT_IDX_DHE CS_TXT_IDX_RSA CS_TXT_IDX_WITH CS_TXT_IDX_CAMELLIA CS_TXT_IDX_128 CS_TXT_IDX_CBC CS_TXT_IDX_SHA256;
  CS_ENTRY 0x00BE CS_TXT_IDX_DHE CS_TXT_IDX_RSA CS_TXT_IDX_CAMELLIA128 CS_TXT_IDX_SHA256 CS_TXT_IDX_ CS_TXT_IDX_ CS_TXT_IDX_ CS_TXT_IDX_;
  CS_ENTRY 0x00C0 CS_TXT_IDX_TLS CS_TXT_IDX_RSA CS_TXT_IDX_WITH CS_TXT_IDX_CAMELLIA CS_TXT_IDX_256 CS_TXT_IDX_CBC CS_TXT_IDX_SHA256 CS_TXT_IDX_;
  CS_ENTRY 0x00C0 CS_TXT_IDX_CAMELLIA256 CS_TXT_IDX_SHA256 CS_TXT_IDX_ CS_TXT_IDX_ CS_TXT_IDX_ CS_TXT_IDX_ CS_TXT_IDX_ CS_TXT_IDX_;
  CS_ENTRY 0x00C4 CS_TXT_IDX_TLS CS_TXT_IDX_DHE CS_TXT_IDX_RSA CS_TXT_IDX_WITH CS_TXT_IDX_CAMELLIA CS_TXT_IDX_256 CS_TXT_IDX_CBC CS_TXT_IDX_SHA256;
  CS_ENTRY 0x00C4 CS_TXT_IDX_DHE CS_TXT_IDX_RSA CS_TXT_IDX_CAMELLIA256 CS_TXT_IDX_SHA256 CS_TXT_IDX_ CS_TXT_IDX_ CS_TXT_IDX_ CS_TXT_IDX_;
  CS_ENTRY 0xC037 CS_TXT_IDX_TLS CS_TXT_IDX_ECDHE CS_TXT_IDX_PSK CS_TXT_IDX_WITH CS_TXT_IDX_AES CS_TXT_IDX_128 CS_TXT_IDX_CBC CS_TXT_IDX_SHA256;
  CS_ENTRY 0xC037 CS_TXT_IDX_ECDHE CS_TXT_IDX_PSK CS_TXT_IDX_AES128 CS_TXT_IDX_CBC CS_TXT_IDX_SHA256 CS_TXT_IDX_ CS_TXT_IDX_ CS_TXT_IDX_;
  CS_ENTRY 0xC038 CS_TXT_IDX_TLS CS_TXT_IDX_ECDHE CS_TXT_IDX_PSK CS_TXT_IDX_WITH CS_TXT_IDX_AES CS_TXT_IDX_256 CS_TXT_IDX_CBC CS_TXT_IDX_SHA384;
  CS_ENTRY 0xC038 CS_TXT_IDX_ECDHE CS_TXT_IDX_PSK CS_TXT_IDX_AES256 CS_TXT_IDX_CBC CS_TXT_IDX_SHA384 CS_TXT_IDX_ CS_TXT_IDX_ CS_TXT_IDX_;
  CS_ENTRY 0xC039 CS_TXT_IDX_TLS CS_TXT_IDX_ECDHE CS_TXT_IDX_PSK CS_TXT_IDX_WITH CS_TXT_IDX_NULL CS_TXT_IDX_SHA CS_TXT_IDX_ CS_TXT_IDX_;
  CS_ENTRY 0xC039 CS_TXT_IDX_ECDHE CS_TXT_IDX_PSK CS_TXT_IDX_NULL CS_TXT_IDX_SHA CS_TXT_IDX_ CS_TXT_IDX_ CS_TXT_IDX_ CS_TXT_IDX_;
  CS_ENTRY 0xC03A CS_TXT_IDX_TLS CS_TXT_IDX_ECDHE CS_TXT_IDX_PSK CS_TXT_IDX_WITH CS_TXT_IDX_NULL CS_TXT_IDX_SHA256 CS_TXT_IDX_ CS_TXT_IDX_;
  CS_ENTRY 0xC03A CS_TXT_IDX_ECDHE CS_TXT_IDX_PSK CS_TXT_IDX_NULL CS_TXT_IDX_SHA256 CS_TXT_IDX_ CS_TXT_IDX_ CS_TXT_IDX_ CS_TXT_IDX_;
  CS_ENTRY 0xC03B CS_TXT_IDX_TLS CS_TXT_IDX_ECDHE CS_TXT_IDX_PSK CS_TXT_IDX_WITH CS_TXT_IDX_NULL CS_TXT_IDX_SHA384 CS_TXT_IDX_ CS_TXT_IDX_;
  CS_ENTRY 0xC03B CS_TXT_IDX_ECDHE CS_TXT_IDX_PSK CS_TXT_IDX_NULL CS_TXT_IDX_SHA384 CS_TXT_IDX_ CS_TXT_IDX_ CS_TXT_IDX_ CS_TXT_IDX_;
  CS_ENTRY 0xC03C CS_TXT_IDX_TLS CS_TXT_IDX_RSA CS_TXT_IDX_WITH CS_TXT_IDX_ARIA CS_TXT_IDX_128 CS_TXT_IDX_CBC CS_TXT_IDX_SHA256 CS_TXT_IDX_;
  CS_ENTRY 0xC03C CS_TXT_IDX_ARIA128 CS_TXT_IDX_SHA256 CS_TXT_IDX_ CS_TXT_IDX_ CS_TXT_IDX_ CS_TXT_IDX_ CS_TXT_IDX_ CS_TXT_IDX_; (* ns *)
  CS_ENTRY 0xC03D CS_TXT_IDX_TLS CS_TXT_IDX_RSA CS_TXT_IDX_WITH CS_TXT_IDX_ARIA CS_TXT_IDX_256 CS_TXT_IDX_CBC CS_TXT_IDX_SHA384 CS_TXT_IDX_;
  CS_ENTRY 0xC03D CS_TXT_IDX_ARIA256 CS_TXT_IDX_SHA384 CS_TXT_IDX_ CS_TXT_IDX_ CS_TXT_IDX_ CS_TXT_IDX_ CS_TXT_IDX_ CS_TXT_IDX_; (* ns *)
  CS_ENTRY 0xC044 CS_TXT_IDX_TLS CS_TXT_IDX_DHE CS_TXT_IDX_RSA CS_TXT_IDX_WITH CS_TXT_IDX_ARIA CS_TXT_IDX_128 CS_TXT_IDX_CBC CS_TXT_IDX_SHA256;
  CS_ENTRY 0xC044 CS_TXT_IDX_DHE CS_TXT_IDX_RSA CS_TXT_IDX_ARIA128 CS_TXT_IDX_SHA256 CS_TXT_IDX_ CS_TXT_IDX_ CS_TXT_IDX_ CS_TXT_IDX_; (* ns *)
  CS_ENTRY 0xC045 CS_TXT_IDX_TLS CS_TXT_IDX_DHE CS_TXT_IDX_RSA CS_TXT_IDX_WITH CS_TXT_IDX_ARIA CS_TXT_IDX_256 CS_TXT_IDX_CBC CS_TXT_IDX_SHA384;
  CS_ENTRY 0xC045 CS_TXT_IDX_DHE CS_TXT_IDX_RSA CS_TXT_IDX_ARIA256 CS_TXT_IDX_SHA384 CS_TXT_IDX_ CS_TXT_IDX_ CS_TXT_IDX_ CS_TXT_IDX_; (* ns *)
  CS_ENTRY 0xC048 CS_TXT_IDX_TLS CS_TXT_IDX_ECDHE CS_TXT_IDX_ECDSA CS_TXT_IDX_WITH CS_TXT_IDX_ARIA CS_TXT_IDX_128 CS_TXT_IDX_CBC CS_TXT_IDX_SHA256;
  CS_ENTRY 0xC048 CS_TXT_IDX_ECDHE CS_TXT_IDX_ECDSA CS_TXT_IDX_ARIA128 CS_TXT_IDX_SHA256 CS_TXT_IDX_ CS_TXT_IDX_ CS_TXT_IDX_ CS_TXT_IDX_; (* ns *)
  CS_ENTRY 0xC049 CS_TXT_IDX_TLS CS_TXT_IDX_ECDHE CS_TXT_IDX_ECDSA CS_TXT_IDX_WITH CS_TXT_IDX_ARIA CS_TXT_IDX_256 CS_TXT_IDX_CBC CS_TXT_IDX_SHA384;
  CS_ENTRY 0xC049 CS_TXT_IDX_ECDHE CS_TXT_IDX_ECDSA CS_TXT_IDX_ARIA256 CS_TXT_IDX_SHA384 CS_TXT_IDX_ CS_TXT_IDX_ CS_TXT_IDX_ CS_TXT_IDX_; (* ns *)
  CS_ENTRY 0xC04A CS_TXT_IDX_TLS CS_TXT_IDX_ECDH CS_TXT_IDX_ECDSA CS_TXT_IDX_WITH CS_TXT_IDX_ARIA CS_TXT_IDX_128 CS_TXT_IDX_CBC CS_TXT_IDX_SHA256;
  CS_ENTRY 0xC04A CS_TXT_IDX_ECDH CS_TXT_IDX_ECDSA CS_TXT_IDX_ARIA128 CS_TXT_IDX_SHA256 CS_TXT_IDX_ CS_TXT_IDX_ CS_TXT_IDX_ CS_TXT_IDX_; (* ns *)
  CS_ENTRY 0xC04B CS_TXT_IDX_TLS CS_TXT_IDX_ECDH CS_TXT_IDX_ECDSA CS_TXT_IDX_WITH CS_TXT_IDX_ARIA CS_TXT_IDX_256 CS_TXT_IDX_CBC CS_TXT_IDX_SHA384;
  CS_ENTRY 0xC04B CS_TXT_IDX_ECDH CS_TXT_IDX_ECDSA CS_TXT_IDX_ARIA256 CS_TXT_IDX_SHA384 CS_TXT_IDX_ CS_TXT_IDX_ CS_TXT_IDX_ CS_TXT_IDX_; (* ns *)
  CS_ENTRY 0xC04C CS_TXT_IDX_TLS CS_TXT_IDX_ECDHE CS_TXT_IDX_RSA CS_TXT_IDX_WITH CS_TXT_IDX_ARIA CS_TXT_IDX_128 CS_TXT_IDX_CBC CS_TXT_IDX_SHA256;
  CS_ENTRY 0xC04C CS_TXT_IDX_ECDHE CS_TXT_IDX_ARIA128 CS_TXT_IDX_SHA256 CS_TXT_IDX_ CS_TXT_IDX_ CS_TXT_IDX_ CS_TXT_IDX_ CS_TXT_IDX_; (* ns *)
  CS_ENTRY 0xC04D CS_TXT_IDX_TLS CS_TXT_IDX_ECDHE CS_TXT_IDX_RSA CS_TXT_IDX_WITH CS_TXT_IDX_ARIA CS_TXT_IDX_256 CS_TXT_IDX_CBC CS_TXT_IDX_SHA384;
  CS_ENTRY 0xC04D CS_TXT_IDX_ECDHE CS_TXT_IDX_ARIA256 CS_TXT_IDX_SHA384 CS_TXT_IDX_ CS_TXT_IDX_ CS_TXT_IDX_ CS_TXT_IDX_ CS_TXT_IDX_; (* ns *)
  CS_ENTRY 0xC04E CS_TXT_IDX_TLS CS_TXT_IDX_ECDH CS_TXT_IDX_RSA CS_TXT_IDX_WITH CS_TXT_IDX_ARIA CS_TXT_IDX_128 CS_TXT_IDX_CBC CS_TXT_IDX_SHA256;
  CS_ENTRY 0xC04E CS_TXT_IDX_ECDH CS_TXT_IDX_ARIA128 CS_TXT_IDX_SHA256 CS_TXT_IDX_ CS_TXT_IDX_ CS_TXT_IDX_ CS_TXT_IDX_ CS_TXT_IDX_; (* ns *)
  CS_ENTRY 0xC04F CS_TXT_IDX_TLS CS_TXT_IDX_ECDH CS_TXT_IDX_RSA CS_TXT_IDX_WITH CS_TXT_IDX_ARIA CS_TXT_IDX_256 CS_TXT_IDX_CBC CS_TXT_IDX_SHA384;
  CS_ENTRY 0xC04F CS_TXT_IDX_ECDH CS_TXT_IDX_ARIA256 CS_TXT_IDX_SHA384 CS_TXT_IDX_ CS_TXT_IDX_ CS_TXT_IDX_ CS_TXT_IDX_ CS_TXT_IDX_; (* ns *)
  CS_ENTRY 0xC050 CS_TXT_IDX_TLS CS_TXT_IDX_RSA CS_TXT_IDX_WITH CS_TXT_IDX_ARIA CS_TXT_IDX_128 CS_TXT_IDX_GCM CS_TXT_IDX_SHA256 CS_TXT_IDX_;
  CS_ENTRY 0xC050 CS_TXT_IDX_ARIA128 CS_TXT_IDX_GCM CS_TXT_IDX_SHA256 CS_TXT_IDX_ CS_TXT_IDX_ CS_TXT_IDX_ CS_TXT_IDX_ CS_TXT_IDX_;
  CS_ENTRY 0xC051 CS_TXT_IDX_TLS CS_TXT_IDX_RSA CS_TXT_IDX_WITH CS_TXT_IDX_ARIA CS_TXT_IDX_256 CS_TXT_IDX_GCM CS_TXT_IDX_SHA384 CS_TXT_IDX_;
  CS_ENTRY 0xC051 CS_TXT_IDX_ARIA256 CS_TXT_IDX_GCM CS_TXT_IDX_SHA384 CS_TXT_IDX_ CS_TXT_IDX_ CS_TXT_IDX_ CS_TXT_IDX_ CS_TXT_IDX_;
  CS_ENTRY 0xC052 CS_TXT_IDX_TLS CS_TXT_IDX_DHE CS_TXT_IDX_RSA CS_TXT_IDX_WITH CS_TXT_IDX_ARIA CS_TXT_IDX_128 CS_TXT_IDX_GCM CS_TXT_IDX_SHA256;
  CS_ENTRY 0xC052 CS_TXT_IDX_DHE CS_TXT_IDX_RSA CS_TXT_IDX_ARIA128 CS_TXT_IDX_GCM CS_TXT_IDX_SHA256 CS_TXT_IDX_ CS_TXT_IDX_ CS_TXT_IDX_;
  CS_ENTRY 0xC053 CS_TXT_IDX_TLS CS_TXT_IDX_DHE CS_TXT_IDX_RSA CS_TXT_IDX_WITH CS_TXT_IDX_ARIA CS_TXT_IDX_256 CS_TXT_IDX_GCM CS_TXT_IDX_SHA384;
  CS_ENTRY 0xC053 CS_TXT_IDX_DHE CS_TXT_IDX_RSA CS_TXT_IDX_ARIA256 CS_TXT_IDX_GCM CS_TXT_IDX_SHA384 CS_TXT_IDX_ CS_TXT_IDX_ CS_TXT_IDX_;
  CS_ENTRY 0xC05C CS_TXT_IDX_TLS CS_TXT_IDX_ECDHE CS_TXT_IDX_ECDSA CS_TXT_IDX_WITH CS_TXT_IDX_ARIA CS_TXT_IDX_128 CS_TXT_IDX_GCM CS_TXT_IDX_SHA256;
  CS_ENTRY 0xC05C CS_TXT_IDX_ECDHE CS_TXT_IDX_ECDSA CS_TXT_IDX_ARIA128 CS_TXT_IDX_GCM CS_TXT_IDX_SHA256 CS_TXT_IDX_ CS_TXT_IDX_ CS_TXT_IDX_;
  CS_ENTRY 0xC05D CS_TXT_IDX_TLS CS_TXT_IDX_ECDHE CS_TXT_IDX_ECDSA CS_TXT_IDX_WITH CS_TXT_IDX_ARIA CS_TXT_IDX_256 CS_TXT_IDX_GCM CS_TXT_IDX_SHA384;
  CS_ENTRY 0xC05D CS_TXT_IDX_ECDHE CS_TXT_IDX_ECDSA CS_TXT_IDX_ARIA256 CS_TXT_IDX_GCM CS_TXT_IDX_SHA384 CS_TXT_IDX_ CS_TXT_IDX_ CS_TXT_IDX_;
  CS_ENTRY 0xC05E CS_TXT_IDX_TLS CS_TXT_IDX_ECDH CS_TXT_IDX_ECDSA CS_TXT_IDX_WITH CS_TXT_IDX_ARIA CS_TXT_IDX_128 CS_TXT_IDX_GCM CS_TXT_IDX_SHA256;
  CS_ENTRY 0xC05E CS_TXT_IDX_ECDH CS_TXT_IDX_ECDSA CS_TXT_IDX_ARIA128 CS_TXT_IDX_GCM CS_TXT_IDX_SHA256 CS_TXT_IDX_ CS_TXT_IDX_ CS_TXT_IDX_; (* ns *)
  CS_ENTRY 0xC05F CS_TXT_IDX_TLS CS_TXT_IDX_ECDH CS_TXT_IDX_ECDSA CS_TXT_IDX_WITH CS_TXT_IDX_ARIA CS_TXT_IDX_256 CS_TXT_IDX_GCM CS_TXT_IDX_SHA384;
  CS_ENTRY 0xC05F CS_TXT_IDX_ECDH CS_TXT_IDX_ECDSA CS_TXT_IDX_ARIA256 CS_TXT_IDX_GCM CS_TXT_IDX_SHA384 CS_TXT_IDX_ CS_TXT_IDX_ CS_TXT_IDX_; (* ns *)
  CS_ENTRY 0xC060 CS_TXT_IDX_TLS CS_TXT_IDX_ECDHE CS_TXT_IDX_RSA CS_TXT_IDX_WITH CS_TXT_IDX_ARIA CS_TXT_IDX_128 CS_TXT_IDX_GCM CS_TXT_IDX_SHA256;
  CS_ENTRY 0xC060 CS_TXT_IDX_ECDHE CS_TXT_IDX_ARIA128 CS_TXT_IDX_GCM CS_TXT_IDX_SHA256 CS_TXT_IDX_ CS_TXT_IDX_ CS_TXT_IDX_ CS_TXT_IDX_;
  CS_ENTRY 0xC061 CS_TXT_IDX_TLS CS_TXT_IDX_ECDHE CS_TXT_IDX_RSA CS_TXT_IDX_WITH CS_TXT_IDX_ARIA CS_TXT_IDX_256 CS_TXT_IDX_GCM CS_TXT_IDX_SHA384;
  CS_ENTRY 0xC061 CS_TXT_IDX_ECDHE CS_TXT_IDX_ARIA256 CS_TXT_IDX_GCM CS_TXT_IDX_SHA384 CS_TXT_IDX_ CS_TXT_IDX_ CS_TXT_IDX_ CS_TXT_IDX_;
  CS_ENTRY 0xC062 CS_TXT_IDX_TLS CS_TXT_IDX_ECDH CS_TXT_IDX_RSA CS_TXT_IDX_WITH CS_TXT_IDX_ARIA CS_TXT_IDX_128 CS_TXT_IDX_GCM CS_TXT_IDX_SHA256;
  CS_ENTRY 0xC062 CS_TXT_IDX_ECDH CS_TXT_IDX_ARIA128 CS_TXT_IDX_GCM CS_TXT_IDX_SHA256 CS_TXT_IDX_ CS_TXT_IDX_ CS_TXT_IDX_ CS_TXT_IDX_; (* ns *)
  CS_ENTRY 0xC063 CS_TXT_IDX_TLS CS_TXT_IDX_ECDH CS_TXT_IDX_RSA CS_TXT_IDX_WITH CS_TXT_IDX_ARIA CS_TXT_IDX_256 CS_TXT_IDX_GCM CS_TXT_IDX_SHA384;
  CS_ENTRY 0xC063 CS_TXT_IDX_ECDH CS_TXT_IDX_ARIA256 CS_TXT_IDX_GCM CS_TXT_IDX_SHA384 CS_TXT_IDX_ CS_TXT_IDX_ CS_TXT_IDX_ CS_TXT_IDX_; (* ns *)
  CS_ENTRY 0xC064 CS_TXT_IDX_TLS CS_TXT_IDX_PSK CS_TXT_IDX_WITH CS_TXT_IDX_ARIA CS_TXT_IDX_128 CS_TXT_IDX_CBC CS_TXT_IDX_SHA256 CS_TXT_IDX_;
  CS_ENTRY 0xC064 CS_TXT_IDX_PSK CS_TXT_IDX_ARIA128 CS_TXT_IDX_SHA256 CS_TXT_IDX_ CS_TXT_IDX_ CS_TXT_IDX_ CS_TXT_IDX_ CS_TXT_IDX_; (* ns *)
  CS_ENTRY 0xC065 CS_TXT_IDX_TLS CS_TXT_IDX_PSK CS_TXT_IDX_WITH CS_TXT_IDX_ARIA CS_TXT_IDX_256 CS_TXT_IDX_CBC CS_TXT_IDX_SHA384 CS_TXT_IDX_;
  CS_ENTRY 0xC065 CS_TXT_IDX_PSK CS_TXT_IDX_ARIA256 CS_TXT_IDX_SHA384 CS_TXT_IDX_ CS_TXT_IDX_ CS_TXT_IDX_ CS_TXT_IDX_ CS_TXT_IDX_; (* ns *)
  CS_ENTRY 0xC066 CS_TXT_IDX_TLS CS_TXT_IDX_DHE CS_TXT_IDX_PSK CS_TXT_IDX_WITH CS_TXT_IDX_ARIA CS_TXT_IDX_128 CS_TXT_IDX_CBC CS_TXT_IDX_SHA256;
  CS_ENTRY 0xC066 CS_TXT_IDX_DHE CS_TXT_IDX_PSK CS_TXT_IDX_ARIA128 CS_TXT_IDX_SHA256 CS_TXT_IDX_ CS_TXT_IDX_ CS_TXT_IDX_ CS_TXT_IDX_; (* ns *)
  CS_ENTRY 0xC067 CS_TXT_IDX_TLS CS_TXT_IDX_DHE CS_TXT_IDX_PSK CS_TXT_IDX_WITH CS_TXT_IDX_ARIA CS_TXT_IDX_256 CS_TXT_IDX_CBC CS_TXT_IDX_SHA384;
  CS_ENTRY 0xC067 CS_TXT_IDX_DHE CS_TXT_IDX_PSK CS_TXT_IDX_ARIA256 CS_TXT_IDX_SHA384 CS_TXT_IDX_ CS_TXT_IDX_ CS_TXT_IDX_ CS_TXT_IDX_; (* ns *)
  CS_ENTRY 0xC068 CS_TXT_IDX_TLS CS_TXT_IDX_RSA CS_TXT_IDX_PSK CS_TXT_IDX_WITH CS_TXT_IDX_ARIA CS_TXT_IDX_128 CS_TXT_IDX_CBC CS_TXT_IDX_SHA256;
  CS_ENTRY 0xC068 CS_TXT_IDX_RSA CS_TXT_IDX_PSK CS_TXT_IDX_ARIA128 CS_TXT_IDX_SHA256 CS_TXT_IDX_ CS_TXT_IDX_ CS_TXT_IDX_ CS_TXT_IDX_; (* ns *)
  CS_ENTRY 0xC069 CS_TXT_IDX_TLS CS_TXT_IDX_RSA CS_TXT_IDX_PSK CS_TXT_IDX_WITH CS_TXT_IDX_ARIA CS_TXT_IDX_256 CS_TXT_IDX_CBC CS_TXT_IDX_SHA384;
  CS_ENTRY 0xC069 CS_TXT_IDX_RSA CS_TXT_IDX_PSK CS_TXT_IDX_ARIA256 CS_TXT_IDX_SHA384 CS_TXT_IDX_ CS_TXT_IDX_ CS_TXT_IDX_ CS_TXT_IDX_; (* ns *)
  CS_ENTRY 0xC06A CS_TXT_IDX_TLS CS_TXT_IDX_PSK CS_TXT_IDX_WITH CS_TXT_IDX_ARIA CS_TXT_IDX_128 CS_TXT_IDX_GCM CS_TXT_IDX_SHA256 CS_TXT_IDX_;
  CS_ENTRY 0xC06A CS_TXT_IDX_PSK CS_TXT_IDX_ARIA128 CS_TXT_IDX_GCM CS_TXT_IDX_SHA256 CS_TXT_IDX_ CS_TXT_IDX_ CS_TXT_IDX_ CS_TXT_IDX_;
  CS_ENTRY 0xC06B CS_TXT_IDX_TLS CS_TXT_IDX_PSK CS_TXT_IDX_WITH CS_TXT_IDX_ARIA CS_TXT_IDX_256 CS_TXT_IDX_GCM CS_TXT_IDX_SHA384 CS_TXT_IDX_;
  CS_ENTRY 0xC06B CS_TXT_IDX_PSK CS_TXT_IDX_ARIA256 CS_TXT_IDX_GCM CS_TXT_IDX_SHA384 CS_TXT_IDX_ CS_TXT_IDX_ CS_TXT_IDX_ CS_TXT_IDX_;
  CS_ENTRY 0xC06C CS_TXT_IDX_TLS CS_TXT_IDX_DHE CS_TXT_IDX_PSK CS_TXT_IDX_WITH CS_TXT_IDX_ARIA CS_TXT_IDX_128 CS_TXT_IDX_GCM CS_TXT_IDX_SHA256;
  CS_ENTRY 0xC06C CS_TXT_IDX_DHE CS_TXT_IDX_PSK CS_TXT_IDX_ARIA128 CS_TXT_IDX_GCM CS_TXT_IDX_SHA256 CS_TXT_IDX_ CS_TXT_IDX_ CS_TXT_IDX_;
  CS_ENTRY 0xC06D CS_TXT_IDX_TLS CS_TXT_IDX_DHE CS_TXT_IDX_PSK CS_TXT_IDX_WITH CS_TXT_IDX_ARIA CS_TXT_IDX_256 CS_TXT_IDX_GCM CS_TXT_IDX_SHA384;
  CS_ENTRY 0xC06D CS_TXT_IDX_DHE CS_TXT_IDX_PSK CS_TXT_IDX_ARIA256 CS_TXT_IDX_GCM CS_TXT_IDX_SHA384 CS_TXT_IDX_ CS_TXT_IDX_ CS_TXT_IDX_;
  CS_ENTRY 0xC06E CS_TXT_IDX_TLS CS_TXT_IDX_RSA CS_TXT_IDX_PSK CS_TXT_IDX_WITH CS_TXT_IDX_ARIA CS_TXT_IDX_128 CS_TXT_IDX_GCM CS_TXT_IDX_SHA256;
  CS_ENTRY 0xC06E CS_TXT_IDX_RSA CS_TXT_IDX_PSK CS_TXT_IDX_ARIA128 CS_TXT_IDX_GCM CS_TXT_IDX_SHA256 CS_TXT_IDX_ CS_TXT_IDX_ CS_TXT_IDX_;
  CS_ENTRY 0xC06F CS_TXT_IDX_TLS CS_TXT_IDX_RSA CS_TXT_IDX_PSK CS_TXT_IDX_WITH CS_TXT_IDX_ARIA CS_TXT_IDX_256 CS_TXT_IDX_GCM CS_TXT_IDX_SHA384;
  CS_ENTRY 0xC06F CS_TXT_IDX_RSA CS_TXT_IDX_PSK CS_TXT_IDX_ARIA256 CS_TXT_IDX_GCM CS_TXT_IDX_SHA384 CS_TXT_IDX_ CS_TXT_IDX_ CS_TXT_IDX_;
  CS_ENTRY 0xC070 CS_TXT_IDX_TLS CS_TXT_IDX_ECDHE CS_TXT_IDX_PSK CS_TXT_IDX_WITH CS_TXT_IDX_ARIA CS_TXT_IDX_128 CS_TXT_IDX_CBC CS_TXT_IDX_SHA256;
  CS_ENTRY 0xC070 CS_TXT_IDX_ECDHE CS_TXT_IDX_PSK CS_TXT_IDX_ARIA128 CS_TXT_IDX_SHA256 CS_TXT_IDX_ CS_TXT_IDX_ CS_TXT_IDX_ CS_TXT_IDX_; (* ns *)
  CS_ENTRY 0xC071 CS_TXT_IDX_TLS CS_TXT_IDX_ECDHE CS_TXT_IDX_PSK CS_TXT_IDX_WITH CS_TXT_IDX_ARIA CS_TXT_IDX_256 CS_TXT_IDX_CBC CS_TXT_IDX_SHA384;
  CS_ENTRY 0xC071 CS_TXT_IDX_ECDHE CS_TXT_IDX_PSK CS_TXT_IDX_ARIA256 CS_TXT_IDX_SHA384 CS_TXT_IDX_ CS_TXT_IDX_ CS_TXT_IDX_ CS_TXT_IDX_; (* ns *)
  CS_ENTRY 0xC072 CS_TXT_IDX_TLS CS_TXT_IDX_ECDHE CS_TXT_IDX_ECDSA CS_TXT_IDX_WITH CS_TXT_IDX_CAMELLIA CS_TXT_IDX_128 CS_TXT_IDX_CBC CS_TXT_IDX_SHA256;
  CS_ENTRY 0xC072 CS_TXT_IDX_ECDHE CS_TXT_IDX_ECDSA CS_TXT_IDX_CAMELLIA128 CS_TXT_IDX_SHA256 CS_TXT_IDX_ CS_TXT_IDX_ CS_TXT_IDX_ CS_TXT_IDX_;
  CS_ENTRY 0xC073 CS_TXT_IDX_TLS CS_TXT_IDX_ECDHE CS_TXT_IDX_ECDSA CS_TXT_IDX_WITH CS_TXT_IDX_CAMELLIA CS_TXT_IDX_256 CS_TXT_IDX_CBC CS_TXT_IDX_SHA384;
  CS_ENTRY 0xC073 CS_TXT_IDX_ECDHE CS_TXT_IDX_ECDSA CS_TXT_IDX_CAMELLIA256 CS_TXT_IDX_SHA384 CS_TXT_IDX_ CS_TXT_IDX_ CS_TXT_IDX_ CS_TXT_IDX_;
  CS_ENTRY 0xC074 CS_TXT_IDX_TLS CS_TXT_IDX_ECDH CS_TXT_IDX_ECDSA CS_TXT_IDX_WITH CS_TXT_IDX_CAMELLIA CS_TXT_IDX_128 CS_TXT_IDX_CBC CS_TXT_IDX_SHA256;
  CS_ENTRY 0xC074 CS_TXT_IDX_ECDH CS_TXT_IDX_ECDSA CS_TXT_IDX_CAMELLIA128 CS_TXT_IDX_SHA256 CS_TXT_IDX_ CS_TXT_IDX_ CS_TXT_IDX_ CS_TXT_IDX_; (* ns *)
  CS_ENTRY 0xC075 CS_TXT_IDX_TLS CS_TXT_IDX_ECDH CS_TXT_IDX_ECDSA CS_TXT_IDX_WITH CS_TXT_IDX_CAMELLIA CS_TXT_IDX_256 CS_TXT_IDX_CBC CS_TXT_IDX_SHA384;
  CS_ENTRY 0xC075 CS_TXT_IDX_ECDH CS_TXT_IDX_ECDSA CS_TXT_IDX_CAMELLIA256 CS_TXT_IDX_SHA384 CS_TXT_IDX_ CS_TXT_IDX_ CS_TXT_IDX_ CS_TXT_IDX_; (* ns *)
  CS_ENTRY 0xC076 CS_TXT_IDX_TLS CS_TXT_IDX_ECDHE CS_TXT_IDX_RSA CS_TXT_IDX_WITH CS_TXT_IDX_CAMELLIA CS_TXT_IDX_128 CS_TXT_IDX_CBC CS_TXT_IDX_SHA256;
  CS_ENTRY 0xC076 CS_TXT_IDX_ECDHE CS_TXT_IDX_RSA CS_TXT_IDX_CAMELLIA128 CS_TXT_IDX_SHA256 CS_TXT_IDX_ CS_TXT_IDX_ CS_TXT_IDX_ CS_TXT_IDX_;
  CS_ENTRY 0xC077 CS_TXT_IDX_TLS CS_TXT_IDX_ECDHE CS_TXT_IDX_RSA CS_TXT_IDX_WITH CS_TXT_IDX_CAMELLIA CS_TXT_IDX_256 CS_TXT_IDX_CBC CS_TXT_IDX_SHA384;
  CS_ENTRY 0xC077 CS_TXT_IDX_ECDHE CS_TXT_IDX_RSA CS_TXT_IDX_CAMELLIA256 CS_TXT_IDX_SHA384 CS_TXT_IDX_ CS_TXT_IDX_ CS_TXT_IDX_ CS_TXT_IDX_;
  CS_ENTRY 0xC078 CS_TXT_IDX_TLS CS_TXT_IDX_ECDH CS_TXT_IDX_RSA CS_TXT_IDX_WITH CS_TXT_IDX_CAMELLIA CS_TXT_IDX_128 CS_TXT_IDX_CBC CS_TXT_IDX_SHA256;
  CS_ENTRY 0xC078 CS_TXT_IDX_ECDH CS_TXT_IDX_CAMELLIA128 CS_TXT_IDX_SHA256 CS_TXT_IDX_ CS_TXT_IDX_ CS_TXT_IDX_ CS_TXT_IDX_ CS_TXT_IDX_; (* ns *)
  CS_ENTRY 0xC079 CS_TXT_IDX_TLS CS_TXT_IDX_ECDH CS_TXT_IDX_RSA CS_TXT_IDX_WITH CS_TXT_IDX_CAMELLIA CS_TXT_IDX_256 CS_TXT_IDX_CBC CS_TXT_IDX_SHA384;
  CS_ENTRY 0xC079 CS_TXT_IDX_ECDH CS_TXT_IDX_CAMELLIA256 CS_TXT_IDX_SHA384 CS_TXT_IDX_ CS_TXT_IDX_ CS_TXT_IDX_ CS_TXT_IDX_ CS_TXT_IDX_; (* ns *)
  CS_ENTRY 0xC07A CS_TXT_IDX_TLS CS_TXT_IDX_RSA CS_TXT_IDX_WITH CS_TXT_IDX_CAMELLIA CS_TXT_IDX_128 CS_TXT_IDX_GCM CS_TXT_IDX_SHA256 CS_TXT_IDX_;
  CS_ENTRY 0xC07A CS_TXT_IDX_CAMELLIA128 CS_TXT_IDX_GCM CS_TXT_IDX_SHA256 CS_TXT_IDX_ CS_TXT_IDX_ CS_TXT_IDX_ CS_TXT_IDX_ CS_TXT_IDX_; (* ns *)
  CS_ENTRY 0xC07B CS_TXT_IDX_TLS CS_TXT_IDX_RSA CS_TXT_IDX_WITH CS_TXT_IDX_CAMELLIA CS_TXT_IDX_256 CS_TXT_IDX_GCM CS_TXT_IDX_SHA384 CS_TXT_IDX_;
  CS_ENTRY 0xC07B CS_TXT_IDX_CAMELLIA256 CS_TXT_IDX_GCM CS_TXT_IDX_SHA384 CS_TXT_IDX_ CS_TXT_IDX_ CS_TXT_IDX_ CS_TXT_IDX_ CS_TXT_IDX_; (* ns *)
  CS_ENTRY 0xC07C CS_TXT_IDX_TLS CS_TXT_IDX_DHE CS_TXT_IDX_RSA CS_TXT_IDX_WITH CS_TXT_IDX_CAMELLIA CS_TXT_IDX_128 CS_TXT_IDX_GCM CS_TXT_IDX_SHA256;
  CS_ENTRY 0xC07C CS_TXT_IDX_DHE CS_TXT_IDX_RSA CS_TXT_IDX_CAMELLIA128 CS_TXT_IDX_GCM CS_TXT_IDX_SHA256 CS_TXT_IDX_ CS_TXT_IDX_ CS_TXT_IDX_; (* ns *)
  CS_ENTRY 0xC07D CS_TXT_IDX_TLS CS_TXT_IDX_DHE CS_TXT_IDX_RSA CS_TXT_IDX_WITH CS_TXT_IDX_CAMELLIA CS_TXT_IDX_256 CS_TXT_IDX_GCM CS_TXT_IDX_SHA384;
  CS_ENTRY 0xC07D CS_TXT_IDX_DHE CS_TXT_IDX_RSA CS_TXT_IDX_CAMELLIA256 CS_TXT_IDX_GCM CS_TXT_IDX_SHA384 CS_TXT_IDX_ CS_TXT_IDX_ CS_TXT_IDX_; (* ns *)
  CS_ENTRY 0xC086 CS_TXT_IDX_TLS CS_TXT_IDX_ECDHE CS_TXT_IDX_ECDSA CS_TXT_IDX_WITH CS_TXT_IDX_CAMELLIA CS_TXT_IDX_128 CS_TXT_IDX_GCM CS_TXT_IDX_SHA256;
  CS_ENTRY 0xC086 CS_TXT_IDX_ECDHE CS_TXT_IDX_ECDSA CS_TXT_IDX_CAMELLIA128 CS_TXT_IDX_GCM CS_TXT_IDX_SHA256 CS_TXT_IDX_ CS_TXT_IDX_ CS_TXT_IDX_; (* ns *)
  CS_ENTRY 0xC087 CS_TXT_IDX_TLS CS_TXT_IDX_ECDHE CS_TXT_IDX_ECDSA CS_TXT_IDX_WITH CS_TXT_IDX_CAMELLIA CS_TXT_IDX_256 CS_TXT_IDX_GCM CS_TXT_IDX_SHA384;
  CS_ENTRY 0xC087 CS_TXT_IDX_ECDHE CS_TXT_IDX_ECDSA CS_TXT_IDX_CAMELLIA256 CS_TXT_IDX_GCM CS_TXT_IDX_SHA384 CS_TXT_IDX_ CS_TXT_IDX_ CS_TXT_IDX_; (* ns *)
  CS_ENTRY 0xC088 CS_TXT_IDX_TLS CS_TXT_IDX_ECDH CS_TXT_IDX_ECDSA CS_TXT_IDX_WITH CS_TXT_IDX_CAMELLIA CS_TXT_IDX_128 CS_TXT_IDX_GCM CS_TXT_IDX_SHA256;
  CS_ENTRY 0xC088 CS_TXT_IDX_ECDH CS_TXT_IDX_ECDSA CS_TXT_IDX_CAMELLIA128 CS_TXT_IDX_GCM CS_TXT_IDX_SHA256 CS_TXT_IDX_ CS_TXT_IDX_ CS_TXT_IDX_; (* ns *)
  CS_ENTRY 0xC089 CS_TXT_IDX_TLS CS_TXT_IDX_ECDH CS_TXT_IDX_ECDSA CS_TXT_IDX_WITH CS_TXT_IDX_CAMELLIA CS_TXT_IDX_256 CS_TXT_IDX_GCM CS_TXT_IDX_SHA384;
  CS_ENTRY 0xC089 CS_TXT_IDX_ECDH CS_TXT_IDX_ECDSA CS_TXT_IDX_CAMELLIA256 CS_TXT_IDX_GCM CS_TXT_IDX_SHA384 CS_TXT_IDX_ CS_TXT_IDX_ CS_TXT_IDX_; (* ns *)
  CS_ENTRY 0xC08A CS_TXT_IDX_TLS CS_TXT_IDX_ECDHE CS_TXT_IDX_RSA CS_TXT_IDX_WITH CS_TXT_IDX_CAMELLIA CS_TXT_IDX_128 CS_TXT_IDX_GCM CS_TXT_IDX_SHA256;
  CS_ENTRY 0xC08A CS_TXT_IDX_ECDHE CS_TXT_IDX_CAMELLIA128 CS_TXT_IDX_GCM CS_TXT_IDX_SHA256 CS_TXT_IDX_ CS_TXT_IDX_ CS_TXT_IDX_ CS_TXT_IDX_; (* ns *)
  CS_ENTRY 0xC08B CS_TXT_IDX_TLS CS_TXT_IDX_ECDHE CS_TXT_IDX_RSA CS_TXT_IDX_WITH CS_TXT_IDX_CAMELLIA CS_TXT_IDX_256 CS_TXT_IDX_GCM CS_TXT_IDX_SHA384;
  CS_ENTRY 0xC08B CS_TXT_IDX_ECDHE CS_TXT_IDX_CAMELLIA256 CS_TXT_IDX_GCM CS_TXT_IDX_SHA384 CS_TXT_IDX_ CS_TXT_IDX_ CS_TXT_IDX_ CS_TXT_IDX_; (* ns *)
  CS_ENTRY 0xC08C CS_TXT_IDX_TLS CS_TXT_IDX_ECDH CS_TXT_IDX_RSA CS_TXT_IDX_WITH CS_TXT_IDX_CAMELLIA CS_TXT_IDX_128 CS_TXT_IDX_GCM CS_TXT_IDX_SHA256;
  CS_ENTRY 0xC08C CS_TXT_IDX_ECDH CS_TXT_IDX_CAMELLIA128 CS_TXT_IDX_GCM CS_TXT_IDX_SHA256 CS_TXT_IDX_ CS_TXT_IDX_ CS_TXT_IDX_ CS_TXT_IDX_; (* ns *)
  CS_ENTRY 0xC08D CS_TXT_IDX_TLS CS_TXT_IDX_ECDH CS_TXT_IDX_RSA CS_TXT_IDX_WITH CS_TXT_IDX_CAMELLIA CS_TXT_IDX_256 CS_TXT_IDX_GCM CS_TXT_IDX_SHA384;
  CS_ENTRY 0xC08D CS_TXT_IDX_ECDH CS_TXT_IDX_CAMELLIA256 CS_TXT_IDX_GCM CS_TXT_IDX_SHA384 CS_TXT_IDX_ CS_TXT_IDX_ CS_TXT_IDX_ CS_TXT_IDX_; (* ns *)
  CS_ENTRY 0xC08E CS_TXT_IDX_TLS CS_TXT_IDX_PSK CS_TXT_IDX_WITH CS_TXT_IDX_CAMELLIA CS_TXT_IDX_128 CS_TXT_IDX_GCM CS_TXT_IDX_SHA256 CS_TXT_IDX_;
  CS_ENTRY 0xC08E CS_TXT_IDX_PSK CS_TXT_IDX_CAMELLIA128 CS_TXT_IDX_GCM CS_TXT_IDX_SHA256 CS_TXT_IDX_ CS_TXT_IDX_ CS_TXT_IDX_ CS_TXT_IDX_; (* ns *)
  CS_ENTRY 0xC08F CS_TXT_IDX_TLS CS_TXT_IDX_PSK CS_TXT_IDX_WITH CS_TXT_IDX_CAMELLIA CS_TXT_IDX_256 CS_TXT_IDX_GCM CS_TXT_IDX_SHA384 CS_TXT_IDX_;
  CS_ENTRY 0xC08F CS_TXT_IDX_PSK CS_TXT_IDX_CAMELLIA256 CS_TXT_IDX_GCM CS_TXT_IDX_SHA384 CS_TXT_IDX_ CS_TXT_IDX_ CS_TXT_IDX_ CS_TXT_IDX_; (* ns *)
  CS_ENTRY 0xC090 CS_TXT_IDX_TLS CS_TXT_IDX_DHE CS_TXT_IDX_PSK CS_TXT_IDX_WITH CS_TXT_IDX_CAMELLIA CS_TXT_IDX_128 CS_TXT_IDX_GCM CS_TXT_IDX_SHA256;
  CS_ENTRY 0xC090 CS_TXT_IDX_DHE CS_TXT_IDX_PSK CS_TXT_IDX_CAMELLIA128 CS_TXT_IDX_GCM CS_TXT_IDX_SHA256 CS_TXT_IDX_ CS_TXT_IDX_ CS_TXT_IDX_; (* ns *)
  CS_ENTRY 0xC091 CS_TXT_IDX_TLS CS_TXT_IDX_DHE CS_TXT_IDX_PSK CS_TXT_IDX_WITH CS_TXT_IDX_CAMELLIA CS_TXT_IDX_256 CS_TXT_IDX_GCM CS_TXT_IDX_SHA384;
  CS_ENTRY 0xC091 CS_TXT_IDX_DHE CS_TXT_IDX_PSK CS_TXT_IDX_CAMELLIA256 CS_TXT_IDX_GCM CS_TXT_IDX_SHA384 CS_TXT_IDX_ CS_TXT_IDX_ CS_TXT_IDX_; (* ns *)
  CS_ENTRY 0xC092 CS_TXT_IDX_TLS CS_TXT_IDX_RSA CS_TXT_IDX_PSK CS_TXT_IDX_WITH CS_TXT_IDX_CAMELLIA CS_TXT_IDX_128 CS_TXT_IDX_GCM CS_TXT_IDX_SHA256;
  CS_ENTRY 0xC092 CS_TXT_IDX_RSA CS_TXT_IDX_PSK CS_TXT_IDX_CAMELLIA128 CS_TXT_IDX_GCM CS_TXT_IDX_SHA256 CS_TXT_IDX_ CS_TXT_IDX_ CS_TXT_IDX_; (* ns *)
  CS_ENTRY 0xC093 CS_TXT_IDX_TLS CS_TXT_IDX_RSA CS_TXT_IDX_PSK CS_TXT_IDX_WITH CS_TXT_IDX_CAMELLIA CS_TXT_IDX_256 CS_TXT_IDX_GCM CS_TXT_IDX_SHA384;
  CS_ENTRY 0xC093 CS_TXT_IDX_RSA CS_TXT_IDX_PSK CS_TXT_IDX_CAMELLIA256 CS_TXT_IDX_GCM CS_TXT_IDX_SHA384 CS_TXT_IDX_ CS_TXT_IDX_ CS_TXT_IDX_; (* ns *)
  CS_ENTRY 0xC094 CS_TXT_IDX_TLS CS_TXT_IDX_PSK CS_TXT_IDX_WITH CS_TXT_IDX_CAMELLIA CS_TXT_IDX_128 CS_TXT_IDX_CBC CS_TXT_IDX_SHA256 CS_TXT_IDX_;
  CS_ENTRY 0xC094 CS_TXT_IDX_PSK CS_TXT_IDX_CAMELLIA128 CS_TXT_IDX_SHA256 CS_TXT_IDX_ CS_TXT_IDX_ CS_TXT_IDX_ CS_TXT_IDX_ CS_TXT_IDX_;
  CS_ENTRY 0xC095 CS_TXT_IDX_TLS CS_TXT_IDX_PSK CS_TXT_IDX_WITH CS_TXT_IDX_CAMELLIA CS_TXT_IDX_256 CS_TXT_IDX_CBC CS_TXT_IDX_SHA384 CS_TXT_IDX_;
  CS_ENTRY 0xC095 CS_TXT_IDX_PSK CS_TXT_IDX_CAMELLIA256 CS_TXT_IDX_SHA384 CS_TXT_IDX_ CS_TXT_IDX_ CS_TXT_IDX_ CS_TXT_IDX_ CS_TXT_IDX_;
  CS_ENTRY 0xC096 CS_TXT_IDX_TLS CS_TXT_IDX_DHE CS_TXT_IDX_PSK CS_TXT_IDX_WITH CS_TXT_IDX_CAMELLIA CS_TXT_IDX_128 CS_TXT_IDX_CBC CS_TXT_IDX_SHA256;
  CS_ENTRY 0xC096 CS_TXT_IDX_DHE CS_TXT_IDX_PSK CS_TXT_IDX_CAMELLIA128 CS_TXT_IDX_SHA256 CS_TXT_IDX_ CS_TXT_IDX_ CS_TXT_IDX_ CS_TXT_IDX_;
  CS_ENTRY 0xC097 CS_TXT_IDX_TLS CS_TXT_IDX_DHE CS_TXT_IDX_PSK CS_TXT_IDX_WITH CS_TXT_IDX_CAMELLIA CS_TXT_IDX_256 CS_TXT_IDX_CBC CS_TXT_IDX_SHA384;
  CS_ENTRY 0xC097 CS_TXT_IDX_DHE CS_TXT_IDX_PSK CS_TXT_IDX_CAMELLIA256 CS_TXT_IDX_SHA384 CS_TXT_IDX_ CS_TXT_IDX_ CS_TXT_IDX_ CS_TXT_IDX_;
  CS_ENTRY 0xC098 CS_TXT_IDX_TLS CS_TXT_IDX_RSA CS_TXT_IDX_PSK CS_TXT_IDX_WITH CS_TXT_IDX_CAMELLIA CS_TXT_IDX_128 CS_TXT_IDX_CBC CS_TXT_IDX_SHA256;
  CS_ENTRY 0xC098 CS_TXT_IDX_RSA CS_TXT_IDX_PSK CS_TXT_IDX_CAMELLIA128 CS_TXT_IDX_SHA256 CS_TXT_IDX_ CS_TXT_IDX_ CS_TXT_IDX_ CS_TXT_IDX_;
  CS_ENTRY 0xC099 CS_TXT_IDX_TLS CS_TXT_IDX_RSA CS_TXT_IDX_PSK CS_TXT_IDX_WITH CS_TXT_IDX_CAMELLIA CS_TXT_IDX_256 CS_TXT_IDX_CBC CS_TXT_IDX_SHA384;
  CS_ENTRY 0xC099 CS_TXT_IDX_RSA CS_TXT_IDX_PSK CS_TXT_IDX_CAMELLIA256 CS_TXT_IDX_SHA384 CS_TXT_IDX_ CS_TXT_IDX_ CS_TXT_IDX_ CS_TXT_IDX_;
  CS_ENTRY 0xC09A CS_TXT_IDX_TLS CS_TXT_IDX_ECDHE CS_TXT_IDX_PSK CS_TXT_IDX_WITH CS_TXT_IDX_CAMELLIA CS_TXT_IDX_128 CS_TXT_IDX_CBC CS_TXT_IDX_SHA256;
  CS_ENTRY 0xC09A CS_TXT_IDX_ECDHE CS_TXT_IDX_PSK CS_TXT_IDX_CAMELLIA128 CS_TXT_IDX_SHA256 CS_TXT_IDX_ CS_TXT_IDX_ CS_TXT_IDX_ CS_TXT_IDX_;
  CS_ENTRY 0xC09B CS_TXT_IDX_TLS CS_TXT_IDX_ECDHE CS_TXT_IDX_PSK CS_TXT_IDX_WITH CS_TXT_IDX_CAMELLIA CS_TXT_IDX_256 CS_TXT_IDX_CBC CS_TXT_IDX_SHA384;
  CS_ENTRY 0xC09B CS_TXT_IDX_ECDHE CS_TXT_IDX_PSK CS_TXT_IDX_CAMELLIA256 CS_TXT_IDX_SHA384 CS_TXT_IDX_ CS_TXT_IDX_ CS_TXT_IDX_ CS_TXT_IDX_;
  CS_ENTRY 0xC09E CS_TXT_IDX_TLS CS_TXT_IDX_DHE CS_TXT_IDX_RSA CS_TXT_IDX_WITH CS_TXT_IDX_AES CS_TXT_IDX_128 CS_TXT_IDX_CCM CS_TXT_IDX_;
  CS_ENTRY 0xC09E CS_TXT_IDX_DHE CS_TXT_IDX_RSA CS_TXT_IDX_AES128 CS_TXT_IDX_CCM CS_TXT_IDX_ CS_TXT_IDX_ CS_TXT_IDX_ CS_TXT_IDX_;
  CS_ENTRY 0xC09F CS_TXT_IDX_TLS CS_TXT_IDX_DHE CS_TXT_IDX_RSA CS_TXT_IDX_WITH CS_TXT_IDX_AES CS_TXT_IDX_256 CS_TXT_IDX_CCM CS_TXT_IDX_;
  CS_ENTRY 0xC09F CS_TXT_IDX_DHE CS_TXT_IDX_RSA CS_TXT_IDX_AES256 CS_TXT_IDX_CCM CS_TXT_IDX_ CS_TXT_IDX_ CS_TXT_IDX_ CS_TXT_IDX_;
  CS_ENTRY 0xC0A2 CS_TXT_IDX_TLS CS_TXT_IDX_DHE CS_TXT_IDX_RSA CS_TXT_IDX_WITH CS_TXT_IDX_AES CS_TXT_IDX_128 CS_TXT_IDX_CCM CS_TXT_IDX_8;
  CS_ENTRY 0xC0A2 CS_TXT_IDX_DHE CS_TXT_IDX_RSA CS_TXT_IDX_AES128 CS_TXT_IDX_CCM8 CS_TXT_IDX_ CS_TXT_IDX_ CS_TXT_IDX_ CS_TXT_IDX_;
  CS_ENTRY 0xC0A3 CS_TXT_IDX_TLS CS_TXT_IDX_DHE CS_TXT_IDX_RSA CS_TXT_IDX_WITH CS_TXT_IDX_AES CS_TXT_IDX_256 CS_TXT_IDX_CCM CS_TXT_IDX_8;
  CS_ENTRY 0xC0A3 CS_TXT_IDX_DHE CS_TXT_IDX_RSA CS_TXT_IDX_AES256 CS_TXT_IDX_CCM8 CS_TXT_IDX_ CS_TXT_IDX_ CS_TXT_IDX_ CS_TXT_IDX_;
  CS_ENTRY 0xC0A4 CS_TXT_IDX_TLS CS_TXT_IDX_PSK CS_TXT_IDX_WITH CS_TXT_IDX_AES CS_TXT_IDX_128 CS_TXT_IDX_CCM CS_TXT_IDX_ CS_TXT_IDX_;
  CS_ENTRY 0xC0A4 CS_TXT_IDX_PSK CS_TXT_IDX_AES128 CS_TXT_IDX_CCM CS_TXT_IDX_ CS_TXT_IDX_ CS_TXT_IDX_ CS_TXT_IDX_ CS_TXT_IDX_;
  CS_ENTRY 0xC0A5 CS_TXT_IDX_TLS CS_TXT_IDX_PSK CS_TXT_IDX_WITH CS_TXT_IDX_AES CS_TXT_IDX_256 CS_TXT_IDX_CCM CS_TXT_IDX_ CS_TXT_IDX_;
  CS_ENTRY 0xC0A5 CS_TXT_IDX_PSK CS_TXT_IDX_AES256 CS_TXT_IDX_CCM CS_TXT_IDX_ CS_TXT_IDX_ CS_TXT_IDX_ CS_TXT_IDX_ CS_TXT_IDX_;
  CS_ENTRY 0xC0A6 CS_TXT_IDX_TLS CS_TXT_IDX_DHE CS_TXT_IDX_PSK CS_TXT_IDX_WITH CS_TXT_IDX_AES CS_TXT_IDX_128 CS_TXT_IDX_CCM CS_TXT_IDX_;
  CS_ENTRY 0xC0A6 CS_TXT_IDX_DHE CS_TXT_IDX_PSK CS_TXT_IDX_AES128 CS_TXT_IDX_CCM CS_TXT_IDX_ CS_TXT_IDX_ CS_TXT_IDX_ CS_TXT_IDX_;
  CS_ENTRY 0xC0A7 CS_TXT_IDX_TLS CS_TXT_IDX_DHE CS_TXT_IDX_PSK CS_TXT_IDX_WITH CS_TXT_IDX_AES CS_TXT_IDX_256 CS_TXT_IDX_CCM CS_TXT_IDX_;
  CS_ENTRY 0xC0A7 CS_TXT_IDX_DHE CS_TXT_IDX_PSK CS_TXT_IDX_AES256 CS_TXT_IDX_CCM CS_TXT_IDX_ CS_TXT_IDX_ CS_TXT_IDX_ CS_TXT_IDX_;
  CS_ENTRY 0xC0A8 CS_TXT_IDX_TLS CS_TXT_IDX_PSK CS_TXT_IDX_WITH CS_TXT_IDX_AES CS_TXT_IDX_128 CS_TXT_IDX_CCM CS_TXT_IDX_8 CS_TXT_IDX_;
  CS_ENTRY 0xC0A8 CS_TXT_IDX_PSK CS_TXT_IDX_AES128 CS_TXT_IDX_CCM8 CS_TXT_IDX_ CS_TXT_IDX_ CS_TXT_IDX_ CS_TXT_IDX_ CS_TXT_IDX_;
  CS_ENTRY 0xC0A9 CS_TXT_IDX_TLS CS_TXT_IDX_PSK CS_TXT_IDX_WITH CS_TXT_IDX_AES CS_TXT_IDX_256 CS_TXT_IDX_CCM CS_TXT_IDX_8 CS_TXT_IDX_;
  CS_ENTRY 0xC0A9 CS_TXT_IDX_PSK CS_TXT_IDX_AES256 CS_TXT_IDX_CCM8 CS_TXT_IDX_ CS_TXT_IDX_ CS_TXT_IDX_ CS_TXT_IDX_ CS_TXT_IDX_;
  CS_ENTRY 0xC0AA CS_TXT_IDX_TLS CS_TXT_IDX_PSK CS_TXT_IDX_DHE CS_TXT_IDX_WITH CS_TXT_IDX_AES CS_TXT_IDX_128 CS_TXT_IDX_CCM CS_TXT_IDX_8;
  CS_ENTRY 0xC0AA CS_TXT_IDX_DHE CS_TXT_IDX_PSK CS_TXT_IDX_AES128 CS_TXT_IDX_CCM8 CS_TXT_IDX_ CS_TXT_IDX_ CS_TXT_IDX_ CS_TXT_IDX_;
  CS_ENTRY 0xC0AB CS_TXT_IDX_TLS CS_TXT_IDX_PSK CS_TXT_IDX_DHE CS_TXT_IDX_WITH CS_TXT_IDX_AES CS_TXT_IDX_256 CS_TXT_IDX_CCM CS_TXT_IDX_8;
  CS_ENTRY 0xC0AB CS_TXT_IDX_DHE CS_TXT_IDX_PSK CS_TXT_IDX_AES256 CS_TXT_IDX_CCM8 CS_TXT_IDX_ CS_TXT_IDX_ CS_TXT_IDX_ CS_TXT_IDX_;
  CS_ENTRY 0xCCAA CS_TXT_IDX_TLS CS_TXT_IDX_DHE CS_TXT_IDX_RSA CS_TXT_IDX_WITH CS_TXT_IDX_CHACHA20 CS_TXT_IDX_POLY1305 CS_TXT_IDX_SHA256 CS_TXT_IDX_;
  CS_ENTRY 0xCCAA CS_TXT_IDX_DHE CS_TXT_IDX_RSA CS_TXT_IDX_CHACHA20 CS_TXT_IDX_POLY1305 CS_TXT_IDX_ CS_TXT_IDX_ CS_TXT_IDX_ CS_TXT_IDX_;
  CS_ENTRY 0xCCAC CS_TXT_IDX_TLS CS_TXT_IDX_ECDHE CS_TXT_IDX_PSK CS_TXT_IDX_WITH CS_TXT_IDX_CHACHA20 CS_TXT_IDX_POLY1305 CS_TXT_IDX_SHA256 CS_TXT_IDX_;
  CS_ENTRY 0xCCAC CS_TXT_IDX_ECDHE CS_TXT_IDX_PSK CS_TXT_IDX_CHACHA20 CS_TXT_IDX_POLY1305 CS_TXT_IDX_ CS_TXT_IDX_ CS_TXT_IDX_ CS_TXT_IDX_;
  CS_ENTRY 0xCCAD CS_TXT_IDX_TLS CS_TXT_IDX_DHE CS_TXT_IDX_PSK CS_TXT_IDX_WITH CS_TXT_IDX_CHACHA20 CS_TXT_IDX_POLY1305 CS_TXT_IDX_SHA256 CS_TXT_IDX_;
  CS_ENTRY 0xCCAD CS_TXT_IDX_DHE CS_TXT_IDX_PSK CS_TXT_IDX_CHACHA20 CS_TXT_IDX_POLY1305 CS_TXT_IDX_ CS_TXT_IDX_ CS_TXT_IDX_ CS_TXT_IDX_;
  CS_ENTRY 0xCCAE CS_TXT_IDX_TLS CS_TXT_IDX_RSA CS_TXT_IDX_PSK CS_TXT_IDX_WITH CS_TXT_IDX_CHACHA20 CS_TXT_IDX_POLY1305 CS_TXT_IDX_SHA256 CS_TXT_IDX_;
  CS_ENTRY 0xCCAE CS_TXT_IDX_RSA CS_TXT_IDX_PSK CS_TXT_IDX_CHACHA20 CS_TXT_IDX_POLY1305 CS_TXT_IDX_ CS_TXT_IDX_ CS_TXT_IDX_ CS_TXT_IDX_
].

Definition CS_LIST_LEN : nat := length cs_list.

(** ** Encoder: [cs_str_to_zip] *)

(** The two [return -1] of [cs_str_to_zip]; the C function reports both as
    the same value, the embedding keeps them apart. *)
Inductive cs_error : Type :=
| TooManyFields   (* if(i == 8) return -1; *)
| UnknownToken.   (* if(idx == CS_TXT_LEN) return -1; *)

(** [strncasecompare(cs_str, "TLS", 3)] chooses between the separators. *)
Definition cs_separator (cs_str : list ascii) : ascii :=
  if strncasecompare cs_str (lit "TLS") 3 then "_"%char else "-"%char.

(** [for(; nxt < end && *nxt != '\0' && *nxt != separator; nxt++);] with
    [rem = end - nxt]; the result is [len = nxt - cur]. *)
Fixpoint cs_part_len (separator : ascii) (nxt : list ascii) (rem : nat) : nat :=
  match rem with
  | O => O
  | S rem' =>
      if negb (is_nul (deref nxt)) && negb (Ascii.eqb (deref nxt) separator)
      then S (cs_part_len separator (tl nxt) rem')
      else O
  end.

(** The index lookup [for(idx = 1, entry = cs_txt + 1; idx < CS_TXT_LEN;
    idx++)]; [n] counts the iterations that are left, [CS_TXT_LEN - idx].
    The result is the value of [idx] after the loop. *)
Fixpoint cs_txt_lookup (n : nat) (idx : Z) (entry cur : list ascii) (len : nat) : Z :=
  match n with
  | O => idx
  | S n' =>
      let elen := strlen entry in
      if Nat.eqb elen len && strncasecompare entry cur len then idx
      else cs_txt_lookup n' (idx + 1) (drop (elen + 1) entry) cur len
  end.

Definition cs_part_index (cur : list ascii) (len : nat) : Z :=
  cs_txt_lookup (Z.to_nat (CS_TXT_LEN - 1)) 1 (drop 1 cs_txt) cur len.

(** The [do ... while] loop.  [k] is [8 - i], so that the test [i == 8] is
    the case [k = 0]; [rem] is [end - nxt] on entry. *)
Fixpoint cs_str_to_zip_loop (k : nat) (separator : ascii) (nxt : list ascii)
    (rem : nat) (indexes : list Z) : cs_error + list Z :=
  match k with
  | O => inl TooManyFields
  | S k' =>
      let i := (8 - k)%nat in
      let cur := nxt in
      let len := cs_part_len separator nxt rem in
      let nxt := drop len nxt in
      let rem := (rem - len)%nat in
      let idx := cs_part_index cur len in
      if idx =? CS_TXT_LEN then inl UnknownToken
      else
        let indexes := <[i := uint8_t idx]> indexes in
        if (0 <? rem)%nat && negb (is_nul (deref nxt))
        then cs_str_to_zip_loop k' separator (tl nxt) (rem - 1) indexes
        else inr indexes
  end.

(** Zip the 8 indexes into 48 bits. *)
Definition cs_zip_indexes (indexes : list Z) : list Z :=
  let ix (n : nat) := indexes !!! n in
  [ uint8_t (Z.lor (Z.shiftl (ix 0%nat) 2) (Z.shiftr (Z.land (ix 1%nat) 0x3F) 4));
    uint8_t (Z.lor (Z.shiftl (ix 1%nat) 4) (Z.shiftr (Z.land (ix 2%nat) 0x3F) 2));
    uint8_t (Z.lor (Z.shiftl (ix 2%nat) 6) (Z.land (ix 3%nat) 0x3F));
    uint8_t (Z.lor (Z.shiftl (ix 4%nat) 2) (Z.shiftr (Z.land (ix 5%nat) 0x3F) 4));
    uint8_t (Z.lor (Z.shiftl (ix 5%nat) 4) (Z.shiftr (Z.land (ix 6%nat) 0x3F) 2));
    uint8_t (Z.lor (Z.shiftl (ix 6%nat) 6) (Z.land (ix 7%nat) 0x3F)) ].

(** The indexes found by the loop, before they are zipped. *)
Definition cs_str_to_indexes (cs_str : list ascii) (cs_len : nat)
  : cs_error + list Z :=
  cs_str_to_zip_loop 8 (cs_separator cs_str) cs_str cs_len (replicate 8 0).

Definition cs_str_to_zip (cs_str : list ascii) (cs_len : nat)
  : cs_error + list Z :=
  match cs_str_to_indexes cs_str cs_len with
  | inl e => inl e
  | inr indexes => inr (cs_zip_indexes indexes)
  end.

(** The [int] that the C function returns. *)
Definition cs_status {A : Type} (r : cs_error + A) : Z :=
  match r with inl _ => -1 | inr _ => 0 end.

(** ** Decoder: [cs_zip_to_str] *)

(** Unzip the 8 indexes. *)
Definition cs_unzip (zip : list Z) : list Z :=
  let z (n : nat) := zip !!! n in
  [ uint8_t (Z.shiftr (z 0%nat) 2);
    uint8_t (Z.lor (Z.land (Z.shiftl (z 0%nat) 4) 0x3F) (Z.shiftr (z 1%nat) 4));
    uint8_t (Z.lor (Z.land (Z.shiftl (z 1%nat) 2) 0x3F) (Z.shiftr (z 2%nat) 6));
    uint8_t (Z.land (Z.shiftl (z 2%nat) 0) 0x3F);
    uint8_t (Z.shiftr (z 3%nat) 2);
    uint8_t (Z.lor (Z.land (Z.shiftl (z 3%nat) 4) 0x3F) (Z.shiftr (z 4%nat) 4));
    uint8_t (Z.lor (Z.land (Z.shiftl (z 4%nat) 2) 0x3F) (Z.shiftr (z 5%nat) 6));
    uint8_t (Z.land (Z.shiftl (z 5%nat) 0) 0x3F) ].

(** [for(idx = 1, entry = cs_txt + 1; idx < indexes[i]; idx++)
      entry += strlen(entry) + 1;] with [n] the number of iterations. *)
Fixpoint cs_txt_entry (n : nat) (entry : list ascii) : list ascii :=
  match n with
  | O => entry
  | S n' => cs_txt_entry n' (drop (strlen entry + 1) entry)
  end.

Definition cs_part_text (index : Z) : list ascii :=
  c_str (cs_txt_entry (Z.to_nat (index - 1)) (drop 1 cs_txt)).

(** The [for] loop of [cs_zip_to_str]; [k] is [8 - i]. *)
Fixpoint cs_zip_to_str_loop (k : nat) (indexes : list Z) (separator : ascii)
    (buf : list ascii) (buf_size len : nat) : Z * list ascii :=
  match k with
  | O => (0, buf)
  | S k' =>
      let i := (8 - k)%nat in
      let index := indexes !!! i in
      if negb (index =? 0) && (len <? buf_size)%nat then
        if CS_TXT_LEN <=? index then (-1, buf)
        else
          let entry := cs_part_text index in
          let '(r, buf) :=
            if (0 <? i)%nat
            then msnprintf buf len (buf_size - len) (separator :: entry)
            else msnprintf buf len (buf_size - len) entry in
          if r <? 0 then (-1, buf)
          else cs_zip_to_str_loop k' indexes separator buf buf_size
                 (len + Z.to_nat r)
      else (0, buf)
  end.

Definition cs_zip_to_str (zip : list Z) (buf : list ascii) (buf_size : nat)
  : Z * list ascii :=
  let indexes := cs_unzip zip in
  let separator :=
    if indexes !!! 0%nat =? CS_TXT_IDX_TLS then "_"%char else "-"%char in
  cs_zip_to_str_loop 8 indexes separator buf buf_size 0.

(** ** The exported functions *)

(** [memcmp(a, b, n) == 0] *)
Fixpoint memcmp_eq (a b : list Z) (n : nat) : bool :=
  match n with
  | O => true
  | S n' => (hd 0 a =? hd 0 b) && memcmp_eq (tl a) (tl b) n'
  end.

(** The scan of [cs_list] for the zipped name. *)
Fixpoint cs_list_scan (l : list cs_entry) (zip : list Z) : Z :=
  match l with
  | [] => 0
  | e :: l' =>
      if memcmp_eq (cs_entry_zip e) zip 6 then cs_entry_id e
      else cs_list_scan l' zip
  end.

Definition Curl_cipher_suite_lookup_id (cs_str : list ascii) (cs_len : nat) : Z :=
  if (0 <? cs_len)%nat then
    match cs_str_to_zip cs_str cs_len with
    | inr zip => cs_list_scan cs_list zip
    | inl _ => 0
    end
  else 0.

Definition cs_is_separator (c : ascii) : bool :=
  if Ascii.eqb c " "%char then true
  else if Ascii.eqb c "009"%char then true
  else if Ascii.eqb c ":"%char then true
  else if Ascii.eqb c ","%char then true
  else if Ascii.eqb c ";"%char then true
  else false.

(** The first loop of [Curl_cipher_suite_walk_str] moves the string pointer
    to the first non-separator or the end of the string; this is the number
    of bytes it moves over. *)
Fixpoint cs_skip_separators (p : list ascii) : nat :=
  match p with
  | [] => O
  | c :: p' => if cs_is_separator c then S (cs_skip_separators p') else O
  end.

(** The second loop moves the end pointer to the next separator or the end
    of the string; this is the number of bytes it moves over. *)
Fixpoint cs_skip_name (p : list ascii) : nat :=
  match p with
  | [] => O
  | c :: p' =>
      if negb (is_nul c) && negb (cs_is_separator c) then S (cs_skip_name p')
      else O
  end.

(** The pointers behind [str] and [end] are offsets into the list [base];
    the result is the identifier with the new values of both pointers. *)
Definition Curl_cipher_suite_walk_str (base : list ascii) (str : nat)
  : Z * nat * nat :=
  let str := (str + cs_skip_separators (drop str base))%nat in
  let end_ := (str + cs_skip_name (drop str base))%nat in
  (Curl_cipher_suite_lookup_id (drop str base) (end_ - str), str, end_).

(** The scan of [Curl_cipher_suite_get_str]: [l] is the part of the table
    from index [i] on; the result is the final value of [j]. *)
Fixpoint cs_get_str_scan (l : list cs_entry) (i j : nat) (id : Z)
    (prefer_rfc : bool) : nat :=
  match l with
  | [] => j
  | e :: l' =>
      if negb (cs_entry_id e =? id) then cs_get_str_scan l' (S i) j id prefer_rfc
      else if Bool.eqb
                (negb (Z.shiftr (cs_entry_zip e !!! 0%nat) 2 =? CS_TXT_IDX_TLS))
                (negb prefer_rfc)
      then i
      else cs_get_str_scan l' (S i)
             (if Nat.eqb j CS_LIST_LEN then i else j) id prefer_rfc
  end.

Definition Curl_cipher_suite_get_str (id : Z) (buf : list ascii)
    (buf_size : nat) (prefer_rfc : bool) : Z * list ascii :=
  let j := cs_get_str_scan cs_list 0 CS_LIST_LEN id prefer_rfc in
  let '(r, buf) :=
    match cs_list !! j with
    | Some e => cs_zip_to_str (cs_entry_zip e) buf buf_size
    | None => (-1, buf)
    end in
  if r <? 0 then
    (r, snd (msnprintf buf 0 buf_size (lit "TLS_UNKNOWN_0x" ++ fmt_04x id)))
  else (r, buf).


Local Close Scope Z_scope.

(** * Notions used in the statements *)

(** Two byte strings that differ at most in the case of their letters. *)
Definition same_upper (s s' : list ascii) : Prop :=
  map Curl_raw_toupper s = map Curl_raw_toupper s'.

(** ** The parts of [cs_txt] *)

(** The NUL-terminated parts stored in a byte array, in order. *)
Fixpoint parts_of (p : list ascii) : list (list ascii) :=
  match p with
  | [] => []
  | c :: p' =>
      if is_nul c then [] :: parts_of p'
      else match parts_of p' with
           | t :: ts => (c :: t) :: ts
           | [] => [[c]]
           end
  end.

(** The byte array that stores the given parts. *)
Definition flatten (ts : list (list ascii)) : list ascii :=
  concat (map (λ t, t ++ [NUL]) ts).

Definition cs_parts : list (list ascii) := Eval vm_compute in parts_of cs_txt.

(** The parts that a name can be made of: all but the empty one at index 0. *)
Definition cs_tokens : list (list ascii) := Eval vm_compute in tl cs_parts.

Definition plain (t : list ascii) : Prop :=
  (NUL ∉ t) ∧ ("_"%char ∉ t) ∧ ("-"%char ∉ t).

Definition plainb (t : list ascii) : bool :=
  forallb (λ c, negb (is_nul c) && negb (Ascii.eqb c "_") && negb (Ascii.eqb c "-")) t.

(** The position of the first element that satisfies [f], or the length of the
    list. *)
Fixpoint first_index {A : Type} (f : A → bool) (l : list A) : nat :=
  match l with
  | [] => 0
  | x :: l' => if f x then 0 else S (first_index f l')
  end.

(** One part matches the [len] bytes at [cur]. *)
Definition part_matches (cur : list ascii) (len : nat) (t : list ascii) : bool :=
  Nat.eqb (length t) len && strncasecompare t cur len.

(** A field is a token when it equals, up to the case of letters, one of the
    non-empty parts of [cs_txt]. *)
Definition is_token (f : list ascii) : Prop :=
  ∃ t, t ∈ cs_tokens ∧ same_upper t f.

(** ** The fields of a name *)

(** The fields between the occurrences of [sep]; a string without [sep] is
    one field, and the empty string is one empty field. *)
Fixpoint split_on (sep : ascii) (s : list ascii) : list (list ascii) :=
  match s with
  | [] => [[]]
  | c :: s' =>
      if Ascii.eqb c sep then [] :: split_on sep s'
      else match split_on sep s' with
           | f :: fs => (c :: f) :: fs
           | [] => [[c]]
           end
  end.

(** The name that the encoder is given: the first [cs_len] bytes at
    [cs_str], up to the first NUL among them. *)
Definition cs_name_bytes (cs_str : list ascii) (cs_len : nat) : list ascii :=
  c_str (take cs_len cs_str).

(** The fields of that name for the separator that the encoder chooses. *)
Definition cs_fields (cs_str : list ascii) (cs_len : nat) : list (list ascii) :=
  split_on (cs_separator cs_str) (cs_name_bytes cs_str cs_len).

(** The encoder on a list of fields: field after field is looked up and
    stored at the slots [8 - k], [8 - k + 1], ... *)
Fixpoint encode_fields (k : nat) (fs : list (list ascii)) (indexes : list Z)
  : cs_error + list Z :=
  match k with
  | O => inl TooManyFields
  | S k' =>
      match fs with
      | [] => inr indexes
      | f :: fs' =>
          let idx := cs_part_index f (length f) in
          if (idx =? CS_TXT_LEN)%Z then inl UnknownToken
          else
            let indexes := <[(8 - k)%nat := uint8_t idx]> indexes in
            match fs' with
            | [] => inr indexes
            | _ :: _ => encode_fields k' fs' indexes
            end
      end
  end.

(** The parts joined with [sep] between them. *)
Fixpoint join (sep : ascii) (ts : list (list ascii)) : list ascii :=
  match ts with
  | [] => []
  | t :: ts' =>
      match ts' with
      | [] => t
      | _ :: _ => t ++ sep :: join sep ts'
      end
  end.

(** A boolean test for [is_token] on NUL-free fields. *)
Definition is_tokenb (f : list ascii) : bool :=
  forallb (λ c, negb (is_nul c)) f
  && negb (cs_part_index f (length f) =? CS_TXT_LEN)%Z.

(** ** The name that a packed entry stands for *)

(** The indexes of a name: those before the first zero. *)
Fixpoint cs_name_indexes (indexes : list Z) : list Z :=
  match indexes with
  | [] => []
  | x :: l => if (x =? 0)%Z then [] else x :: cs_name_indexes l
  end.

Definition cs_name_separator (indexes : list Z) : ascii :=
  if (indexes !!! 0%nat =? CS_TXT_IDX_TLS)%Z then "_"%char else "-"%char.

(** The parts of the name joined by the separator of its naming style. *)
Definition cs_zip_name (zip : list Z) : list ascii :=
  join (cs_name_separator (cs_unzip zip))
    (map cs_part_text (cs_name_indexes (cs_unzip zip))).

(** The text that the decoder appends from slot [i] on. *)
Fixpoint cs_pieces (i : nat) (sep : ascii) (indexes : list Z) : list ascii :=
  match indexes with
  | [] => []
  | x :: l =>
      if (x =? 0)%Z then []
      else (if 0 <? i then sep :: cs_part_text x else cs_part_text x)
             ++ cs_pieces (S i) sep l
  end.

(** An entry carries an RFC name when its first part is [TLS]. *)
Definition cs_is_rfc (e : cs_entry) : bool :=
  (Z.shiftr (cs_entry_zip e !!! 0%nat) 2 =? CS_TXT_IDX_TLS)%Z.

(** The entry that [Curl_cipher_suite_get_str] is to decode: the first one
    with the identifier and the preferred style, else the first one with the
    identifier. *)
Definition cs_select (id : Z) (prefer_rfc : bool) : option cs_entry :=
  match find (λ e, (cs_entry_id e =? id)%Z && Bool.eqb (cs_is_rfc e) prefer_rfc)
          cs_list with
  | Some e => Some e
  | None => find (λ e, (cs_entry_id e =? id)%Z) cs_list
  end.

(** The text written when there is nothing to decode. *)
Definition cs_unknown (id : Z) : list ascii :=
  lit "TLS_UNKNOWN_0x" ++ fmt_04x id.

(** ** Checks run on the table *)

Fixpoint bytes_eqb (a b : list ascii) : bool :=
  match a, b with
  | [], [] => true
  | x :: a', y :: b' => Ascii.eqb x y && bytes_eqb a' b'
  | _, _ => false
  end.

(** The indexes of the entry are in the dictionary, and its name is not
    empty and shorter than 64 bytes. *)
Definition cs_entry_okb (e : cs_entry) : bool :=
  forallb (λ x, (0 <=? x)%Z && (x <? CS_TXT_LEN)%Z) (cs_unzip (cs_entry_zip e))
  && (0 <? length (cs_zip_name (cs_entry_zip e)))
  && (length (cs_zip_name (cs_entry_zip e)) <? 64).

(** The entry is the one selected for its own identifier and style, and its
    name resolves to its identifier. *)
Definition cs_entry_round_tripb (e : cs_entry) : bool :=
  match cs_select (cs_entry_id e) (cs_is_rfc e) with
  | Some e' =>
      bytes_eqb (cs_zip_name (cs_entry_zip e')) (cs_zip_name (cs_entry_zip e))
  | None => false
  end
  && (Curl_cipher_suite_lookup_id (cs_zip_name (cs_entry_zip e))
        (length (cs_zip_name (cs_entry_zip e))) =? cs_entry_id e)%Z.

(** No index follows a zero index but zero. *)
Fixpoint no_holesb (indexes : list Z) : bool :=
  match indexes with
  | [] => true
  | x :: l => if (x =? 0)%Z then forallb (λ y, (y =? 0)%Z) l else no_holesb l
  end.

Definition no_holes (indexes : list Z) : Prop :=
  ∀ i j x, i ≤ j → indexes !! i = Some 0%Z → indexes !! j = Some x → x = 0%Z.

(** The well-formedness of one entry within a table. *)
Definition cs_entry_well_formedb (l : list cs_entry) (e : cs_entry) : bool :=
  Nat.eqb (length (cs_unzip (cs_entry_zip e))) 8
  && no_holesb (cs_unzip (cs_entry_zip e))
  && forallb (λ x, (x =? 0)%Z || ((0 <? x)%Z && (x <? CS_TXT_LEN)%Z))
       (cs_unzip (cs_entry_zip e))
  && forallb (λ e', implb (memcmp_eq (cs_entry_zip e') (cs_entry_zip e) 6)
                      (cs_entry_id e' =? cs_entry_id e)%Z) l.

(** ** The bytes of a packed name, one at a time *)

(** The values of a 6-bit index. *)
Definition index_range : list Z := map Z.of_nat (seq 0 64).

(** The three bytes that [CS_ZIP_IDX] makes of four indexes. *)
Definition cs_pack0 (a b : Z) : Z :=
  uint8_t (Z.lor (Z.shiftl a 2) (Z.shiftr (Z.land b 0x3F) 4)).
Definition cs_pack1 (b c : Z) : Z :=
  uint8_t (Z.lor (Z.shiftl b 4) (Z.shiftr (Z.land c 0x3F) 2)).
Definition cs_pack2 (c d : Z) : Z :=
  uint8_t (Z.lor (Z.shiftl c 6) (Z.land d 0x3F)).

(** The four indexes that [cs_zip_to_str] reads from three bytes. *)
Definition cs_unpack0 (z0 : Z) : Z := uint8_t (Z.shiftr z0 2).
Definition cs_unpack1 (z0 z1 : Z) : Z :=
  uint8_t (Z.lor (Z.land (Z.shiftl z0 4) 0x3F) (Z.shiftr z1 4)).
Definition cs_unpack2 (z1 z2 : Z) : Z :=
  uint8_t (Z.lor (Z.land (Z.shiftl z1 2) 0x3F) (Z.shiftr z2 6)).
Definition cs_unpack3 (z2 : Z) : Z := uint8_t (Z.land (Z.shiftl z2 0) 0x3F).

(** The index that the encoder finds for a field. *)
Definition cs_field_index (f : list ascii) : Z := cs_part_index f (length f).

(** The styles of the names of one entry within the table: with the
    preference for RFC names its identifier is given a name that starts with
    [TLS_], and without it a name that does not start with [TLS], unless the
    identifier is one of 0x1301 to 0x1305. *)
Definition cs_entry_stylesb (e : cs_entry) : bool :=
  match cs_select (cs_entry_id e) true with
  | Some e' => bytes_eqb (take 4 (cs_zip_name (cs_entry_zip e'))) (lit "TLS_")
  | None => false
  end
  && match cs_select (cs_entry_id e) false with
     | Some e' =>
         ((0x1301 <=? cs_entry_id e)%Z && (cs_entry_id e <=? 0x1305)%Z)
         || negb (bytes_eqb (take 3 (cs_zip_name (cs_entry_zip e'))) (lit "TLS"))
     | None => false
     end.

(** * Properties of the helpers *)

(** ** Bytes and upper-casing *)

Ltac each_byte c := destruct c as [[] [] [] [] [] [] [] []].

Lemma toupper_idem c : Curl_raw_toupper (Curl_raw_toupper c) = Curl_raw_toupper c.
Proof. each_byte c; reflexivity. Qed.

Lemma is_nul_toupper c : is_nul (Curl_raw_toupper c) = is_nul c.
Proof. each_byte c; reflexivity. Qed.

Lemma eqb_underscore_toupper c :
  Ascii.eqb (Curl_raw_toupper c) "_" = Ascii.eqb c "_".
Proof. each_byte c; reflexivity. Qed.

Lemma eqb_hyphen_toupper c :
  Ascii.eqb (Curl_raw_toupper c) "-" = Ascii.eqb c "-".
Proof. each_byte c; reflexivity. Qed.

Lemma is_nul_true c : is_nul c = true ↔ c = NUL.
Proof. unfold is_nul. apply Ascii.eqb_eq. Qed.

Lemma is_nul_false c : is_nul c = false ↔ c ≠ NUL.
Proof. unfold is_nul. apply Ascii.eqb_neq. Qed.

Lemma same_upper_refl s : same_upper s s.
Proof. reflexivity. Qed.

Lemma same_upper_nil_inv s : same_upper [] s → s = [].
Proof. destruct s; [done | discriminate]. Qed.

Lemma same_upper_cons_inv c s t :
  same_upper (c :: s) t →
  ∃ c' s', t = c' :: s' ∧ Curl_raw_toupper c = Curl_raw_toupper c' ∧ same_upper s s'.
Proof.
  destruct t as [|c' s']; [discriminate |].
  intros H. injection H as Hc Hs. eauto.
Qed.

Lemma same_upper_length s t : same_upper s t → length s = length t.
Proof.
  intros H. apply (f_equal length) in H. by rewrite !length_map in H.
Qed.

Lemma same_upper_deref s t :
  same_upper s t → Curl_raw_toupper (deref s) = Curl_raw_toupper (deref t).
Proof.
  destruct s as [|c s].
  - intros ->%same_upper_nil_inv. done.
  - intros (c' & s' & -> & Hc & _)%same_upper_cons_inv. done.
Qed.

Lemma same_upper_tl s t : same_upper s t → same_upper (tl s) (tl t).
Proof.
  destruct s as [|c s].
  - intros ->%same_upper_nil_inv. done.
  - intros (c' & s' & -> & _ & Hs)%same_upper_cons_inv. done.
Qed.

Lemma same_upper_drop n s t : same_upper s t → same_upper (drop n s) (drop n t).
Proof.
  unfold same_upper. intros H. by rewrite <- !skipn_map, H.
Qed.

Lemma same_upper_take n s t : same_upper s t → same_upper (take n s) (take n t).
Proof.
  unfold same_upper. intros H. by rewrite <- !firstn_map, H.
Qed.

Lemma same_upper_is_nul s t : same_upper s t → is_nul (deref s) = is_nul (deref t).
Proof.
  intros H%same_upper_deref.
  by rewrite <- (is_nul_toupper (deref s)), H, is_nul_toupper.
Qed.

(** ** Pointers *)

Lemma deref_take n p : 0 < n → deref (take n p) = deref p.
Proof. destruct n; [lia |]. by destruct p. Qed.

Lemma tl_take n (p : list ascii) : tl (take (S n) p) = take n (tl p).
Proof. destruct p; simpl; [by destruct n | done]. Qed.

Lemma tl_drop n (p : list ascii) : tl (drop n p) = drop (S n) p.
Proof.
  revert p. induction n as [|n IH]; intros [|c p]; simpl; try done.
Qed.

Lemma deref_drop n p : deref (drop n p) = default NUL (p !! n).
Proof.
  revert p. induction n as [|n IH]; intros [|c p]; simpl; done.
Qed.

(** ** [strlen] and [c_str] *)

Lemma strlen_le p : strlen p ≤ length p.
Proof. induction p as [|c p IH]; simpl; [lia |]. destruct (is_nul c); lia. Qed.

Lemma c_str_length p : length (c_str p) = strlen p.
Proof. unfold c_str. rewrite length_take. pose proof (strlen_le p). lia. Qed.

Lemma c_str_no_nul p : NUL ∉ c_str p.
Proof.
  unfold c_str. induction p as [|c p IH]; simpl; [by intros ?%elem_of_nil |].
  destruct (is_nul c) eqn:E; simpl; [by intros ?%elem_of_nil |].
  apply is_nul_false in E. intros [?|?]%elem_of_cons; [congruence | done].
Qed.

Lemma strlen_no_nul s : NUL ∉ s → strlen s = length s.
Proof.
  induction s as [|c s IH]; [done |]. intros H.
  apply not_elem_of_cons in H as [Hc Hs]. simpl.
  assert (is_nul c = false) as -> by (apply is_nul_false; congruence).
  by rewrite IH.
Qed.

Lemma strlen_app_nul s p : NUL ∉ s → strlen (s ++ NUL :: p) = length s.
Proof.
  induction s as [|c s IH]; [done |]. intros H.
  apply not_elem_of_cons in H as [Hc Hs]. simpl.
  assert (is_nul c = false) as -> by (apply is_nul_false; congruence).
  by rewrite IH.
Qed.

Lemma c_str_app_nul s p : NUL ∉ s → c_str (s ++ NUL :: p) = s.
Proof.
  intros H. unfold c_str. rewrite strlen_app_nul by done.
  by rewrite take_app_length.
Qed.

Lemma c_str_no_nul_id s : NUL ∉ s → c_str s = s.
Proof.
  intros H. unfold c_str. rewrite strlen_no_nul by done. apply firstn_all.
Qed.

(** A buffer whose first [m] bytes are [s], free of NUL, and whose next byte
    is NUL holds the C string [s]. *)
Lemma c_str_buffer buf m s :
  take m buf = s → length s = m → NUL ∉ s → buf !! m = Some NUL →
  c_str buf = s.
Proof.
  intros Ht Hl Hs Hn.
  rewrite <- (take_drop m buf), Ht.
  destruct (drop m buf) as [|c q] eqn:E.
  - apply (f_equal (λ l, l !! 0)) in E. rewrite lookup_drop, Nat.add_0_r, Hn in E.
    discriminate.
  - apply (f_equal (λ l, l !! 0)) in E. rewrite lookup_drop, Nat.add_0_r, Hn in E.
    injection E as <-. by apply c_str_app_nul.
Qed.

(** ** [strncasecompare] *)

Lemma strncasecompare_take_r a b n :
  strncasecompare a (take n b) n = strncasecompare a b n.
Proof.
  revert a b. induction n as [|n IH]; intros a b; [done |].
  cbn [strncasecompare]. rewrite deref_take by lia. rewrite tl_take, IH. done.
Qed.

Lemma strncasecompare_take_l a b n :
  strncasecompare (take n a) b n = strncasecompare a b n.
Proof.
  revert a b. induction n as [|n IH]; intros a b; [done |].
  cbn [strncasecompare]. rewrite deref_take by lia. rewrite tl_take, IH. done.
Qed.

Lemma strncasecompare_upper_r a b b' n :
  same_upper b b' → strncasecompare a b n = strncasecompare a b' n.
Proof.
  revert a b b'. induction n as [|n IH]; intros a b b' H; [done |].
  cbn [strncasecompare].
  rewrite (same_upper_is_nul b b' H), (same_upper_deref b b' H).
  rewrite (IH (tl a) (tl b) (tl b')) by by apply same_upper_tl. done.
Qed.

Lemma strncasecompare_upper_l a a' b n :
  same_upper a a' → strncasecompare a b n = strncasecompare a' b n.
Proof.
  revert a a' b. induction n as [|n IH]; intros a a' b H; [done |].
  cbn [strncasecompare].
  rewrite (same_upper_is_nul a a' H), (same_upper_deref a a' H).
  rewrite (IH (tl a) (tl a') (tl b)) by by apply same_upper_tl. done.
Qed.

(** ** The parts of [cs_txt] and the index lookup *)

Lemma cs_txt_flatten : cs_txt = flatten cs_parts.
Proof. reflexivity. Qed.

Lemma cs_txt_tokens : drop 1 cs_txt = flatten cs_tokens.
Proof. reflexivity. Qed.

Lemma cs_tokens_length : Z.of_nat (length cs_tokens) = (CS_TXT_LEN - 1)%Z.
Proof. reflexivity. Qed.

Lemma plainb_plain t : plainb t = true → plain t.
Proof.
  unfold plainb, plain. rewrite forallb_forall. intros H.
  repeat split; intros Hin%list_elem_of_In; apply H in Hin; done.
Qed.

Lemma first_index_le {A} (f : A → bool) l : first_index f l ≤ length l.
Proof. induction l as [|x l IH]; simpl; [lia |]. destruct (f x); lia. Qed.

Lemma first_index_lt {A} (f : A → bool) l :
  first_index f l < length l ↔ ∃ x, x ∈ l ∧ f x = true.
Proof.
  induction l as [|x l IH]; simpl.
  - split; [lia |]. intros (x & Hx%elem_of_nil & _). done.
  - destruct (f x) eqn:E.
    + split; [| lia]. intros _. exists x. split; [left | done].
    + rewrite <- Nat.succ_lt_mono, IH. split.
      * intros (y & Hy & Hf). exists y. split; [by right | done].
      * intros (y & [-> | Hy]%elem_of_cons & Hf); [congruence | eauto].
Qed.

Lemma first_index_ext {A} (f g : A → bool) l :
  (∀ x, f x = g x) → first_index f l = first_index g l.
Proof.
  intros H. induction l as [|x l IH]; simpl; [done |]. by rewrite H, IH.
Qed.

Lemma first_index_lookup {A} (f : A → bool) l x :
  l !! first_index f l = Some x → f x = true.
Proof.
  induction l as [|y l IH]; simpl; [done |].
  destruct (f y) eqn:E; simpl; [by intros [= <-] | done].
Qed.

Lemma cs_txt_lookup_flatten ts idx cur len :
  Forall (λ t, NUL ∉ t) ts →
  cs_txt_lookup (length ts) idx (flatten ts) cur len
  = (idx + Z.of_nat (first_index (part_matches cur len) ts))%Z.
Proof.
  intros Hts. revert idx. induction Hts as [|t ts Ht Hts IH]; intros idx.
  - simpl. lia.
  - cbn [length cs_txt_lookup first_index].
    change (flatten (t :: ts)) with ((t ++ [NUL]) ++ flatten ts).
    rewrite <- app_assoc. cbn [app].
    rewrite strlen_app_nul by done.
    unfold part_matches at 1.
    destruct (Nat.eqb (length t) len) eqn:E; cbn [andb].
    + apply Nat.eqb_eq in E. subst len.
      rewrite <- (strncasecompare_take_l (t ++ _)), take_app_length.
      destruct (strncasecompare t cur (length t)); [lia |].
      rewrite drop_app_add'. 2: done. cbn [drop]. rewrite IH. lia.
    + rewrite (drop_app_add' t) by done. cbn [drop]. rewrite IH. lia.
Qed.

Lemma cs_tokens_no_nul : Forall (λ t, NUL ∉ t) cs_tokens.
Proof.
  apply Forall_forall. intros t Ht.
  assert (forallb plainb cs_tokens = true) as H by reflexivity.
  rewrite forallb_forall in H. apply list_elem_of_In, H, plainb_plain in Ht.
  apply Ht.
Qed.

Lemma cs_tokens_plain t : t ∈ cs_tokens → plain t.
Proof.
  intros Ht.
  assert (forallb plainb cs_tokens = true) as H by reflexivity.
  rewrite forallb_forall in H. by apply list_elem_of_In, H, plainb_plain in Ht.
Qed.

(** The index lookup of the encoder finds the first token that matches. *)
Lemma cs_part_index_first cur len :
  cs_part_index cur len
  = (1 + Z.of_nat (first_index (part_matches cur len) cs_tokens))%Z.
Proof.
  unfold cs_part_index. rewrite cs_txt_tokens.
  rewrite <- cs_tokens_length, Nat2Z.id.
  apply cs_txt_lookup_flatten, cs_tokens_no_nul.
Qed.

Lemma cs_part_index_take cur len :
  cs_part_index (take len cur) len = cs_part_index cur len.
Proof.
  rewrite !cs_part_index_first.
  rewrite (first_index_ext (part_matches (take len cur) len) (part_matches cur len));
    [done |].
  intros t. unfold part_matches. by rewrite strncasecompare_take_r.
Qed.

Lemma cs_part_index_upper cur cur' len :
  same_upper cur cur' → cs_part_index cur len = cs_part_index cur' len.
Proof.
  intros H. rewrite !cs_part_index_first.
  rewrite (first_index_ext (part_matches cur len) (part_matches cur' len));
    [done |].
  intros t. unfold part_matches. by rewrite (strncasecompare_upper_r t cur cur').
Qed.

Lemma cs_part_index_range cur len :
  (1 ≤ cs_part_index cur len ≤ CS_TXT_LEN)%Z.
Proof.
  rewrite cs_part_index_first.
  pose proof (first_index_le (part_matches cur len) cs_tokens) as H.
  pose proof cs_tokens_length. lia.
Qed.

(** Comparing two NUL-free strings of length [n] over [n] bytes compares
    them after upper-casing. *)
Lemma strncasecompare_same_upper a b :
  NUL ∉ a → NUL ∉ b → length a = length b →
  strncasecompare a b (length a) = true ↔ same_upper a b.
Proof.
  revert b. induction a as [|c a IH]; intros [|d b] Ha Hb Hl; try done.
  apply not_elem_of_cons in Ha as [Hc Ha].
  apply not_elem_of_cons in Hb as [Hd Hb].
  cbn [length strncasecompare deref hd tl].
  assert (is_nul c = false) as -> by (apply is_nul_false; congruence).
  assert (is_nul d = false) as -> by (apply is_nul_false; congruence).
  cbn [negb andb]. unfold same_upper. cbn [map].
  destruct (Ascii.eqb (Curl_raw_toupper c) (Curl_raw_toupper d)) eqn:E.
  - apply Ascii.eqb_eq in E. rewrite IH; [| done | done | by injection Hl].
    unfold same_upper. split; [by intros -> ; rewrite E | by intros [= _ ?]].
  - apply Ascii.eqb_neq in E. split; [done | by intros [= ? _]].
Qed.

Lemma part_matches_token f t :
  NUL ∉ f → NUL ∉ t →
  part_matches f (length f) t = true ↔ same_upper t f.
Proof.
  intros Hf Ht. unfold part_matches. rewrite andb_true_iff, Nat.eqb_eq. split.
  - intros [Hl Hc]. rewrite <- Hl in Hc. by apply strncasecompare_same_upper in Hc.
  - intros H. pose proof (same_upper_length _ _ H) as Hl. split; [done |].
    rewrite <- Hl. by apply strncasecompare_same_upper.
Qed.

Lemma cs_part_index_token f :
  NUL ∉ f → cs_part_index f (length f) ≠ CS_TXT_LEN ↔ is_token f.
Proof.
  intros Hf. rewrite cs_part_index_first.
  pose proof cs_tokens_length as Hlen.
  pose proof (first_index_le (part_matches f (length f)) cs_tokens) as Hle.
  pose proof (first_index_lt (part_matches f (length f)) cs_tokens) as Hlt.
  unfold is_token. split.
  - intros Hne. destruct Hlt as [Hlt _]. destruct Hlt as (t & Ht & Hm); [lia |].
    exists t. split; [done |]. apply part_matches_token in Hm; [done.. |].
    by apply cs_tokens_plain.
  - intros (t & Ht & Hs). destruct Hlt as [_ Hlt].
    assert (first_index (part_matches f (length f)) cs_tokens < length cs_tokens);
      [| lia].
    apply Hlt. exists t. split; [done |]. apply part_matches_token; [done | | done].
    by apply cs_tokens_plain.
Qed.

(** ** The encoder loop works field by field *)

Lemma split_on_not_nil sep s : split_on sep s ≠ [].
Proof.
  destruct s as [|c s]; simpl; [done |].
  destruct (Ascii.eqb c sep); [done |]. by destruct (split_on sep s).
Qed.

Lemma cs_part_len_le sep p rem :
  cs_part_len sep p rem ≤ rem ∧ cs_part_len sep p rem ≤ length p.
Proof.
  revert p. induction rem as [|rem IH]; intros p; simpl; [lia |].
  destruct p as [|c p]; simpl; [lia |].
  destruct (negb (is_nul c) && negb (Ascii.eqb c sep)); simpl; [| lia].
  specialize (IH p). lia.
Qed.

Lemma c_str_cons c p :
  c_str (c :: p) = if is_nul c then [] else c :: c_str p.
Proof. unfold c_str. simpl. by destruct (is_nul c). Qed.

Lemma split_on_part_len sep p rem :
  is_nul sep = false →
  split_on sep (c_str (take rem p))
  = take (cs_part_len sep p rem) p ::
      (if (0 <? rem - cs_part_len sep p rem)
          && negb (is_nul (deref (drop (cs_part_len sep p rem) p)))
       then split_on sep
              (c_str (take (rem - cs_part_len sep p rem - 1)
                        (tl (drop (cs_part_len sep p rem) p))))
       else []).
Proof.
  intros Hsep. revert p. induction rem as [|rem IH]; intros p.
  - by destruct p.
  - destruct p as [|c p]; [done |].
    cbn [take firstn cs_part_len deref hd tl]. rewrite c_str_cons.
    destruct (is_nul c) eqn:Hc; cbn [negb andb].
    { cbn [take firstn drop skipn deref hd]. rewrite Hc. cbn [negb]. by rewrite andb_false_r. }
    destruct (Ascii.eqb c sep) eqn:Hs; cbn [negb].
    { cbn [take firstn drop skipn deref hd tl split_on]. rewrite Hs, Hc.
      cbn [negb]. rewrite andb_true_r.
      replace (S rem - 0) with (S rem) by lia.
      by replace (S rem - 1) with rem by lia. }
    cbn [split_on]. rewrite Hs, IH. done.
Qed.

Lemma cs_str_to_zip_loop_fields k sep p rem indexes :
  is_nul sep = false →
  cs_str_to_zip_loop k sep p rem indexes
  = encode_fields k (split_on sep (c_str (take rem p))) indexes.
Proof.
  intros Hsep. revert p rem indexes.
  induction k as [|k IH]; intros p rem indexes; [done |].
  rewrite split_on_part_len by done.
  cbn [cs_str_to_zip_loop encode_fields].
  pose proof (cs_part_len_le sep p rem) as [Hr Hp].
  rewrite length_take_le by done. rewrite cs_part_index_take.
  destruct (cs_part_index p (cs_part_len sep p rem) =? CS_TXT_LEN)%Z; [done |].
  destruct ((0 <? rem - cs_part_len sep p rem)
            && negb (is_nul (deref (drop (cs_part_len sep p rem) p)))); [| done].
  rewrite IH.
  destruct (split_on sep _) eqn:E; [by apply split_on_not_nil in E | done].
Qed.

Lemma cs_separator_cases cs_str :
  cs_separator cs_str = "_"%char ∨ cs_separator cs_str = "-"%char.
Proof. unfold cs_separator. destruct (strncasecompare _ _ _); auto. Qed.

Lemma cs_separator_not_nul cs_str : is_nul (cs_separator cs_str) = false.
Proof. by destruct (cs_separator_cases cs_str) as [-> | ->]. Qed.

(** The encoder is [encode_fields] on the fields of the name. *)
Lemma cs_str_to_indexes_fields cs_str cs_len :
  cs_str_to_indexes cs_str cs_len
  = encode_fields 8 (cs_fields cs_str cs_len) (replicate 8 0%Z).
Proof.
  unfold cs_str_to_indexes, cs_fields, cs_name_bytes.
  apply cs_str_to_zip_loop_fields, cs_separator_not_nul.
Qed.

(** ** Which fields the encoder accepts *)

Lemma no_nul_forallb f : forallb (λ c, negb (is_nul c)) f = true ↔ NUL ∉ f.
Proof.
  rewrite forallb_forall. split.
  - intros H Hin%list_elem_of_In. by apply H in Hin.
  - intros H c Hc%list_elem_of_In. destruct (is_nul c) eqn:E; [| done].
    apply is_nul_true in E. by subst.
Qed.

Lemma same_upper_notin x t f :
  (∀ c, Ascii.eqb (Curl_raw_toupper c) x = Ascii.eqb c x) →
  same_upper t f → x ∉ t → x ∉ f.
Proof.
  intros Hx H Ht Hf. apply Ht.
  assert (x ∈ map Curl_raw_toupper f) as Hin.
  { apply list_elem_of_In, in_map_iff. exists x. rewrite <- list_elem_of_In.
    split; [| done]. apply Ascii.eqb_eq. rewrite Hx. apply Ascii.eqb_refl. }
  rewrite <- H in Hin. apply list_elem_of_In, in_map_iff in Hin as (c & Hc & Hin).
  apply list_elem_of_In in Hin.
  assert (Ascii.eqb c x = true) as ->%Ascii.eqb_eq; [| done].
  rewrite <- Hx, Hc. apply Ascii.eqb_refl.
Qed.

Lemma is_token_plain f : is_token f → plain f.
Proof.
  intros (t & Ht & Hs). apply cs_tokens_plain in Ht as (Hn & Hu & Hh).
  repeat split.
  - by apply (same_upper_notin NUL t f is_nul_toupper).
  - by apply (same_upper_notin "_"%char t f eqb_underscore_toupper).
  - by apply (same_upper_notin "-"%char t f eqb_hyphen_toupper).
Qed.

Lemma is_token_no_nul f : is_token f → NUL ∉ f.
Proof. intros H. apply (is_token_plain f H). Qed.

Lemma is_token_not_empty : ¬ is_token [].
Proof.
  intros H. pose proof (is_token_no_nul _ H) as Hn.
  apply (cs_part_index_token [] Hn) in H. by apply H.
Qed.

Lemma is_tokenb_true f : is_tokenb f = true ↔ is_token f.
Proof.
  unfold is_tokenb. rewrite andb_true_iff, no_nul_forallb, negb_true_iff, Z.eqb_neq.
  split.
  - intros [Hn H]. by apply cs_part_index_token.
  - intros H. pose proof (is_token_no_nul f H) as Hn. split; [done |].
    by apply cs_part_index_token.
Qed.

Lemma token_is_token t : t ∈ cs_tokens → is_token t.
Proof. intros Ht. exists t. split; [done | apply same_upper_refl]. Qed.

(** [encode_fields] succeeds exactly on at most [k] fields that are all
    tokens. *)
Lemma encode_fields_inr k fs indexes :
  fs ≠ [] → Forall (λ f, NUL ∉ f) fs →
  (∃ r, encode_fields k fs indexes = inr r)
  ↔ length fs ≤ k ∧ Forall is_token fs.
Proof.
  revert fs indexes. induction k as [|k IH]; intros fs indexes Hne Hnul.
  - split; [by intros [r [=]] |]. intros [Hl _]. destruct fs; [done | simpl in Hl; lia].
  - destruct fs as [|f fs]; [done |]. apply Forall_cons in Hnul as [Hf Hfs].
    cbn [encode_fields].
    pose proof (cs_part_index_token f Hf) as Htok.
    destruct (cs_part_index f (length f) =? CS_TXT_LEN)%Z eqn:E.
    + apply Z.eqb_eq in E. split; [by intros [r [=]] |].
      intros [_ [Hf' _]%Forall_cons]. by apply Htok in Hf'.
    + apply Z.eqb_neq, Htok in E. destruct fs as [|g fs].
      * split; [| by eauto]. intros _. split; [simpl; lia | by apply Forall_singleton].
      * rewrite IH by done. cbn [length]. rewrite (Forall_cons _ f). split.
        -- intros [Hl Hall]. split; [lia | done].
        -- intros [Hl [_ Hall]]. split; [lia | done].
Qed.

Lemma encode_fields_too_many k fs indexes :
  fs ≠ [] → encode_fields k fs indexes = inl TooManyFields → k < length fs.
Proof.
  revert fs indexes. induction k as [|k IH]; intros fs indexes Hne.
  - intros _. destruct fs; [done | simpl; lia].
  - destruct fs as [|f fs]; [done |]. cbn [encode_fields].
    destruct (cs_part_index f (length f) =? CS_TXT_LEN)%Z; [done |].
    destruct fs as [|g fs]; [done |]. intros H%IH; [| done]. simpl in *. lia.
Qed.

(** ** The fields of a name *)

Lemma split_on_elem sep s f c :
  f ∈ split_on sep s → c ∈ f → c ∈ s ∧ c ≠ sep.
Proof.
  revert f. induction s as [|d s IH]; intros f.
  - simpl. intros ->%list_elem_of_singleton Hc. by apply elem_of_nil in Hc.
  - simpl. destruct (Ascii.eqb d sep) eqn:E.
    + intros [-> | Hf]%elem_of_cons Hc; [by apply elem_of_nil in Hc |].
      destruct (IH f Hf Hc). split; [by right | done].
    + apply Ascii.eqb_neq in E. pose proof (split_on_not_nil sep s) as Hne.
      destruct (split_on sep s) as [|g gs]; [done |].
      intros [-> | Hf]%elem_of_cons Hc.
      * apply elem_of_cons in Hc as [-> | Hc]; [split; [left | done] |].
        destruct (IH g) as [? ?]; [left | done |]. split; [by right | done].
      * destruct (IH f) as [? ?]; [by right | done |]. split; [by right | done].
Qed.

Lemma cs_fields_not_nil cs_str cs_len : cs_fields cs_str cs_len ≠ [].
Proof. apply split_on_not_nil. Qed.

Lemma cs_fields_no_nul cs_str cs_len :
  Forall (λ f, NUL ∉ f) (cs_fields cs_str cs_len).
Proof.
  apply Forall_forall. intros f Hf Hn.
  destruct (split_on_elem _ _ _ _ Hf Hn) as [Hin _].
  by apply c_str_no_nul in Hin.
Qed.

Lemma split_on_no_sep sep t : sep ∉ t → split_on sep t = [t].
Proof.
  induction t as [|c t IH]; [done |]. intros [Hc Ht]%not_elem_of_cons.
  simpl. assert (Ascii.eqb c sep = false) as -> by (apply Ascii.eqb_neq; congruence).
  by rewrite IH.
Qed.

Lemma split_on_app_sep sep t s :
  sep ∉ t → split_on sep (t ++ sep :: s) = t :: split_on sep s.
Proof.
  induction t as [|c t IH].
  - intros _. simpl. by rewrite Ascii.eqb_refl.
  - intros [Hc Ht]%not_elem_of_cons. simpl.
    assert (Ascii.eqb c sep = false) as -> by (apply Ascii.eqb_neq; congruence).
    by rewrite IH.
Qed.

Lemma split_on_join sep ts :
  ts ≠ [] → Forall (λ t, sep ∉ t) ts → split_on sep (join sep ts) = ts.
Proof.
  induction ts as [|t ts IH]; [done |]. intros _ [Ht Hts]%Forall_cons.
  destruct ts as [|u ts].
  - by apply split_on_no_sep.
  - change (join sep (t :: u :: ts)) with (t ++ sep :: join sep (u :: ts)).
    rewrite split_on_app_sep by done. by rewrite IH.
Qed.

Lemma join_elem sep ts c :
  c ∈ join sep ts → c = sep ∨ ∃ t, t ∈ ts ∧ c ∈ t.
Proof.
  induction ts as [|t ts IH]; [by intros ?%elem_of_nil |].
  destruct ts as [|u ts].
  - simpl. intros Hc. right. exists t. split; [left | done].
  - change (join sep (t :: u :: ts)) with (t ++ sep :: join sep (u :: ts)).
    intros [Hc | [-> | Hc]%elem_of_cons]%elem_of_app.
    + right. exists t. split; [left | done].
    + by left.
    + destruct (IH Hc) as [-> | (t' & Ht' & Hc')]; [by left |].
      right. exists t'. split; [by right | done].
Qed.

(** The encoder succeeds exactly on the names of at most 8 fields that are
    all tokens. *)
Lemma cs_str_to_zip_inr cs_str cs_len :
  (∃ zip, cs_str_to_zip cs_str cs_len = inr zip)
  ↔ length (cs_fields cs_str cs_len) ≤ 8 ∧ Forall is_token (cs_fields cs_str cs_len).
Proof.
  rewrite <- (encode_fields_inr 8 _ (replicate 8 0%Z)
                (cs_fields_not_nil _ _) (cs_fields_no_nul _ _)).
  unfold cs_str_to_zip. rewrite cs_str_to_indexes_fields.
  destruct (encode_fields _ _ _) as [e | r].
  - split; intros [? [=]].
  - split; eauto.
Qed.

Lemma cs_status_inl {A} (r : cs_error + A) :
  cs_status r = (-1)%Z ↔ ¬ ∃ x, r = inr x.
Proof.
  destruct r as [e | x]; simpl; split; try done.
  - by intros _ [? [=]].
  - intros H. exfalso. apply H. eauto.
Qed.

(** ** Empty fields and too many fields *)

Lemma cs_part_index_empty cur : cs_part_index cur 0 = CS_TXT_LEN.
Proof. by rewrite <- cs_part_index_take. Qed.

Lemma elem_of_is_tokenb fs :
  forallb (λ f, match f with [] => true | _ => is_tokenb f end) fs = true →
  Forall (λ f, f ≠ [] → is_token f) fs.
Proof.
  rewrite forallb_forall. intros H. apply Forall_forall. intros f Hf Hne.
  apply list_elem_of_In, H in Hf. destruct f; [done |]. by apply is_tokenb_true.
Qed.

(** C2 fails on the code: the name [AES128--SHA] has three fields, the
    middle one empty and the other two tokens, yet the encoder returns -1. *)
Lemma cs_str_to_zip_empty_field_counterexample :
  cs_fields (lit "AES128--SHA") 11 = [lit "AES128"; []; lit "SHA"]
  ∧ Forall (λ f, f ≠ [] → is_token f) (cs_fields (lit "AES128--SHA") 11)
  ∧ length (cs_fields (lit "AES128--SHA") 11) ≤ 8
  ∧ cs_str_to_zip (lit "AES128--SHA") 11 = inl UnknownToken
  ∧ cs_status (cs_str_to_zip (lit "AES128--SHA") 11) = (-1)%Z.
Proof.
  split; [vm_compute; reflexivity |].
  split; [apply elem_of_is_tokenb; vm_compute; reflexivity |].
  split; [vm_compute; lia |]. split; vm_compute; reflexivity.
Qed.

(** C2, amended: the encoder succeeds exactly on the names that have at most
    8 fields, every one of them a token of the dictionary up to the case of
    letters.  An empty field is not a token: the lookup of a zero-length part
    runs through the whole dictionary and ends at [CS_TXT_LEN], so a name with
    an empty field makes the encoder return -1. *)
Theorem cs_str_to_zip_accepts cs_str cs_len :
  ((∃ zip, cs_str_to_zip cs_str cs_len = inr zip)
   ↔ length (cs_fields cs_str cs_len) ≤ 8
     ∧ Forall is_token (cs_fields cs_str cs_len))
  ∧ (∀ cur, cs_part_index cur 0 = CS_TXT_LEN)
  ∧ ([] ∈ cs_fields cs_str cs_len →
     cs_status (cs_str_to_zip cs_str cs_len) = (-1)%Z).
Proof.
  split; [apply cs_str_to_zip_inr |]. split; [apply cs_part_index_empty |].
  intros Hin. apply cs_status_inl. rewrite cs_str_to_zip_inr.
  intros [_ Hall]. rewrite Forall_forall in Hall.
  by apply Hall, is_token_not_empty in Hin.
Qed.

Lemma cs_str_to_zip_accepts_witness :
  [] ∈ cs_fields (lit "AES128--SHA") 11
  ∧ cs_status (cs_str_to_zip (lit "AES128--SHA") 11) = (-1)%Z.
Proof.
  assert ([] ∈ cs_fields (lit "AES128--SHA") 11) as H.
  { apply list_elem_of_In. vm_compute. tauto. }
  split; [exact H |].
  exact (proj2 (proj2 (cs_str_to_zip_accepts (lit "AES128--SHA") 11)) H).
Defined.

Lemma join_two_hyphen t u ts : "-"%char ∈ join "-" (t :: u :: ts).
Proof.
  change (join "-" (t :: u :: ts)) with (t ++ "-"%char :: join "-" (u :: ts)).
  apply elem_of_app. right. left.
Qed.

Lemma join_tokens_no_nul sep ts :
  is_nul sep = false → Forall is_token ts → NUL ∉ join sep ts.
Proof.
  intros Hsep Hts [E | (t & Ht & Hc)]%join_elem; [by rewrite <- E in Hsep |].
  rewrite Forall_forall in Hts. by apply Hts, is_token_no_nul in Ht.
Qed.

Lemma lookup_id_nine_tokens ts :
  length ts = 9 → Forall is_token ts →
  Curl_cipher_suite_lookup_id (join "-" ts) (length (join "-" ts)) = 0%Z.
Proof.
  intros Hlen Hts. unfold Curl_cipher_suite_lookup_id.
  destruct (0 <? _); [| done].
  destruct (cs_str_to_zip _ _) as [e | zip] eqn:E; [done |]. exfalso.
  assert (∃ zip, cs_str_to_zip (join "-" ts) (length (join "-" ts)) = inr zip)
    as [Hl Hall]%cs_str_to_zip_inr by eauto.
  unfold cs_fields, cs_name_bytes in Hl, Hall.
  rewrite firstn_all, c_str_no_nul_id in Hl, Hall
    by by apply join_tokens_no_nul.
  assert (Forall (λ t, "-"%char ∉ t) ts) as Hhy.
  { eapply Forall_impl; [exact Hts |]. intros t Ht. apply (is_token_plain t Ht). }
  destruct (cs_separator_cases (join "-" ts)) as [Hs | Hs]; rewrite Hs in Hl, Hall.
  - destruct ts as [|t [|u ts]]; [done.. |].
    rewrite split_on_no_sep in Hall.
    + apply Forall_singleton, is_token_plain in Hall as (_ & _ & Hh).
      apply Hh, join_two_hyphen.
    + intros [[=] | (t' & Ht' & Hc)]%join_elem.
      rewrite Forall_forall in Hts. apply Hts, is_token_plain in Ht' as (_ & Hu & _).
      done.
  - rewrite split_on_join in Hl; [rewrite Hlen in Hl; lia | | exact Hhy].
    intros ->. discriminate Hlen.
Qed.

(** C5: a name of more than 8 fields makes the encoder return -1, any 9
    tokens joined by hyphens resolve to 0, and a name of at most 8 fields
    never reaches the [return -1] of the field counter. *)
Theorem cs_str_to_zip_too_many_fields :
  (∀ cs_str cs_len,
     8 < length (cs_fields cs_str cs_len) →
     cs_status (cs_str_to_zip cs_str cs_len) = (-1)%Z)
  ∧ (∀ ts,
       length ts = 9 → Forall is_token ts →
       Curl_cipher_suite_lookup_id (join "-" ts) (length (join "-" ts)) = 0%Z)
  ∧ (∀ cs_str cs_len,
       length (cs_fields cs_str cs_len) ≤ 8 →
       cs_str_to_zip cs_str cs_len ≠ inl TooManyFields).
Proof.
  split; [| split].
  - intros cs_str cs_len Hl. apply cs_status_inl. rewrite cs_str_to_zip_inr. lia.
  - apply lookup_id_nine_tokens.
  - intros cs_str cs_len Hl H. unfold cs_str_to_zip in H.
    rewrite cs_str_to_indexes_fields in H.
    destruct (encode_fields _ _ _) as [e | r] eqn:E; [| done].
    injection H as ->. apply encode_fields_too_many in E; [lia |].
    apply cs_fields_not_nil.
Qed.

Lemma cs_str_to_zip_too_many_fields_witness :
  (8 < length (cs_fields (lit "8-8-8-8-8-8-8-8-8") 17)
   ∧ cs_status (cs_str_to_zip (lit "8-8-8-8-8-8-8-8-8") 17) = (-1)%Z)
  ∧ (length (replicate 9 (lit "SHA")) = 9
     ∧ Forall is_token (replicate 9 (lit "SHA"))
     ∧ Curl_cipher_suite_lookup_id (join "-" (replicate 9 (lit "SHA")))
         (length (join "-" (replicate 9 (lit "SHA")))) = 0%Z)
  ∧ (length (cs_fields (lit "AES128-SHA") 10) ≤ 8
     ∧ cs_str_to_zip (lit "AES128-SHA") 10 ≠ inl TooManyFields).
Proof.
  assert (8 < length (cs_fields (lit "8-8-8-8-8-8-8-8-8") 17)) as H1
    by (vm_compute; lia).
  assert (Forall is_token (replicate 9 (lit "SHA"))) as H2.
  { apply Forall_forall. intros t ->%elem_of_replicate_inv.
    apply is_tokenb_true. vm_compute. reflexivity. }
  assert (length (cs_fields (lit "AES128-SHA") 10) ≤ 8) as H3
    by (vm_compute; lia).
  destruct cs_str_to_zip_too_many_fields as (T1 & T2 & T3).
  split; [| split].
  - split; [exact H1 | exact (T1 _ _ H1)].
  - split; [reflexivity |]. split; [exact H2 | exact (T2 (replicate 9 (lit "SHA")) eq_refl H2)].
  - split; [exact H3 | exact (T3 _ _ H3)].
Defined.

(** ** Case of letters *)

Lemma cs_separator_upper s s' : same_upper s s' → cs_separator s = cs_separator s'.
Proof.
  intros H. unfold cs_separator.
  by rewrite (strncasecompare_upper_l s s').
Qed.

Lemma cs_part_len_upper sep p p' rem :
  (∀ c, Ascii.eqb (Curl_raw_toupper c) sep = Ascii.eqb c sep) →
  same_upper p p' → cs_part_len sep p rem = cs_part_len sep p' rem.
Proof.
  intros Hsep. revert p p'. induction rem as [|rem IH]; intros p p' H; [done |].
  cbn [cs_part_len].
  rewrite (same_upper_is_nul p p' H).
  rewrite <- (Hsep (deref p)), <- (Hsep (deref p')), (same_upper_deref p p' H).
  by rewrite (IH (tl p) (tl p')) by by apply same_upper_tl.
Qed.

Lemma cs_str_to_zip_loop_upper k sep p p' rem indexes :
  (∀ c, Ascii.eqb (Curl_raw_toupper c) sep = Ascii.eqb c sep) →
  same_upper p p' →
  cs_str_to_zip_loop k sep p rem indexes = cs_str_to_zip_loop k sep p' rem indexes.
Proof.
  intros Hsep. revert p p' rem indexes.
  induction k as [|k IH]; intros p p' rem indexes H; [done |].
  cbn [cs_str_to_zip_loop].
  rewrite <- (cs_part_len_upper sep p p' rem Hsep H).
  rewrite <- (cs_part_index_upper p p') by done.
  rewrite <- (same_upper_is_nul (drop (cs_part_len sep p rem) p)
                (drop (cs_part_len sep p rem) p')) by by apply same_upper_drop.
  rewrite (IH (tl (drop (cs_part_len sep p rem) p))
              (tl (drop (cs_part_len sep p rem) p'))); [done |].
  by apply same_upper_tl, same_upper_drop.
Qed.

Lemma cs_separator_toupper cs_str c :
  Ascii.eqb (Curl_raw_toupper c) (cs_separator cs_str)
  = Ascii.eqb c (cs_separator cs_str).
Proof.
  destruct (cs_separator_cases cs_str) as [-> | ->];
    [apply eqb_underscore_toupper | apply eqb_hyphen_toupper].
Qed.

Lemma cs_str_to_zip_upper s s' n :
  same_upper s s' → cs_str_to_zip s n = cs_str_to_zip s' n.
Proof.
  intros H. unfold cs_str_to_zip, cs_str_to_indexes.
  rewrite <- (cs_separator_upper s s' H).
  by rewrite (cs_str_to_zip_loop_upper 8 _ s s') by (done || apply cs_separator_toupper).
Qed.

(** C6: the identifier found for a name does not depend on the case of its
    letters, and the three spellings of suite 0x002F resolve to it. *)
Theorem Curl_cipher_suite_lookup_id_case_insensitive :
  (∀ s s' n,
     same_upper s s' →
     Curl_cipher_suite_lookup_id s n = Curl_cipher_suite_lookup_id s' n)
  ∧ Curl_cipher_suite_lookup_id (lit "aes128-sha") 10 = 0x002F%Z
  ∧ Curl_cipher_suite_lookup_id (lit "AES128-SHA") 10 = 0x002F%Z
  ∧ Curl_cipher_suite_lookup_id (lit "TLS_RSA_WITH_AES_128_CBC_SHA") 28 = 0x002F%Z.
Proof.
  split; [| repeat split; vm_compute; reflexivity].
  intros s s' n H. unfold Curl_cipher_suite_lookup_id.
  by rewrite (cs_str_to_zip_upper s s' n H).
Qed.

Lemma Curl_cipher_suite_lookup_id_case_insensitive_witness :
  same_upper (lit "Ecdhe-rsa-Aes256-sHa") (lit "ECDHE-RSA-AES256-SHA")
  ∧ Curl_cipher_suite_lookup_id (lit "Ecdhe-rsa-Aes256-sHa") 20
    = Curl_cipher_suite_lookup_id (lit "ECDHE-RSA-AES256-SHA") 20.
Proof.
  assert (same_upper (lit "Ecdhe-rsa-Aes256-sHa") (lit "ECDHE-RSA-AES256-SHA")) as H
    by (vm_compute; reflexivity).
  split; [exact H |].
  exact (proj1 Curl_cipher_suite_lookup_id_case_insensitive _ _ 20 H).
Defined.

(** ** Bytes past the length *)

Lemma cs_separator_take cs_str : cs_separator (take 3 cs_str) = cs_separator cs_str.
Proof. unfold cs_separator. by rewrite strncasecompare_take_l. Qed.

Lemma cs_separator_agree s1 s2 n :
  3 ≤ n → take n s1 = take n s2 → cs_separator s1 = cs_separator s2.
Proof.
  intros Hn H. rewrite <- (cs_separator_take s1), <- (cs_separator_take s2).
  replace 3 with (min 3 n) by lia. by rewrite <- !take_take, H.
Qed.

Lemma toupper_T c : Curl_raw_toupper c = "T"%char → c = "T"%char ∨ c = "t"%char.
Proof. each_byte c; intros H; vm_compute in H; try discriminate H; auto. Qed.

Lemma toupper_L c : Curl_raw_toupper c = "L"%char → c = "L"%char ∨ c = "l"%char.
Proof. each_byte c; intros H; vm_compute in H; try discriminate H; auto. Qed.

Lemma strncasecompare_cons_r s x t n :
  is_nul x = false → strncasecompare s (x :: t) (S n) = true →
  ∃ c r, s = c :: r ∧ Curl_raw_toupper c = Curl_raw_toupper x
    ∧ strncasecompare r t n = true.
Proof.
  intros Hx.
  destruct s as [|c r]; cbn [strncasecompare deref hd tl]; rewrite Hx.
  - change (is_nul NUL) with true. cbn [negb andb]. intros E%Ascii.eqb_eq.
    rewrite <- is_nul_toupper, <- E in Hx. discriminate Hx.
  - destruct (is_nul c) eqn:Hc; cbn [negb andb].
    + intros E%Ascii.eqb_eq. rewrite <- is_nul_toupper, <- E, is_nul_toupper in Hx.
      congruence.
    + destruct (Ascii.eqb _ _) eqn:E; [| discriminate].
      apply Ascii.eqb_eq in E. eauto.
Qed.

Lemma cs_separator_underscore cs_str :
  cs_separator cs_str = "_"%char →
  ∃ c1 c2 r, cs_str = c1 :: c2 :: r
    ∧ (c1 = "T" ∨ c1 = "t")%char ∧ (c2 = "L" ∨ c2 = "l")%char.
Proof.
  unfold cs_separator.
  destruct (strncasecompare cs_str (lit "TLS") 3) eqn:E; [| discriminate].
  intros _.
  apply strncasecompare_cons_r in E as (c1 & r1 & -> & H1 & E); [| done].
  apply strncasecompare_cons_r in E as (c2 & r2 & -> & H2 & E); [| done].
  exists c1, c2, r2. split; [done |]. split; [by apply toupper_T | by apply toupper_L].
Qed.

(** With fewer than 3 bytes, a buffer that starts with TLS is encoded to
    nothing under either separator. *)
Lemma cs_str_to_zip_loop_short sep s n :
  sep = "_"%char ∨ sep = "-"%char → n < 3 →
  (∃ s', take n s = take n s' ∧ cs_separator s' = "_"%char) →
  cs_str_to_zip_loop 8 sep s n (replicate 8 0%Z) = inl UnknownToken.
Proof.
  intros Hsep Hn (s' & Ht & (c1 & c2 & r & -> & H1 & H2)%cs_separator_underscore).
  rewrite cs_str_to_zip_loop_fields by by destruct Hsep as [-> | ->].
  rewrite Ht.
  destruct n as [|[|[|n]]]; [| | | lia]; cbn [take firstn];
    destruct Hsep as [-> | ->], H1 as [-> | ->], H2 as [-> | ->];
    vm_compute; reflexivity.
Qed.

Lemma cs_str_to_indexes_take s1 s2 n :
  take n s1 = take n s2 → cs_str_to_indexes s1 n = cs_str_to_indexes s2 n.
Proof.
  intros H. destruct (decide (3 ≤ n)) as [Hn | Hn].
  - rewrite !cs_str_to_indexes_fields. unfold cs_fields, cs_name_bytes.
    by rewrite (cs_separator_agree s1 s2 n Hn H), H.
  - destruct (cs_separator_cases s1) as [E1 | E1],
      (cs_separator_cases s2) as [E2 | E2].
    + rewrite !cs_str_to_indexes_fields. unfold cs_fields, cs_name_bytes.
      by rewrite E1, E2, H.
    + unfold cs_str_to_indexes.
      rewrite !cs_str_to_zip_loop_short; [done | apply cs_separator_cases | lia | | apply cs_separator_cases | lia |].
      * exists s1. done.
      * exists s1. done.
    + unfold cs_str_to_indexes.
      rewrite !cs_str_to_zip_loop_short; [done | apply cs_separator_cases | lia | | apply cs_separator_cases | lia |].
      * exists s2. done.
      * exists s2. done.
    + rewrite !cs_str_to_indexes_fields. unfold cs_fields, cs_name_bytes.
      by rewrite E1, E2, H.
Qed.

(** The identifier depends on the first [cs_len] bytes only. *)
Lemma lookup_id_take s1 s2 n :
  take n s1 = take n s2 →
  Curl_cipher_suite_lookup_id s1 n = Curl_cipher_suite_lookup_id s2 n.
Proof.
  intros H. unfold Curl_cipher_suite_lookup_id, cs_str_to_zip.
  by rewrite (cs_str_to_indexes_take s1 s2 n H).
Qed.

(** C7 fails on the code: for the buffer [TLS] given with length 2 the
    encoder runs with the separator of RFC names, while for the buffer
    [TLx], which has the same first 2 bytes, it runs with the hyphen. *)
Lemma cs_separator_length_counterexample :
  2 < 3
  ∧ take 2 (lit "TLS") = take 2 (lit "TLx")
  ∧ cs_separator (lit "TLS") = "_"%char
  ∧ cs_separator (lit "TLx") = "-"%char
  ∧ cs_str_to_indexes (lit "TLS") 2
    = cs_str_to_zip_loop 8 "_" (lit "TLS") 2 (replicate 8 0%Z).
Proof. split; [lia |]. repeat split. Qed.

(** C7, amended: the identifier depends only on the first [cs_len] bytes of
    the buffer.  The choice of the separator compares the first three bytes
    of the NUL-terminated buffer without looking at [cs_len]: it is fixed by
    the first [cs_len] bytes when [cs_len] is at least 3, and a buffer that
    is given the separator of RFC names with a length below 3 has no
    encoding, so that the identifier is 0 whatever the separator. *)
Theorem Curl_cipher_suite_lookup_id_length :
  (∀ s1 s2 n,
     take n s1 = take n s2 →
     Curl_cipher_suite_lookup_id s1 n = Curl_cipher_suite_lookup_id s2 n)
  ∧ (∀ s1 s2 n,
       3 ≤ n → take n s1 = take n s2 → cs_separator s1 = cs_separator s2)
  ∧ (∀ s n,
       n < 3 → cs_separator s = "_"%char →
       cs_str_to_zip s n = inl UnknownToken
       ∧ Curl_cipher_suite_lookup_id s n = 0%Z).
Proof.
  split; [apply lookup_id_take |]. split; [apply cs_separator_agree |].
  intros s n Hn Hs.
  assert (cs_str_to_zip s n = inl UnknownToken) as E.
  { unfold cs_str_to_zip, cs_str_to_indexes.
    rewrite cs_str_to_zip_loop_short; [done | apply cs_separator_cases | done |].
    by exists s. }
  split; [exact E |]. unfold Curl_cipher_suite_lookup_id. rewrite E.
  by destruct (0 <? n).
Qed.

Lemma Curl_cipher_suite_lookup_id_length_witness :
  (take 10 (lit "AES128-SHA, ECDHE") = take 10 (lit "AES128-SHA:x")
   ∧ Curl_cipher_suite_lookup_id (lit "AES128-SHA, ECDHE") 10
     = Curl_cipher_suite_lookup_id (lit "AES128-SHA:x") 10)
  ∧ (3 ≤ 4 ∧ take 4 (lit "TLS_AES") = take 4 (lit "TLS_RSA")
     ∧ cs_separator (lit "TLS_AES") = cs_separator (lit "TLS_RSA"))
  ∧ (2 < 3 ∧ cs_separator (lit "TLS") = "_"%char
     ∧ cs_str_to_zip (lit "TLS") 2 = inl UnknownToken
     ∧ Curl_cipher_suite_lookup_id (lit "TLS") 2 = 0%Z).
Proof.
  destruct Curl_cipher_suite_lookup_id_length as (T1 & T2 & T3).
  split; [| split].
  - split; [reflexivity |]. exact (T1 _ _ 10 eq_refl).
  - split; [lia |]. split; [reflexivity |].
    exact (T2 (lit "TLS_AES") (lit "TLS_RSA") 4 ltac:(lia) eq_refl).
  - split; [lia |]. split; [reflexivity |].
    exact (T3 (lit "TLS") 2 ltac:(lia) eq_refl).
Defined.

(** ** [msnprintf] *)

Lemma list_inserts_take (buf out : list ascii) off :
  off + length out ≤ length buf →
  take (off + length out) (list_inserts off out buf) = take off buf ++ out.
Proof.
  intros H.
  assert (length (take off buf) = off) as Hl1 by (rewrite length_take; lia).
  assert (length (take (length out) (drop off buf)) = length out) as Hl2
    by (rewrite length_take, length_drop; lia).
  pose proof (list_inserts_app_r out (take off buf)
                (take (length out) (drop off buf)
                 ++ drop (length out) (drop off buf)) 0) as E.
  rewrite Nat.add_0_r, Hl1, !take_drop in E. rewrite E.
  rewrite <- (take_drop (length out) (drop off buf)).
  rewrite list_inserts_0_r by done.
  rewrite app_assoc. apply take_app_length'. rewrite length_app. lia.
Qed.

Lemma msnprintf_spec buf off size text :
  0 < size → off + size ≤ length buf →
  ∃ buf',
    msnprintf buf off size text
    = (Z.of_nat (min (length text) (size - 1)), buf')
    ∧ length buf' = length buf
    ∧ take (off + min (length text) (size - 1)) buf'
      = take off buf ++ take (min (length text) (size - 1)) text
    ∧ buf' !! (off + min (length text) (size - 1)) = Some NUL.
Proof.
  intros Hs Hb. destruct size as [|room]; [lia |].
  replace (S room - 1) with room by lia. unfold msnprintf.
  assert (length (take room text) = min (length text) room) as Hl
    by (rewrite length_take; lia).
  assert (take (min (length text) room) text = take room text) as Ht.
  { destruct (decide (room ≤ length text)).
    - by replace (min (length text) room) with room by lia.
    - rewrite !take_ge by lia. done. }
  rewrite Hl. eexists. split; [reflexivity |]. split; [| split].
  - by rewrite length_insert, length_inserts.
  - rewrite take_insert_ge by lia. rewrite <- Hl, list_inserts_take by lia.
    by rewrite Hl, Ht.
  - apply list_lookup_insert_eq. rewrite length_inserts. lia.
Qed.

(** ** The decoder loop *)

Lemma cs_part_text_no_nul x : NUL ∉ cs_part_text x.
Proof. apply c_str_no_nul. Qed.

Lemma cs_part_text_not_nil x :
  (0 < x < CS_TXT_LEN)%Z → cs_part_text x ≠ [].
Proof.
  intros Hx.
  assert (forallb (λ n, negb (Nat.eqb (length (cs_part_text (Z.of_nat n))) 0))
            (seq 1 35) = true) as H by (vm_compute; reflexivity).
  rewrite forallb_forall in H. specialize (H (Z.to_nat x)).
  rewrite Z2Nat.id in H by lia.
  intros E. rewrite E in H. discriminate H.
  apply in_seq. unfold CS_TXT_LEN in Hx. lia.
Qed.

Lemma cs_pieces_no_nul i sep indexes :
  is_nul sep = false → NUL ∉ cs_pieces i sep indexes.
Proof.
  intros Hsep. revert i. induction indexes as [|x l IH]; intros i; simpl.
  - by intros ?%elem_of_nil.
  - destruct (x =? 0)%Z; [by intros ?%elem_of_nil |].
    intros [H | H]%elem_of_app; [| by apply IH in H].
    destruct (0 <? i).
    + apply elem_of_cons in H as [E | H]; [by rewrite <- E in Hsep |].
      by apply cs_part_text_no_nul in H.
    + by apply cs_part_text_no_nul in H.
Qed.

Lemma cs_zip_to_str_loop_spec k indexes sep buf buf_size len :
  length indexes = 8 → k ≤ 8 →
  Forall (λ x, (0 ≤ x < CS_TXT_LEN)%Z) indexes →
  len < buf_size → buf_size ≤ length buf →
  ∃ buf',
    cs_zip_to_str_loop k indexes sep buf buf_size len = (0%Z, buf')
    ∧ length buf' = length buf
    ∧ take (len + min (length (cs_pieces (8 - k) sep (drop (8 - k) indexes)))
                    (buf_size - 1 - len)) buf'
      = take len buf
        ++ take (min (length (cs_pieces (8 - k) sep (drop (8 - k) indexes)))
                   (buf_size - 1 - len))
             (cs_pieces (8 - k) sep (drop (8 - k) indexes))
    ∧ (cs_pieces (8 - k) sep (drop (8 - k) indexes) = [] → buf' = buf)
    ∧ (cs_pieces (8 - k) sep (drop (8 - k) indexes) ≠ [] →
       buf' !! (len + min (length (cs_pieces (8 - k) sep (drop (8 - k) indexes)))
                        (buf_size - 1 - len)) = Some NUL).
Proof.
  intros Hlen Hk Hvalid. revert buf len.
  induction k as [|k IH]; intros buf len Hl Hb.
  - rewrite drop_ge by lia. cbn [cs_pieces cs_zip_to_str_loop length].
    exists buf. rewrite Nat.min_0_l, Nat.add_0_r, app_nil_r. done.
  - destruct (lookup_lt_is_Some_2 indexes (8 - S k)) as [x Hx]; [lia |].
    rewrite (drop_S _ _ _ Hx). cbn [cs_zip_to_str_loop cs_pieces].
    rewrite (list_lookup_total_correct _ _ _ Hx).
    destruct (x =? 0)%Z eqn:E0; cbn [negb andb].
    { exists buf. cbn [length]. rewrite Nat.min_0_l, Nat.add_0_r, app_nil_r. done. }
    apply Z.eqb_neq in E0.
    assert ((len <? buf_size) = true) as -> by (apply Nat.ltb_lt; lia).
    rewrite Forall_forall in Hvalid.
    assert (0 ≤ x < CS_TXT_LEN)%Z as Hxv by (apply Hvalid; by eapply list_elem_of_lookup_2).
    assert ((CS_TXT_LEN <=? x)%Z = false) as -> by (apply Z.leb_gt; lia).
    set (p := if 0 <? 8 - S k then sep :: cs_part_text x else cs_part_text x).
    assert (p ≠ []) as Hp.
    { unfold p. destruct (0 <? 8 - S k); [done |]. apply cs_part_text_not_nil. lia. }
    assert ((if 0 <? 8 - S k
             then msnprintf buf len (buf_size - len) (sep :: cs_part_text x)
             else msnprintf buf len (buf_size - len) (cs_part_text x))
            = msnprintf buf len (buf_size - len) p) as ->.
    { unfold p. by destruct (0 <? 8 - S k). }
    destruct (msnprintf_spec buf len (buf_size - len) p)
      as (buf1 & -> & Hl1 & Ht1 & Hn1); [lia | lia |].
    assert ((Z.of_nat (min (length p) (buf_size - len - 1)) <? 0)%Z = false) as ->
      by (apply Z.ltb_ge; lia).
    rewrite Nat2Z.id.
    replace (S (8 - S k)) with (8 - k) by lia.
    set (R' := cs_pieces (8 - k) sep (drop (8 - k) indexes)).
    destruct (IH ltac:(lia) buf1 (len + min (length p) (buf_size - len - 1)))
      as (buf' & -> & Hl' & Ht' & Hnil' & Hnul'); [lia | lia |].
    fold R' in Ht', Hnil', Hnul'.
    exists buf'. split; [done |]. split; [congruence |].
    rewrite length_app.
    assert (min (length p + length R') (buf_size - 1 - len)
            = min (length p) (buf_size - len - 1)
              + min (length R')
                  (buf_size - 1 - (len + min (length p) (buf_size - len - 1))))
      as -> by lia.
    rewrite Nat.add_assoc.
    assert (take (min (length p) (buf_size - len - 1)
                  + min (length R')
                      (buf_size - 1 - (len + min (length p) (buf_size - len - 1))))
              (p ++ R')
            = take (min (length p) (buf_size - len - 1)) p
              ++ take (min (length R')
                         (buf_size - 1 - (len + min (length p) (buf_size - len - 1))))
                   R') as ->.
    { destruct (decide (length p ≤ buf_size - len - 1)) as [Hle | Hgt].
      - replace (min (length p) (buf_size - len - 1)) with (length p) by lia.
        rewrite take_app_add', firstn_all; done.
      - replace (min (length R')
                   (buf_size - 1 - (len + min (length p) (buf_size - len - 1))))
          with 0 by lia.
        rewrite Nat.add_0_r, take_app_le by lia. by rewrite take_0, app_nil_r. }
    split; [| split].
    + rewrite Ht', Ht1. by rewrite <- app_assoc.
    + intros [? _]%app_eq_nil. done.
    + intros _. destruct (decide (R' = [])) as [HR | HR].
      * rewrite (Hnil' HR), HR. cbn [length]. by rewrite Nat.min_0_l, Nat.add_0_r.
      * by apply Hnul'.
Qed.

Lemma cs_pieces_succ i sep l :
  cs_pieces (S i) sep l
  = concat (map (λ x, sep :: cs_part_text x) (cs_name_indexes l)).
Proof.
  revert i. induction l as [|x l IH]; intros i; [done |].
  cbn [cs_pieces cs_name_indexes]. destruct (x =? 0)%Z; [done |].
  cbn [map concat]. by rewrite IH.
Qed.

Lemma join_cons sep t ts :
  join sep (t :: ts) = t ++ concat (map (λ u, sep :: u) ts).
Proof.
  revert t. induction ts as [|u ts IH]; intros t.
  - simpl. by rewrite app_nil_r.
  - change (join sep (t :: u :: ts)) with (t ++ sep :: join sep (u :: ts)).
    by rewrite IH.
Qed.

Lemma cs_pieces_join sep l :
  cs_pieces 0 sep l = join sep (map cs_part_text (cs_name_indexes l)).
Proof.
  destruct l as [|x l]; [done |]. cbn [cs_pieces cs_name_indexes].
  destruct (x =? 0)%Z; [done |]. cbn [map Nat.ltb Nat.leb].
  by rewrite join_cons, cs_pieces_succ, map_map.
Qed.

(** The decoder on indexes that are all in the dictionary: it returns 0 and
    leaves in the buffer the name cut to [buf_size - 1] bytes. *)
Lemma cs_zip_to_str_spec zip buf buf_size :
  Forall (λ x, (0 ≤ x < CS_TXT_LEN)%Z) (cs_unzip zip) →
  buf_size ≤ length buf →
  ∃ buf',
    cs_zip_to_str zip buf buf_size = (0%Z, buf')
    ∧ length buf' = length buf
    ∧ (buf_size = 0 ∨ cs_zip_name zip = [] → buf' = buf)
    ∧ (0 < buf_size → cs_zip_name zip ≠ [] →
       c_str buf' = take (buf_size - 1) (cs_zip_name zip)).
Proof.
  intros Hvalid Hb. unfold cs_zip_to_str.
  fold (cs_name_separator (cs_unzip zip)).
  destruct (decide (buf_size = 0)) as [-> | Hs].
  { exists buf. cbn [cs_zip_to_str_loop Nat.ltb Nat.leb].
    rewrite andb_false_r. split; [done |]. split; [done |].
    split; [done | lia]. }
  destruct (cs_zip_to_str_loop_spec 8 (cs_unzip zip)
              (cs_name_separator (cs_unzip zip)) buf buf_size 0)
    as (buf' & -> & Hl & Ht & Hnil & Hnul); [done | lia | done | lia | done |].
  change (8 - 8) with 0 in Ht, Hnil, Hnul. cbn [drop] in Ht, Hnil, Hnul.
  rewrite cs_pieces_join in Ht, Hnil, Hnul.
  fold (cs_zip_name zip) in Ht, Hnil, Hnul.
  cbn [take Nat.add app] in Ht, Hnul. rewrite Nat.sub_0_r in Ht, Hnul.
  exists buf'. split; [done |]. split; [done |]. split.
  - intros [? | E]; [lia | by apply Hnil].
  - intros _ Hne.
    assert (take (min (length (cs_zip_name zip)) (buf_size - 1)) (cs_zip_name zip)
            = take (buf_size - 1) (cs_zip_name zip)) as E.
    { destruct (decide (buf_size - 1 ≤ length (cs_zip_name zip))).
      - by replace (min (length (cs_zip_name zip)) (buf_size - 1))
          with (buf_size - 1) by lia.
      - by rewrite !take_ge by lia. }
    rewrite <- E.
    apply (c_str_buffer buf' (min (length (cs_zip_name zip)) (buf_size - 1)));
      [done | rewrite length_take; lia | | by apply Hnul].
    intros Hin. apply (subseteq_take _ _ _) in Hin. revert Hin. unfold cs_zip_name.
    rewrite <- cs_pieces_join. apply cs_pieces_no_nul.
    unfold cs_name_separator. by destruct (_ =? _)%Z.
Qed.

(** ** The scan of [Curl_cipher_suite_get_str] *)

Lemma first_index_find {A} (f : A → bool) l :
  l !! first_index f l = find f l.
Proof.
  induction l as [|x l IH]; simpl; [done |]. by destruct (f x).
Qed.

Lemma cs_get_str_scan_spec l i j id prefer_rfc :
  i + length l = CS_LIST_LEN →
  let a := first_index
             (λ e, (cs_entry_id e =? id)%Z && Bool.eqb (cs_is_rfc e) prefer_rfc) l in
  let b := first_index (λ e, (cs_entry_id e =? id)%Z) l in
  cs_get_str_scan l i j id prefer_rfc
  = if a <? length l then i + a
    else if Nat.eqb j CS_LIST_LEN
         then (if b <? length l then i + b else CS_LIST_LEN)
         else j.
Proof.
  revert i j. induction l as [|e l IH]; intros i j Hi a b.
  - subst a b. cbn [cs_get_str_scan first_index length Nat.ltb Nat.leb].
    destruct (Nat.eqb j CS_LIST_LEN) eqn:E; [by apply Nat.eqb_eq in E | done].
  - subst a b. cbn [cs_get_str_scan first_index length].
    cbn [length] in Hi.
    destruct (cs_entry_id e =? id)%Z eqn:Eid; cbn [negb andb].
    + fold (cs_is_rfc e).
      replace (Bool.eqb (negb (cs_is_rfc e)) (negb prefer_rfc))
        with (Bool.eqb (cs_is_rfc e) prefer_rfc)
        by by destruct (cs_is_rfc e), prefer_rfc.
      destruct (Bool.eqb (cs_is_rfc e) prefer_rfc) eqn:Est.
      * cbn [Nat.ltb Nat.leb]. lia.
      * rewrite IH by lia. cbn zeta.
        set (a := first_index _ l). set (b := first_index _ l).
        change (S a <? S (length l)) with (a <? length l).
        destruct (a <? length l); [lia |].
        change (0 <? S (length l)) with true. cbn iota.
        destruct (Nat.eqb j CS_LIST_LEN) eqn:Ej.
        -- assert (Nat.eqb i CS_LIST_LEN = false) as -> by (apply Nat.eqb_neq; lia).
           lia.
        -- rewrite Ej. done.
    + rewrite IH by lia. cbn zeta.
      set (a := first_index _ l). set (b := first_index _ l).
      change (S a <? S (length l)) with (a <? length l).
      change (S b <? S (length l)) with (b <? length l).
      destruct (a <? length l); [lia |].
      destruct (Nat.eqb j CS_LIST_LEN); [| done].
      destruct (b <? length l); lia.
Qed.

Lemma cs_get_str_scan_select id prefer_rfc :
  cs_list !! cs_get_str_scan cs_list 0 CS_LIST_LEN id prefer_rfc
  = cs_select id prefer_rfc.
Proof.
  rewrite cs_get_str_scan_spec by done. cbn zeta. unfold cs_select.
  rewrite Nat.eqb_refl, <- !first_index_find.
  set (a := first_index _ cs_list). set (b := first_index _ cs_list).
  destruct (a <? length cs_list) eqn:Ea.
  - apply Nat.ltb_lt, lookup_lt_is_Some in Ea as [e He]. cbn [Nat.add]. by rewrite He.
  - apply Nat.ltb_ge in Ea. rewrite (lookup_ge_None_2 _ a) by done.
    destruct (b <? length cs_list) eqn:Eb; [done |].
    apply Nat.ltb_ge in Eb. rewrite (lookup_ge_None_2 _ b) by done.
    by apply lookup_ge_None_2.
Qed.

(** ** Facts about the table *)

Lemma bytes_eqb_eq a b : bytes_eqb a b = true ↔ a = b.
Proof.
  revert b. induction a as [|x a IH]; intros [|y b]; simpl; try done.
  rewrite andb_true_iff, Ascii.eqb_eq, IH. split; [by intros [-> ->] | by intros [= -> ->]].
Qed.

Lemma cs_list_ok e :
  e ∈ cs_list →
  Forall (λ x, (0 ≤ x < CS_TXT_LEN)%Z) (cs_unzip (cs_entry_zip e))
  ∧ 0 < length (cs_zip_name (cs_entry_zip e)) < 64.
Proof.
  intros He.
  assert (forallb cs_entry_okb cs_list = true) as H by (vm_compute; reflexivity).
  rewrite forallb_forall in H. apply list_elem_of_In, H in He.
  unfold cs_entry_okb in He.
  apply andb_true_iff in He as [[H1 H2]%andb_true_iff H3].
  apply Nat.ltb_lt in H2, H3. split; [| lia].
  apply Forall_forall. intros x Hx%list_elem_of_In.
  rewrite forallb_forall in H1. apply H1 in Hx. lia.
Qed.

Lemma cs_list_round_trip e :
  e ∈ cs_list →
  (∃ e', cs_select (cs_entry_id e) (cs_is_rfc e) = Some e'
         ∧ cs_zip_name (cs_entry_zip e') = cs_zip_name (cs_entry_zip e))
  ∧ Curl_cipher_suite_lookup_id (cs_zip_name (cs_entry_zip e))
      (length (cs_zip_name (cs_entry_zip e))) = cs_entry_id e.
Proof.
  intros He.
  assert (forallb cs_entry_round_tripb cs_list = true) as H
    by (vm_compute; reflexivity).
  rewrite forallb_forall in H. apply list_elem_of_In, H in He.
  unfold cs_entry_round_tripb in He.
  apply andb_true_iff in He as [H1 H2]. apply Z.eqb_eq in H2. split; [| done].
  destruct (cs_select _ _) as [e' |]; [| done].
  exists e'. split; [done |]. by apply bytes_eqb_eq.
Qed.

Lemma cs_select_elem id prefer_rfc e :
  cs_select id prefer_rfc = Some e → e ∈ cs_list ∧ cs_entry_id e = id.
Proof.
  unfold cs_select. destruct (find _ cs_list) as [e' |] eqn:E.
  - intros [= <-]. apply find_some in E as [Hin [Hid _]%andb_true_iff].
    split; [by apply list_elem_of_In | by apply Z.eqb_eq].
  - intros [Hin Hid]%find_some.
    split; [by apply list_elem_of_In | by apply Z.eqb_eq].
Qed.

Lemma cs_select_present id prefer_rfc :
  (∃ e, e ∈ cs_list ∧ cs_entry_id e = id) → is_Some (cs_select id prefer_rfc).
Proof.
  intros (e & He & Hid). unfold cs_select.
  destruct (find _ cs_list) as [e' |]; [done |].
  destruct (find (λ e, (cs_entry_id e =? id)%Z) cs_list) as [e' |] eqn:E; [done |].
  apply list_elem_of_In in He. apply (find_none _ _ E) in He.
  apply Z.eqb_neq in He. done.
Qed.

(** ** [Curl_cipher_suite_get_str] *)

Lemma hex_digit_not_nul d : (0 ≤ d < 16)%Z → hex_digit d ≠ NUL.
Proof.
  intros Hd. unfold hex_digit.
  assert (Z.to_nat d < 16) as Hn by lia. revert Hn.
  generalize (Z.to_nat d) as n. intros n Hn.
  do 16 (destruct n as [|n]; [by vm_compute |]). lia.
Qed.

Lemma cs_unknown_no_nul id : NUL ∉ cs_unknown id.
Proof.
  unfold cs_unknown. intros [H | H]%elem_of_app.
  - apply list_elem_of_In in H. vm_compute in H. intuition discriminate.
  - unfold fmt_04x in H.
    repeat (apply elem_of_cons in H as [H | H];
            [symmetry in H; revert H; apply hex_digit_not_nul, Z.mod_pos_bound; lia |]).
    by apply elem_of_nil in H.
Qed.

Lemma take_min_length {A} (l : list A) n :
  take (min (length l) n) l = take n l.
Proof.
  destruct (decide (n ≤ length l)).
  - by replace (min (length l) n) with n by lia.
  - by rewrite !take_ge by lia.
Qed.

(** What [Curl_cipher_suite_get_str] returns and leaves in the buffer, for
    every identifier and every buffer. *)
Lemma Curl_cipher_suite_get_str_spec id buf buf_size prefer_rfc :
  buf_size ≤ length buf →
  ∃ buf',
    match cs_select id prefer_rfc with
    | Some e =>
        Curl_cipher_suite_get_str id buf buf_size prefer_rfc = (0%Z, buf')
        ∧ (0 < buf_size →
           c_str buf' = take (buf_size - 1) (cs_zip_name (cs_entry_zip e)))
    | None =>
        Curl_cipher_suite_get_str id buf buf_size prefer_rfc = ((-1)%Z, buf')
        ∧ (0 < buf_size → c_str buf' = take (buf_size - 1) (cs_unknown id))
    end
    ∧ length buf' = length buf
    ∧ (buf_size = 0 → buf' = buf).
Proof.
  intros Hb. unfold Curl_cipher_suite_get_str.
  rewrite cs_get_str_scan_select.
  destruct (cs_select id prefer_rfc) as [e |] eqn:E.
  - apply cs_select_elem in E as [He _]. apply cs_list_ok in He as [Hv Hn].
    destruct (cs_zip_to_str_spec (cs_entry_zip e) buf buf_size Hv Hb)
      as (buf' & -> & Hl & Hsame & Hstr).
    exists buf'. cbn -[cs_zip_name]. split; [split; [done |] | split; [done |]].
    + intros Hs. apply Hstr; [done |]. intros E. rewrite E in Hn. simpl in Hn. lia.
    + intros ->. apply Hsame. by left.
  - fold (cs_unknown id). cbn -[cs_unknown msnprintf].
    destruct (decide (buf_size = 0)) as [-> | Hs].
    { exists buf. cbn -[cs_unknown]. split; [split; [done | lia] | done]. }
    destruct (msnprintf_spec buf 0 buf_size (cs_unknown id))
      as (buf' & -> & Hl & Ht & Hn); [lia | lia |].
    exists buf'. cbn [snd]. split; [split; [done |] | split; [done | lia]].
    intros _. cbn [Nat.add take app] in Ht, Hn.
    rewrite take_min_length in Ht.
    apply (c_str_buffer buf' (min (length (cs_unknown id)) (buf_size - 1)));
      [by rewrite Ht | rewrite length_take; lia | | done].
    intros Hin. apply (subseteq_take _ _ _) in Hin.
    by apply cs_unknown_no_nul in Hin.
Qed.

(** ** Decoding the entries of the table *)

(** C1: for every entry of the table, decoding its identifier with the
    entry's own naming style into a buffer that has room for the name gives
    the entry's name, and encoding that name gives the identifier back. *)
Theorem cs_list_decode_encode e buf buf_size :
  e ∈ cs_list →
  length (cs_zip_name (cs_entry_zip e)) < buf_size → buf_size ≤ length buf →
  ∃ buf',
    Curl_cipher_suite_get_str (cs_entry_id e) buf buf_size (cs_is_rfc e)
    = (0%Z, buf')
    ∧ c_str buf' = cs_zip_name (cs_entry_zip e)
    ∧ Curl_cipher_suite_lookup_id buf' (strlen buf') = cs_entry_id e.
Proof.
  intros He Hn Hb.
  destruct (cs_list_round_trip e He) as [(e' & Hsel & Hname) Hid].
  destruct (Curl_cipher_suite_get_str_spec (cs_entry_id e) buf buf_size
              (cs_is_rfc e) Hb) as (buf' & H & _ & _).
  rewrite Hsel in H. destruct H as [Hget Hstr].
  rewrite Hname, take_ge in Hstr by lia. specialize (Hstr ltac:(lia)).
  exists buf'. split; [done |]. split; [done |].
  rewrite <- Hid, <- Hstr, c_str_length.
  apply lookup_id_take. unfold c_str. rewrite take_take. f_equal. lia.
Qed.

Lemma cs_list_decode_encode_witness :
  CS_ENTRY 0x002F CS_TXT_IDX_AES128 CS_TXT_IDX_SHA CS_TXT_IDX_ CS_TXT_IDX_
    CS_TXT_IDX_ CS_TXT_IDX_ CS_TXT_IDX_ CS_TXT_IDX_ ∈ cs_list
  ∧ ∃ buf',
      Curl_cipher_suite_get_str 0x002F (replicate 16 "x"%char) 16 false
      = (0%Z, buf')
      ∧ c_str buf' = lit "AES128-SHA"
      ∧ Curl_cipher_suite_lookup_id buf' (strlen buf') = 0x002F%Z.
Proof.
  assert (CS_ENTRY 0x002F CS_TXT_IDX_AES128 CS_TXT_IDX_SHA CS_TXT_IDX_ CS_TXT_IDX_
            CS_TXT_IDX_ CS_TXT_IDX_ CS_TXT_IDX_ CS_TXT_IDX_ ∈ cs_list) as H
    by (apply (list_elem_of_lookup_2 _ 1); reflexivity).
  split; [exact H |].
  refine (cs_list_decode_encode _ (replicate 16 "x"%char) 16 H _ _).
  - vm_compute. lia.
  - vm_compute. lia.
Defined.

(** C3 fails on the code: identifier 0x002F is in the table and its RFC name
    has 28 bytes, yet with a buffer of 8 bytes the function returns 0 and
    leaves the first 7 bytes of the name, and with a buffer of no bytes it
    returns 0 and writes nothing. *)
Lemma Curl_cipher_suite_get_str_small_buffer_counterexample :
  cs_select 0x002F true
  = Some (CS_ENTRY 0x002F CS_TXT_IDX_TLS CS_TXT_IDX_RSA CS_TXT_IDX_WITH
            CS_TXT_IDX_AES CS_TXT_IDX_128 CS_TXT_IDX_CBC CS_TXT_IDX_SHA CS_TXT_IDX_)
  ∧ cs_zip_name
      (cs_entry_zip
         (CS_ENTRY 0x002F CS_TXT_IDX_TLS CS_TXT_IDX_RSA CS_TXT_IDX_WITH
            CS_TXT_IDX_AES CS_TXT_IDX_128 CS_TXT_IDX_CBC CS_TXT_IDX_SHA CS_TXT_IDX_))
    = lit "TLS_RSA_WITH_AES_128_CBC_SHA"
  ∧ Curl_cipher_suite_get_str 0x002F (replicate 8 "x"%char) 8 true
    = (0%Z, lit "TLS_RSA" ++ [NUL])
  ∧ Curl_cipher_suite_get_str 0x002F [] 0 true = (0%Z, []).
Proof. repeat split; vm_compute; reflexivity. Qed.

(** C3, amended: for an identifier that is in the table the decoded name is
    cut to the buffer, not refused.  For every buffer size the function
    returns 0; with a size of at least one byte the buffer holds the first
    [buf_size - 1] bytes of the name of the selected entry, followed by NUL,
    and with a size of 0 the buffer is left as it was.  The text for unknown
    identifiers is not written. *)
Theorem Curl_cipher_suite_get_str_truncates id prefer_rfc buf buf_size :
  (∃ e, e ∈ cs_list ∧ cs_entry_id e = id) → buf_size ≤ length buf →
  ∃ e buf',
    cs_select id prefer_rfc = Some e
    ∧ cs_entry_id e = id
    ∧ Curl_cipher_suite_get_str id buf buf_size prefer_rfc = (0%Z, buf')
    ∧ (buf_size = 0 → buf' = buf)
    ∧ (0 < buf_size →
       c_str buf' = take (buf_size - 1) (cs_zip_name (cs_entry_zip e))).
Proof.
  intros Hid Hb.
  destruct (cs_select_present id prefer_rfc Hid) as [e Hsel].
  destruct (Curl_cipher_suite_get_str_spec id buf buf_size prefer_rfc Hb)
    as (buf' & H & _ & Hsame).
  rewrite Hsel in H. destruct H as [Hget Hstr].
  exists e, buf'. split; [done |].
  split; [by apply cs_select_elem in Hsel as [_ ?] | done].
Qed.

Lemma Curl_cipher_suite_get_str_truncates_witness :
  (∃ e, e ∈ cs_list ∧ cs_entry_id e = 0xC014%Z)
  ∧ ∃ e buf',
      cs_select 0xC014 false = Some e
      ∧ cs_entry_id e = 0xC014%Z
      ∧ Curl_cipher_suite_get_str 0xC014 (replicate 8 "x"%char) 8 false
        = (0%Z, buf')
      ∧ (8 = 0 → buf' = replicate 8 "x"%char)
      ∧ (0 < 8 → c_str buf' = take (8 - 1) (cs_zip_name (cs_entry_zip e))).
Proof.
  assert (∃ e, e ∈ cs_list ∧ cs_entry_id e = 0xC014%Z) as H.
  { eexists. split; [apply (list_elem_of_lookup_2 _ 26); reflexivity | reflexivity]. }
  split; [exact H |].
  refine (Curl_cipher_suite_get_str_truncates 0xC014 false
            (replicate 8 "x"%char) 8 H _).
  vm_compute. lia.
Defined.

(** C4: the entry decoded is the first one with the identifier whose style
    is the preferred one, else the first one with the identifier; without
    any, the text for unknown identifiers is written and -1 returned. *)
Theorem Curl_cipher_suite_get_str_selects id prefer_rfc buf buf_size :
  64 ≤ buf_size → buf_size ≤ length buf →
  (∃ buf',
     match
       find (λ e, (cs_entry_id e =? id)%Z && Bool.eqb (cs_is_rfc e) prefer_rfc)
         cs_list,
       find (λ e, (cs_entry_id e =? id)%Z) cs_list
     with
     | Some e, _ | None, Some e =>
         Curl_cipher_suite_get_str id buf buf_size prefer_rfc = (0%Z, buf')
         ∧ c_str buf' = cs_zip_name (cs_entry_zip e)
     | None, None =>
         Curl_cipher_suite_get_str id buf buf_size prefer_rfc = ((-1)%Z, buf')
         ∧ c_str buf' = lit "TLS_UNKNOWN_0x" ++ fmt_04x id
     end)
  ∧ (∃ buf',
       Curl_cipher_suite_get_str 0x1301 buf buf_size false = (0%Z, buf')
       ∧ c_str buf' = lit "TLS_AES_128_GCM_SHA256")
  ∧ (∃ buf',
       Curl_cipher_suite_get_str 0xFFFF buf buf_size true = ((-1)%Z, buf')
       ∧ c_str buf' = lit "TLS_UNKNOWN_0xffff").
Proof.
  intros Hs Hb.
  assert (∀ id prefer_rfc, ∃ buf',
            match cs_select id prefer_rfc with
            | Some e =>
                Curl_cipher_suite_get_str id buf buf_size prefer_rfc = (0%Z, buf')
                ∧ c_str buf' = cs_zip_name (cs_entry_zip e)
            | None =>
                Curl_cipher_suite_get_str id buf buf_size prefer_rfc
                = ((-1)%Z, buf')
                ∧ c_str buf' = cs_unknown id
            end) as H.
  { clear id prefer_rfc. intros id prefer_rfc.
    destruct (Curl_cipher_suite_get_str_spec id buf buf_size prefer_rfc Hb)
      as (buf' & H & _ & _).
    exists buf'. destruct (cs_select id prefer_rfc) as [e |] eqn:Hsel.
    - destruct H as [Hget Hstr]. split; [done |].
      apply cs_select_elem in Hsel as [[_ Hn]%cs_list_ok _].
      rewrite Hstr by lia. apply take_ge. lia.
    - destruct H as [Hget Hstr]. split; [done |].
      rewrite Hstr by lia. apply take_ge. cbn. lia. }
  split; [| split].
  - destruct (H id prefer_rfc) as (buf' & H'). exists buf'.
    unfold cs_select in H'.
    by destruct (find _ cs_list), (find (λ e, (cs_entry_id e =? id)%Z) cs_list).
  - destruct (H 0x1301%Z false) as (buf' & H'). by exists buf'.
  - destruct (H 0xFFFF%Z true) as (buf' & H'). by exists buf'.
Qed.

Lemma Curl_cipher_suite_get_str_selects_witness :
  64 ≤ 64 ∧ 64 ≤ length (replicate 64 "x"%char)
  ∧ ∃ buf',
      Curl_cipher_suite_get_str 0x1301 (replicate 64 "x"%char) 64 false
      = (0%Z, buf')
      ∧ c_str buf' = lit "TLS_AES_128_GCM_SHA256".
Proof.
  assert (64 ≤ length (replicate 64 "x"%char)) as H by (vm_compute; lia).
  split; [lia |]. split; [exact H |].
  exact (proj1 (proj2 (Curl_cipher_suite_get_str_selects 0x002F true
                         (replicate 64 "x"%char) 64 ltac:(lia) H))).
Defined.

(** ** The table and the walk *)

Lemma no_holesb_sound indexes : no_holesb indexes = true → no_holes indexes.
Proof.
  induction indexes as [|x l IH]; intros H i j y Hij Hi Hj.
  - by rewrite lookup_nil in Hj.
  - cbn [no_holesb] in H. destruct (x =? 0)%Z eqn:E.
    + apply Z.eqb_eq in E. subst x. destruct j as [|j]; [by injection Hj |].
      cbn in Hj. rewrite forallb_forall in H.
      apply Z.eqb_eq, H, list_elem_of_In. by eapply list_elem_of_lookup_2.
    + apply Z.eqb_neq in E. destruct i as [|i]; [by injection Hi |].
      destruct j as [|j]; [lia |]. apply (IH H i j y); [lia | done | done].
Qed.

(** C9: every entry of the table unzips to 8 indexes without holes, each
    index zero or in the dictionary, and entries with the same six bytes
    carry the same identifier. *)
Theorem cs_list_well_formed e :
  e ∈ cs_list →
  length (cs_unzip (cs_entry_zip e)) = 8
  ∧ no_holes (cs_unzip (cs_entry_zip e))
  ∧ (∀ x, x ∈ cs_unzip (cs_entry_zip e) → x ≠ 0%Z → (0 < x < CS_TXT_LEN)%Z)
  ∧ (∀ e', e' ∈ cs_list →
       memcmp_eq (cs_entry_zip e') (cs_entry_zip e) 6 = true →
       cs_entry_id e' = cs_entry_id e).
Proof.
  intros He.
  assert (forallb (cs_entry_well_formedb cs_list) cs_list = true) as H
    by (vm_compute; reflexivity).
  rewrite forallb_forall in H. apply list_elem_of_In, H in He.
  unfold cs_entry_well_formedb in He.
  apply andb_true_iff in He as [[[H1 H2]%andb_true_iff H3]%andb_true_iff H4].
  split; [by apply Nat.eqb_eq |]. split; [by apply no_holesb_sound |]. split.
  - intros x Hx%list_elem_of_In Hne. rewrite forallb_forall in H3.
    apply H3 in Hx. lia.
  - intros e' He' Hcmp. rewrite forallb_forall in H4.
    apply list_elem_of_In, H4 in He'. rewrite Hcmp in He'. by apply Z.eqb_eq.
Qed.

Lemma cs_list_well_formed_witness :
  CS_ENTRY 0x002F CS_TXT_IDX_AES128 CS_TXT_IDX_SHA CS_TXT_IDX_ CS_TXT_IDX_
    CS_TXT_IDX_ CS_TXT_IDX_ CS_TXT_IDX_ CS_TXT_IDX_ ∈ cs_list
  ∧ cs_unzip (CS_ZIP_IDX CS_TXT_IDX_AES128 CS_TXT_IDX_SHA CS_TXT_IDX_ CS_TXT_IDX_
                CS_TXT_IDX_ CS_TXT_IDX_ CS_TXT_IDX_ CS_TXT_IDX_)
    = [8; 27; 0; 0; 0; 0; 0; 0]%Z
  ∧ no_holes
      (cs_unzip (CS_ZIP_IDX CS_TXT_IDX_AES128 CS_TXT_IDX_SHA CS_TXT_IDX_ CS_TXT_IDX_
                   CS_TXT_IDX_ CS_TXT_IDX_ CS_TXT_IDX_ CS_TXT_IDX_)).
Proof.
  assert (CS_ENTRY 0x002F CS_TXT_IDX_AES128 CS_TXT_IDX_SHA CS_TXT_IDX_ CS_TXT_IDX_
            CS_TXT_IDX_ CS_TXT_IDX_ CS_TXT_IDX_ CS_TXT_IDX_ ∈ cs_list) as H
    by (apply (list_elem_of_lookup_2 _ 1); reflexivity).
  split; [exact H |]. split; [reflexivity |].
  exact (proj1 (proj2 (cs_list_well_formed _ H))).
Defined.

(** C8: walking the list [AES128-SHA, ECDHE-RSA-AES256-SHA], with the string
    pointer set to the end pointer between the calls, gives 0x002F and then
    0xC014, and the second call leaves the end pointer on the terminating
    NUL. *)
Theorem Curl_cipher_suite_walk_str_example :
  Curl_cipher_suite_walk_str (lit "AES128-SHA, ECDHE-RSA-AES256-SHA") 0
  = (0x002F%Z, 0, 10)
  ∧ Curl_cipher_suite_walk_str (lit "AES128-SHA, ECDHE-RSA-AES256-SHA") 10
    = (0xC014%Z, 12, 32)
  ∧ length (lit "AES128-SHA, ECDHE-RSA-AES256-SHA") = 32
  ∧ deref (drop 32 (lit "AES128-SHA, ECDHE-RSA-AES256-SHA")) = NUL.
Proof. repeat split; vm_compute; reflexivity. Qed.

Lemma cs_skip_separators_all p :
  Forall (λ c, cs_is_separator c = true) p → cs_skip_separators p = length p.
Proof.
  induction 1 as [|c p Hc _ IH]; [done |]. simpl. by rewrite Hc, IH.
Qed.

(** C10: a length of 0 resolves to 0 whatever the buffer holds, and a walk
    that starts at the end of the input, or where only separators are left,
    stops with both pointers on the terminating NUL and returns 0. *)
Theorem Curl_cipher_suite_empty_input :
  (∀ buf, Curl_cipher_suite_lookup_id buf 0 = 0%Z)
  ∧ (∀ base str,
       str ≤ length base →
       Forall (λ c, cs_is_separator c = true) (drop str base) →
       Curl_cipher_suite_walk_str base str = (0%Z, length base, length base)
       ∧ deref (drop (length base) base) = NUL).
Proof.
  split; [done |]. intros base str Hs Hall.
  unfold Curl_cipher_suite_walk_str.
  rewrite cs_skip_separators_all, length_drop by done.
  replace (str + (length base - str)) with (length base) by lia.
  rewrite drop_all. cbn [cs_skip_name]. rewrite Nat.add_0_r, Nat.sub_diag. done.
Qed.

Lemma Curl_cipher_suite_empty_input_witness :
  10 ≤ length (lit "AES128-SHA ,:; ")
  ∧ Forall (λ c, cs_is_separator c = true) (drop 10 (lit "AES128-SHA ,:; "))
  ∧ Curl_cipher_suite_walk_str (lit "AES128-SHA ,:; ") 10
    = (0%Z, length (lit "AES128-SHA ,:; "), length (lit "AES128-SHA ,:; ")).
Proof.
  assert (10 ≤ length (lit "AES128-SHA ,:; ")) as H1 by (vm_compute; lia).
  assert (Forall (λ c, cs_is_separator c = true) (drop 10 (lit "AES128-SHA ,:; ")))
    as H2 by (vm_compute; repeat constructor).
  split; [exact H1 |]. split; [exact H2 |].
  exact (proj1 (proj2 Curl_cipher_suite_empty_input _ 10 H1 H2)).
Defined.

(** ** Packing and unpacking *)

Lemma index_range_elem x : (0 ≤ x < 64)%Z → In x index_range.
Proof.
  intros Hx. apply in_map_iff. exists (Z.to_nat x).
  split; [lia | apply in_seq; lia].
Qed.

Lemma index_range_forall2 (P : Z → Z → bool) :
  forallb (λ a, forallb (P a) index_range) index_range = true →
  ∀ a b, (0 ≤ a < 64)%Z → (0 ≤ b < 64)%Z → P a b = true.
Proof.
  intros H a b Ha Hb. rewrite forallb_forall in H.
  specialize (H a (index_range_elem a Ha)). rewrite forallb_forall in H.
  exact (H b (index_range_elem b Hb)).
Qed.

Lemma index_range_forall3 (P : Z → Z → Z → bool) :
  forallb (λ a, forallb (λ b, forallb (P a b) index_range) index_range)
    index_range = true →
  ∀ a b c, (0 ≤ a < 64)%Z → (0 ≤ b < 64)%Z → (0 ≤ c < 64)%Z → P a b c = true.
Proof.
  intros H a b c Ha Hb Hc. rewrite forallb_forall in H.
  specialize (H a (index_range_elem a Ha)).
  exact (index_range_forall2 (P a) H b c Hb Hc).
Qed.

Lemma cs_unpack0_pack a b :
  (0 ≤ a < 64)%Z → (0 ≤ b < 64)%Z → cs_unpack0 (cs_pack0 a b) = a.
Proof.
  intros Ha Hb. apply Z.eqb_eq.
  apply (index_range_forall2 (λ a b, (cs_unpack0 (cs_pack0 a b) =? a)%Z));
    [vm_compute; reflexivity | done | done].
Qed.

Lemma cs_unpack1_pack a b c :
  (0 ≤ a < 64)%Z → (0 ≤ b < 64)%Z → (0 ≤ c < 64)%Z →
  cs_unpack1 (cs_pack0 a b) (cs_pack1 b c) = b.
Proof.
  intros Ha Hb Hc. apply Z.eqb_eq.
  apply (index_range_forall3
           (λ a b c, (cs_unpack1 (cs_pack0 a b) (cs_pack1 b c) =? b)%Z));
    [vm_compute; reflexivity | done | done | done].
Qed.

Lemma cs_unpack2_pack b c d :
  (0 ≤ b < 64)%Z → (0 ≤ c < 64)%Z → (0 ≤ d < 64)%Z →
  cs_unpack2 (cs_pack1 b c) (cs_pack2 c d) = c.
Proof.
  intros Hb Hc Hd. apply Z.eqb_eq.
  apply (index_range_forall3
           (λ b c d, (cs_unpack2 (cs_pack1 b c) (cs_pack2 c d) =? c)%Z));
    [vm_compute; reflexivity | done | done | done].
Qed.

Lemma cs_unpack3_pack c d :
  (0 ≤ c < 64)%Z → (0 ≤ d < 64)%Z → cs_unpack3 (cs_pack2 c d) = d.
Proof.
  intros Hc Hd. apply Z.eqb_eq.
  apply (index_range_forall2 (λ c d, (cs_unpack3 (cs_pack2 c d) =? d)%Z));
    [vm_compute; reflexivity | done | done].
Qed.

Lemma cs_unzip_zip a b c d e f g h :
  (0 ≤ a < 64)%Z → (0 ≤ b < 64)%Z → (0 ≤ c < 64)%Z → (0 ≤ d < 64)%Z →
  (0 ≤ e < 64)%Z → (0 ≤ f < 64)%Z → (0 ≤ g < 64)%Z → (0 ≤ h < 64)%Z →
  cs_unzip (CS_ZIP_IDX a b c d e f g h) = [a; b; c; d; e; f; g; h].
Proof.
  intros Ha Hb Hc Hd He Hf Hg Hh.
  change (cs_unzip (CS_ZIP_IDX a b c d e f g h))
    with [cs_unpack0 (cs_pack0 a b);
          cs_unpack1 (cs_pack0 a b) (cs_pack1 b c);
          cs_unpack2 (cs_pack1 b c) (cs_pack2 c d);
          cs_unpack3 (cs_pack2 c d);
          cs_unpack0 (cs_pack0 e f);
          cs_unpack1 (cs_pack0 e f) (cs_pack1 f g);
          cs_unpack2 (cs_pack1 f g) (cs_pack2 g h);
          cs_unpack3 (cs_pack2 g h)].
  by rewrite !cs_unpack0_pack, !cs_unpack1_pack, !cs_unpack2_pack,
       !cs_unpack3_pack.
Qed.

Lemma cs_unzip_zip_list indexes :
  length indexes = 8 → Forall (λ x, (0 ≤ x < 64)%Z) indexes →
  cs_unzip (cs_zip_indexes indexes) = indexes.
Proof.
  intros Hl Hall.
  destruct indexes as [|a [|b [|c [|d [|e [|f [|g [|h [|]]]]]]]]]; try discriminate.
  rewrite !Forall_cons in Hall.
  destruct Hall as (Ha & Hb & Hc & Hd & He & Hf & Hg & Hh & _).
  change (cs_zip_indexes [a; b; c; d; e; f; g; h])
    with (CS_ZIP_IDX a b c d e f g h).
  by apply cs_unzip_zip.
Qed.

(** X1: unpacking what [CS_ZIP_IDX] or the encoder packed gives the eight 6-bit
    indexes back, and the encoder packs as [CS_ZIP_IDX] does. *)
Theorem cs_unzip_zip_indexes indexes :
  length indexes = 8 → Forall (λ x, (0 ≤ x < 64)%Z) indexes →
  cs_unzip (cs_zip_indexes indexes) = indexes
  ∧ (∀ a b c d e f g h,
       cs_zip_indexes [a; b; c; d; e; f; g; h] = CS_ZIP_IDX a b c d e f g h).
Proof.
  intros Hl Hall. split; [by apply cs_unzip_zip_list | done].
Qed.

Lemma cs_unzip_zip_indexes_witness :
  length [18; 26; 9; 27; 0; 0; 0; 0]%Z = 8
  ∧ Forall (λ x, (0 ≤ x < 64)%Z) [18; 26; 9; 27; 0; 0; 0; 0]%Z
  ∧ cs_unzip (cs_zip_indexes [18; 26; 9; 27; 0; 0; 0; 0]%Z)
    = [18; 26; 9; 27; 0; 0; 0; 0]%Z.
Proof.
  assert (Forall (λ x, (0 ≤ x < 64)%Z) [18; 26; 9; 27; 0; 0; 0; 0]%Z) as H
    by (repeat constructor; lia).
  split; [reflexivity |]. split; [exact H |].
  exact (proj1 (cs_unzip_zip_indexes [18; 26; 9; 27; 0; 0; 0; 0]%Z eq_refl H)).
Defined.

(** ** The dictionary, both ways *)

Lemma flatten_cons t ts : flatten (t :: ts) = t ++ NUL :: flatten ts.
Proof. unfold flatten. cbn [map concat]. by rewrite <- app_assoc. Qed.

Lemma cs_txt_entry_flatten n ts :
  Forall (λ t, NUL ∉ t) ts →
  cs_txt_entry n (flatten ts) = flatten (drop n ts).
Proof.
  intros Hts. revert n. induction Hts as [|t ts Ht Hts IH]; intros n.
  - destruct n; [done |]. cbn [cs_txt_entry]. rewrite drop_nil.
    change (flatten []) with (@nil ascii). cbn [strlen drop skipn].
    clear. induction n as [|n IH]; [done |]. cbn [cs_txt_entry strlen]. by rewrite drop_nil.
  - destruct n as [|n]; [done |]. cbn [cs_txt_entry drop skipn].
    rewrite flatten_cons, strlen_app_nul by done.
    rewrite drop_app_add'; [| done]. cbn [drop skipn]. apply IH.
Qed.

(** The text of an index is the token at that position. *)
Lemma cs_part_text_token k t :
  cs_tokens !! k = Some t → cs_part_text (Z.of_nat (S k)) = t.
Proof.
  intros Hk. unfold cs_part_text.
  replace (Z.to_nat (Z.of_nat (S k) - 1)) with k by lia.
  rewrite cs_txt_tokens, cs_txt_entry_flatten by apply cs_tokens_no_nul.
  rewrite (drop_S _ _ _ Hk), flatten_cons.
  apply c_str_app_nul.
  pose proof cs_tokens_no_nul as H. rewrite Forall_forall in H.
  apply H. by eapply list_elem_of_lookup_2.
Qed.

Lemma cs_tokens_upper t : t ∈ cs_tokens → map Curl_raw_toupper t = t.
Proof.
  intros Ht.
  assert (forallb (λ t, bytes_eqb (map Curl_raw_toupper t) t) cs_tokens = true)
    as H by (vm_compute; reflexivity).
  rewrite forallb_forall in H. by apply list_elem_of_In, H, bytes_eqb_eq in Ht.
Qed.

(** The index found for a token leads back to the token in upper case. *)
Lemma cs_part_text_index f :
  is_token f →
  (0 < cs_part_index f (length f) < CS_TXT_LEN)%Z
  ∧ cs_part_text (cs_part_index f (length f)) = map Curl_raw_toupper f.
Proof.
  intros Hf. pose proof (is_token_no_nul f Hf) as Hn.
  pose proof (proj2 (cs_part_index_token f Hn) Hf) as Hne.
  pose proof (cs_part_index_range f (length f)) as Hr.
  split; [lia |].
  rewrite cs_part_index_first in Hne |- *.
  set (k := first_index (part_matches f (length f)) cs_tokens) in *.
  assert (k < length cs_tokens) as Hk.
  { pose proof cs_tokens_length.
    pose proof (first_index_le (part_matches f (length f)) cs_tokens). lia. }
  apply lookup_lt_is_Some in Hk as [t Ht].
  replace (1 + Z.of_nat k)%Z with (Z.of_nat (S k)) by lia.
  rewrite (cs_part_text_token k t Ht).
  pose proof (first_index_lookup _ _ _ Ht) as Hm.
  assert (t ∈ cs_tokens) as Hin by by eapply list_elem_of_lookup_2.
  apply part_matches_token in Hm; [| done | by apply cs_tokens_plain].
  rewrite <- Hm. symmetry. by apply cs_tokens_upper.
Qed.

(** The text of an index in the dictionary is found at that index. *)
Lemma cs_part_index_text x :
  (0 < x < CS_TXT_LEN)%Z →
  cs_part_index (cs_part_text x) (length (cs_part_text x)) = x
  ∧ cs_part_text x ∈ cs_tokens.
Proof.
  intros Hx.
  assert (forallb (λ n, (cs_part_index (cs_part_text (Z.of_nat n))
                           (length (cs_part_text (Z.of_nat n))) =? Z.of_nat n)%Z
                        && is_tokenb (cs_part_text (Z.of_nat n))
                        && existsb (bytes_eqb (cs_part_text (Z.of_nat n))) cs_tokens)
            (seq 1 35) = true) as H by (vm_compute; reflexivity).
  rewrite forallb_forall in H. specialize (H (Z.to_nat x)).
  rewrite Z2Nat.id in H by lia.
  assert (In (Z.to_nat x) (seq 1 35)) as Hin
    by (apply in_seq; unfold CS_TXT_LEN in Hx; lia).
  apply H in Hin. apply andb_true_iff in Hin as [[H1 _]%andb_true_iff H2].
  split; [by apply Z.eqb_eq |].
  apply existsb_exists in H2 as (t & Ht & ->%bytes_eqb_eq).
  by apply list_elem_of_In.
Qed.

(** ** The indexes that the encoder stores *)

Lemma cs_field_index_range f :
  is_token f → (0 < cs_field_index f < CS_TXT_LEN)%Z.
Proof. intros Hf. apply (cs_part_text_index f Hf). Qed.

Lemma encode_fields_indexes k fs indexes :
  length indexes = 8 → k ≤ 8 → fs ≠ [] → length fs ≤ k → Forall is_token fs →
  encode_fields k fs indexes
  = inr (take (8 - k) indexes ++ map cs_field_index fs
         ++ drop (8 - k + length fs) indexes).
Proof.
  revert fs indexes. induction k as [|k IH]; intros fs indexes Hl Hk Hne Hfs Hall.
  - destruct fs; [done | simpl in Hfs; lia].
  - destruct fs as [|f fs]; [done |]. apply Forall_cons in Hall as [Hf Hall].
    cbn [encode_fields]. fold (cs_field_index f).
    pose proof (cs_field_index_range f Hf) as Hr.
    assert ((cs_field_index f =? CS_TXT_LEN)%Z = false) as ->
      by (apply Z.eqb_neq; lia).
    assert (uint8_t (cs_field_index f) = cs_field_index f) as ->
      by (unfold uint8_t; apply Z.mod_small; unfold CS_TXT_LEN in Hr; lia).
    assert (<[8 - S k := cs_field_index f]> indexes
            = take (8 - S k) indexes ++ cs_field_index f
                :: drop (S (8 - S k)) indexes) as Hins
      by (apply insert_take_drop; lia).
    destruct fs as [|g fs].
    + cbn [map length app]. rewrite Hins.
      by replace (8 - S k + 1) with (S (8 - S k)) by lia.
    + rewrite IH; [| by rewrite length_insert | lia | done | simpl in *; lia | done].
      f_equal. replace (8 - k) with (S (8 - S k)) by lia.
      rewrite drop_insert_lt by lia.
      rewrite (take_S_r _ _ (cs_field_index f))
        by (apply list_lookup_insert_eq; lia).
      rewrite take_insert_ge by lia. rewrite <- app_assoc. cbn [app map length].
      by replace (S (8 - S k) + S (length fs)) with (8 - S k + S (S (length fs)))
        by lia.
Qed.

(** The indexes of an accepted name: one per field, then zeros. *)
Lemma cs_str_to_indexes_inr cs_str cs_len indexes :
  cs_str_to_indexes cs_str cs_len = inr indexes →
  length (cs_fields cs_str cs_len) ≤ 8
  ∧ Forall is_token (cs_fields cs_str cs_len)
  ∧ indexes = map cs_field_index (cs_fields cs_str cs_len)
              ++ replicate (8 - length (cs_fields cs_str cs_len)) 0%Z.
Proof.
  intros H. rewrite cs_str_to_indexes_fields in H.
  assert (∃ r, encode_fields 8 (cs_fields cs_str cs_len) (replicate 8 0%Z) = inr r)
    as [Hl Hall]%encode_fields_inr by eauto;
    [| apply cs_fields_not_nil | apply cs_fields_no_nul].
  split; [done |]. split; [done |].
  rewrite encode_fields_indexes in H;
    [| done | done | apply cs_fields_not_nil | done | done].
  injection H as <-. change (8 - 8) with 0. cbn [take firstn app Nat.add].
  change [0%Z; 0%Z; 0%Z; 0%Z; 0%Z; 0%Z; 0%Z; 0%Z] with (replicate 8 0%Z).
  by rewrite drop_replicate.
Qed.

(** ** The separator of an accepted name *)

Lemma strncasecompare_c_str s b m :
  strncasecompare (c_str s) b m = strncasecompare s b m.
Proof.
  revert s b. induction m as [|m IH]; intros s b; [done |].
  destruct s as [|c s]; [done |]. rewrite c_str_cons.
  cbn [strncasecompare]. destruct (is_nul c) eqn:Hc.
  - cbn [deref hd]. apply is_nul_true in Hc. subst c. done.
  - cbn [deref hd tl]. rewrite Hc. by rewrite IH.
Qed.

Lemma cs_separator_c_str s : cs_separator (c_str s) = cs_separator s.
Proof. unfold cs_separator. by rewrite strncasecompare_c_str. Qed.

Lemma cs_separator_short l : length l < 3 → cs_separator l = "-"%char.
Proof.
  intros Hl. destruct (cs_separator_cases l) as [H | H]; [| done].
  unfold cs_separator in H.
  destruct (strncasecompare l (lit "TLS") 3) eqn:E; [| discriminate].
  apply strncasecompare_cons_r in E as (c1 & r1 & -> & _ & E); [| done].
  apply strncasecompare_cons_r in E as (c2 & r2 & -> & _ & E); [| done].
  apply strncasecompare_cons_r in E as (c3 & r3 & -> & _ & E); [| done].
  simpl in Hl. lia.
Qed.

Lemma cs_separator_name cs_str cs_len :
  3 ≤ cs_len → cs_separator (cs_name_bytes cs_str cs_len) = cs_separator cs_str.
Proof.
  intros Hn. unfold cs_name_bytes. rewrite cs_separator_c_str.
  rewrite <- (cs_separator_take (take cs_len cs_str)), take_take.
  replace (min 3 cs_len) with 3 by lia. apply cs_separator_take.
Qed.

Lemma cs_separator_accepted cs_str cs_len indexes :
  cs_str_to_indexes cs_str cs_len = inr indexes →
  cs_separator (cs_name_bytes cs_str cs_len) = cs_separator cs_str.
Proof.
  intros H. destruct (decide (3 ≤ cs_len)) as [Hn | Hn];
    [by apply cs_separator_name |].
  rewrite cs_separator_short.
  - destruct (cs_separator_cases cs_str) as [Hs | Hs]; [| done].
    unfold cs_str_to_indexes in H.
    rewrite cs_str_to_zip_loop_short in H;
      [done | apply cs_separator_cases | lia | by exists cs_str].
  - unfold cs_name_bytes. rewrite c_str_length.
    pose proof (strlen_le (take cs_len cs_str)) as Hle.
    rewrite length_take in Hle. lia.
Qed.

Lemma same_upper_app s s' t : same_upper s s' → same_upper (s ++ t) (s' ++ t).
Proof. unfold same_upper. intros H. by rewrite !map_app, H. Qed.

Lemma cs_field_index_upper t f :
  same_upper t f → cs_field_index t = cs_field_index f.
Proof.
  intros H. unfold cs_field_index.
  rewrite <- (same_upper_length t f H). by apply cs_part_index_upper.
Qed.

Lemma token_separator t tail :
  t ∈ cs_tokens →
  strncasecompare (t ++ tail) (lit "TLS") 3
  = (cs_field_index t =? CS_TXT_IDX_TLS)%Z.
Proof.
  intros Ht. apply list_elem_of_In in Ht. unfold cs_tokens in Ht.
  cbn [In] in Ht.
  repeat (destruct Ht as [<- | Ht]; [vm_compute; reflexivity |]). done.
Qed.

Lemma is_token_separator f tail :
  is_token f →
  cs_separator (f ++ tail)
  = if (cs_field_index f =? CS_TXT_IDX_TLS)%Z then "_"%char else "-"%char.
Proof.
  intros (t & Ht & Hs). unfold cs_separator.
  rewrite <- (strncasecompare_upper_l (t ++ tail) (f ++ tail))
    by by apply same_upper_app.
  by rewrite token_separator, (cs_field_index_upper t f).
Qed.

(** ** Joining fields *)

Lemma join_split_on sep s : join sep (split_on sep s) = s.
Proof.
  induction s as [|c s IH]; [done |]. cbn [split_on].
  pose proof (split_on_not_nil sep s) as Hne.
  destruct (split_on sep s) as [|f fs]; [done |].
  destruct (Ascii.eqb c sep) eqn:E.
  - apply Ascii.eqb_eq in E. subst c.
    change (join sep ([] :: f :: fs)) with ([] ++ sep :: join sep (f :: fs)).
    by rewrite IH.
  - rewrite join_cons in IH |- *. cbn [app]. by rewrite IH.
Qed.

Lemma join_map_upper sep fs :
  Curl_raw_toupper sep = sep →
  map Curl_raw_toupper (join sep fs) = join sep (map (map Curl_raw_toupper) fs).
Proof.
  intros Hsep. induction fs as [|f fs IH]; [done |].
  destruct fs as [|g fs]; [done |].
  change (join sep (f :: g :: fs)) with (f ++ sep :: join sep (g :: fs)).
  rewrite map_app. cbn [map] in *. rewrite Hsep, IH. done.
Qed.

Lemma cs_name_indexes_app l m :
  Forall (λ x, x ≠ 0%Z) l → cs_name_indexes (l ++ replicate m 0%Z) = l.
Proof.
  induction 1 as [|x l Hx _ IH]; cbn [app cs_name_indexes].
  - by destruct m.
  - apply Z.eqb_neq in Hx. by rewrite Hx, IH.
Qed.

Lemma join_not_nil sep fs :
  fs ≠ [] → Forall (λ f, f ≠ []) fs → join sep fs ≠ [].
Proof.
  intros Hne Hall. destruct fs as [|f fs]; [done |].
  apply Forall_cons in Hall as [Hf _]. rewrite join_cons.
  intros [? _]%app_eq_nil. done.
Qed.

(** ** Encoding, then decoding *)

Lemma cs_zip_name_accepted cs_str cs_len zip :
  cs_str_to_zip cs_str cs_len = inr zip →
  Forall (λ x, (0 ≤ x < CS_TXT_LEN)%Z) (cs_unzip zip)
  ∧ cs_name_bytes cs_str cs_len ≠ []
  ∧ cs_zip_name zip = map Curl_raw_toupper (cs_name_bytes cs_str cs_len).
Proof.
  unfold cs_str_to_zip.
  destruct (cs_str_to_indexes cs_str cs_len) as [e | indexes] eqn:E; [done |].
  intros [= <-].
  pose proof (cs_separator_accepted _ _ _ E) as Hsep.
  apply cs_str_to_indexes_inr in E as (Hl & Hall & ->).
  unfold cs_fields in *. set (name := cs_name_bytes cs_str cs_len) in *.
  set (sep := cs_separator cs_str) in *.
  pose proof (join_split_on sep name) as Hjoin.
  pose proof (split_on_not_nil sep name) as Hne.
  set (fs := split_on sep name) in *.
  assert (Forall (λ x, (0 < x < CS_TXT_LEN)%Z) (map cs_field_index fs)) as Hidx.
  { apply Forall_map. eapply Forall_impl; [exact Hall |].
    intros f Hf. by apply cs_field_index_range. }
  assert (Forall (λ x, (0 ≤ x < 64)%Z)
            (map cs_field_index fs ++ replicate (8 - length fs) 0%Z)) as H64.
  { apply Forall_app. split.
    - eapply Forall_impl; [exact Hidx |]. intros x Hx. unfold CS_TXT_LEN in Hx. lia.
    - by apply Forall_replicate. }
  assert (length (map cs_field_index fs ++ replicate (8 - length fs) 0%Z) = 8)
    as Hlen.
  { rewrite length_app, length_map, length_replicate. lia. }
  rewrite (cs_unzip_zip_list _ Hlen H64).
  split; [| split].
  - apply Forall_app. split.
    + eapply Forall_impl; [exact Hidx |]. intros x Hx. cbv beta in Hx. lia.
    + apply Forall_replicate. unfold CS_TXT_LEN. lia.
  - rewrite <- Hjoin. apply join_not_nil; [done |].
    eapply Forall_impl; [exact Hall |]. intros f Hf ->. by apply is_token_not_empty.
  - unfold cs_zip_name. rewrite (cs_unzip_zip_list _ Hlen H64).
    rewrite cs_name_indexes_app
      by (eapply Forall_impl; [exact Hidx |]; intros x Hx; cbv beta in Hx; lia).
    rewrite map_map.
    rewrite (map_ext_Forall _ (map Curl_raw_toupper))
      by (eapply Forall_impl; [exact Hall |]; intros f Hf;
          apply (cs_part_text_index f Hf)).
    assert (cs_name_separator
              (map cs_field_index fs ++ replicate (8 - length fs) 0%Z) = sep)
      as ->.
    { destruct fs as [|f fs']; [done |]. apply Forall_cons in Hall as [Hf _].
      unfold cs_name_separator. cbn [map app lookup_total list_lookup_total].
      rewrite <- Hsep, <- Hjoin, join_cons. by rewrite is_token_separator. }
    rewrite <- join_map_upper, Hjoin; [done |].
    unfold sep. by destruct (cs_separator_cases cs_str) as [-> | ->].
Qed.

(** X2: a name that the encoder accepts is decoded to the same name in upper
    case, whenever the buffer has room for it. *)
Theorem cs_str_to_zip_to_str cs_str cs_len zip buf buf_size :
  cs_str_to_zip cs_str cs_len = inr zip →
  length (cs_name_bytes cs_str cs_len) < buf_size → buf_size ≤ length buf →
  ∃ buf',
    cs_zip_to_str zip buf buf_size = (0%Z, buf')
    ∧ c_str buf' = map Curl_raw_toupper (cs_name_bytes cs_str cs_len).
Proof.
  intros (Hv & Hne & Hname)%cs_zip_name_accepted Hs Hb.
  destruct (cs_zip_to_str_spec zip buf buf_size Hv Hb)
    as (buf' & Hget & _ & _ & Hstr).
  exists buf'. split; [done |].
  rewrite Hstr; [| lia |].
  - rewrite Hname. apply take_ge. rewrite length_map. lia.
  - rewrite Hname. by destruct (cs_name_bytes cs_str cs_len).
Qed.

Lemma cs_str_to_zip_to_str_witness :
  cs_str_to_zip (lit "ecdhe-rsa-aes256-sha, x") 20 = inr [73; 162; 91; 0; 0; 0]%Z
  ∧ ∃ buf',
      cs_zip_to_str [73; 162; 91; 0; 0; 0]%Z (replicate 32 "x"%char) 32
      = (0%Z, buf')
      ∧ c_str buf' = lit "ECDHE-RSA-AES256-SHA".
Proof.
  assert (cs_str_to_zip (lit "ecdhe-rsa-aes256-sha, x") 20
          = inr [73; 162; 91; 0; 0; 0]%Z) as H by (vm_compute; reflexivity).
  split; [exact H |].
  refine (cs_str_to_zip_to_str _ 20 _ (replicate 32 "x"%char) 32 H _ _);
    vm_compute; lia.
Defined.

(** ** Decoding, then encoding *)

Lemma cs_part_text_is_token x :
  (0 < x < CS_TXT_LEN)%Z → is_token (cs_part_text x).
Proof. intros Hx. apply token_is_token, (cs_part_index_text x Hx). Qed.

Lemma cs_field_index_text x :
  (0 < x < CS_TXT_LEN)%Z → cs_field_index (cs_part_text x) = x.
Proof. intros Hx. apply (cs_part_index_text x Hx). Qed.

(** X3: for up to 8 indexes of the dictionary packed the way [CS_ZIP_IDX]
    packs them, the name that the decoder gives is encoded to the same six
    bytes. *)
Theorem cs_zip_name_to_zip idxs :
  idxs ≠ [] → length idxs ≤ 8 → Forall (λ x, (0 < x < CS_TXT_LEN)%Z) idxs →
  cs_str_to_zip
    (cs_zip_name (cs_zip_indexes (idxs ++ replicate (8 - length idxs) 0%Z)))
    (length
       (cs_zip_name (cs_zip_indexes (idxs ++ replicate (8 - length idxs) 0%Z))))
  = inr (cs_zip_indexes (idxs ++ replicate (8 - length idxs) 0%Z)).
Proof.
  intros Hne Hl Hall.
  assert (Forall (λ x, (0 ≤ x < 64)%Z) (idxs ++ replicate (8 - length idxs) 0%Z))
    as H64.
  { apply Forall_app. split.
    - eapply Forall_impl; [exact Hall |]. intros x Hx. unfold CS_TXT_LEN in Hx. lia.
    - by apply Forall_replicate. }
  assert (length (idxs ++ replicate (8 - length idxs) 0%Z) = 8) as Hlen.
  { rewrite length_app, length_replicate. lia. }
  unfold cs_zip_name. rewrite (cs_unzip_zip_list _ Hlen H64).
  rewrite cs_name_indexes_app
    by (eapply Forall_impl; [exact Hall |]; intros x Hx; cbv beta in Hx; lia).
  set (sep := cs_name_separator (idxs ++ replicate (8 - length idxs) 0%Z)).
  set (parts := map cs_part_text idxs).
  assert (Forall is_token parts) as Hparts.
  { apply Forall_map. eapply Forall_impl; [exact Hall |].
    intros x Hx. by apply cs_part_text_is_token. }
  assert (parts ≠ []) as Hpne by (unfold parts; by destruct idxs).
  assert (length parts = length idxs) as Hplen by apply length_map.
  assert (sep = "_"%char ∨ sep = "-"%char) as Hsep
    by (unfold sep, cs_name_separator; destruct (_ =? _)%Z; auto).
  assert (cs_separator (join sep parts) = sep) as Hsame.
  { destruct idxs as [|x idxs]; [done |]. subst parts. cbn [map].
    apply Forall_cons in Hall as [Hx _].
    rewrite join_cons, is_token_separator by by apply cs_part_text_is_token.
    rewrite cs_field_index_text by done. done. }
  assert (cs_fields (join sep parts) (length (join sep parts)) = parts) as Hfs.
  { unfold cs_fields, cs_name_bytes. rewrite Hsame, firstn_all.
    rewrite c_str_no_nul_id.
    - apply split_on_join; [done |]. eapply Forall_impl; [exact Hparts |].
      intros f Hf. destruct (is_token_plain f Hf) as (_ & Hu & Hh).
      by destruct Hsep as [-> | ->].
    - apply join_tokens_no_nul; [by destruct Hsep as [-> | ->] | done]. }
  unfold cs_str_to_zip. rewrite cs_str_to_indexes_fields, Hfs.
  rewrite encode_fields_indexes; [| done | done | done | lia | done].
  change (8 - 8) with 0. cbn [take firstn app Nat.add].
  rewrite drop_replicate, Hplen. unfold parts. rewrite map_map.
  rewrite (map_ext_Forall _ (λ x, x)), map_id; [done |].
  eapply Forall_impl; [exact Hall |]. intros x Hx. by apply cs_field_index_text.
Qed.

Lemma cs_zip_name_to_zip_witness :
  cs_zip_name (cs_zip_indexes ([1; 7; 3; 21; 28] ++ replicate (8 - 5) 0)%Z)
  = lit "TLS_AES_128_GCM_SHA256"
  ∧ cs_str_to_zip (lit "TLS_AES_128_GCM_SHA256") 22
    = inr (cs_zip_indexes ([1; 7; 3; 21; 28] ++ replicate (8 - 5) 0)%Z).
Proof.
  split; [vm_compute; reflexivity |].
  refine (cs_zip_name_to_zip [1; 7; 3; 21; 28]%Z _ _ _).
  - discriminate.
  - vm_compute. lia.
  - repeat constructor; vm_compute; done.
Defined.

(** ** What the lookup finds *)

Lemma cs_list_scan_found l zip :
  cs_list_scan l zip ≠ 0%Z →
  ∃ e, e ∈ l ∧ memcmp_eq (cs_entry_zip e) zip 6 = true
       ∧ cs_entry_id e = cs_list_scan l zip.
Proof.
  induction l as [|e l IH]; [done |]. cbn [cs_list_scan].
  destruct (memcmp_eq (cs_entry_zip e) zip 6) eqn:E.
  - intros _. exists e. split; [left | done].
  - intros (e' & He' & H)%IH. exists e'. split; [by right | done].
Qed.

Lemma memcmp_eq_6 a b :
  length a = 6 → length b = 6 → memcmp_eq a b 6 = true → a = b.
Proof.
  intros Ha Hb.
  destruct a as [|a0 [|a1 [|a2 [|a3 [|a4 [|a5 [|]]]]]]]; try discriminate.
  destruct b as [|b0 [|b1 [|b2 [|b3 [|b4 [|b5 [|]]]]]]]; try discriminate.
  cbn [memcmp_eq hd tl]. rewrite !andb_true_iff, !Z.eqb_eq. intuition congruence.
Qed.

Lemma cs_list_zip_length e : e ∈ cs_list → length (cs_entry_zip e) = 6.
Proof.
  intros He.
  assert (forallb (λ e, Nat.eqb (length (cs_entry_zip e)) 6) cs_list = true) as H
    by (vm_compute; reflexivity).
  rewrite forallb_forall in H. by apply list_elem_of_In, H, Nat.eqb_eq in He.
Qed.

Lemma cs_str_to_zip_length cs_str cs_len zip :
  cs_str_to_zip cs_str cs_len = inr zip → length zip = 6.
Proof.
  unfold cs_str_to_zip. destruct (cs_str_to_indexes _ _); [done |].
  by intros [= <-].
Qed.

(** X4: an identifier other than 0 is the identifier of an entry of the table
    whose name is the name given, in upper case. *)
Theorem Curl_cipher_suite_lookup_id_sound cs_str cs_len :
  Curl_cipher_suite_lookup_id cs_str cs_len ≠ 0%Z →
  ∃ e, e ∈ cs_list
    ∧ cs_entry_id e = Curl_cipher_suite_lookup_id cs_str cs_len
    ∧ cs_zip_name (cs_entry_zip e)
      = map Curl_raw_toupper (cs_name_bytes cs_str cs_len).
Proof.
  unfold Curl_cipher_suite_lookup_id. destruct (0 <? cs_len); [| done].
  destruct (cs_str_to_zip cs_str cs_len) as [err | zip] eqn:E; [done |].
  intros (e & He & Hcmp & Hid)%cs_list_scan_found.
  exists e. split; [done |]. split; [done |].
  apply memcmp_eq_6 in Hcmp;
    [| by apply cs_list_zip_length | by eapply cs_str_to_zip_length].
  rewrite Hcmp. by apply cs_zip_name_accepted in E as (_ & _ & ?).
Qed.

Lemma Curl_cipher_suite_lookup_id_sound_witness :
  Curl_cipher_suite_lookup_id (lit "psk-aes128-ccm8:") 15 ≠ 0%Z
  ∧ ∃ e, e ∈ cs_list
      ∧ cs_entry_id e = Curl_cipher_suite_lookup_id (lit "psk-aes128-ccm8:") 15
      ∧ cs_zip_name (cs_entry_zip e)
        = map Curl_raw_toupper (cs_name_bytes (lit "psk-aes128-ccm8:") 15).
Proof.
  assert (Curl_cipher_suite_lookup_id (lit "psk-aes128-ccm8:") 15 ≠ 0%Z) as H
    by (vm_compute; discriminate).
  split; [exact H |].
  exact (Curl_cipher_suite_lookup_id_sound (lit "psk-aes128-ccm8:") 15 H).
Defined.

(** X5: every spelling of the name of an entry of the table, in any case of
    letters and whatever follows it in the buffer, resolves to the
    identifier of the entry. *)
Theorem Curl_cipher_suite_lookup_id_complete e s rest :
  e ∈ cs_list → same_upper s (cs_zip_name (cs_entry_zip e)) →
  Curl_cipher_suite_lookup_id (s ++ rest) (length s) = cs_entry_id e.
Proof.
  intros He Hs.
  destruct (cs_list_round_trip e He) as [_ Hid].
  rewrite <- Hid, <- (same_upper_length _ _ Hs).
  rewrite (lookup_id_take (s ++ rest) s) by by rewrite take_app_length, firstn_all.
  unfold Curl_cipher_suite_lookup_id.
  by rewrite (cs_str_to_zip_upper s (cs_zip_name (cs_entry_zip e))).
Qed.

Lemma Curl_cipher_suite_lookup_id_complete_witness :
  same_upper (lit "Ecdhe-Rsa-Aes256-Sha")
    (cs_zip_name
       (cs_entry_zip
          (CS_ENTRY 0xC014 CS_TXT_IDX_ECDHE CS_TXT_IDX_RSA CS_TXT_IDX_AES256
             CS_TXT_IDX_SHA CS_TXT_IDX_ CS_TXT_IDX_ CS_TXT_IDX_ CS_TXT_IDX_)))
  ∧ Curl_cipher_suite_lookup_id (lit "Ecdhe-Rsa-Aes256-Sha" ++ lit ":AES128-SHA")
      (length (lit "Ecdhe-Rsa-Aes256-Sha")) = 0xC014%Z.
Proof.
  assert (CS_ENTRY 0xC014 CS_TXT_IDX_ECDHE CS_TXT_IDX_RSA CS_TXT_IDX_AES256
            CS_TXT_IDX_SHA CS_TXT_IDX_ CS_TXT_IDX_ CS_TXT_IDX_ CS_TXT_IDX_
          ∈ cs_list) as H1
    by (apply (list_elem_of_lookup_2 _ 27); reflexivity).
  assert (same_upper (lit "Ecdhe-Rsa-Aes256-Sha")
            (cs_zip_name
               (cs_entry_zip
                  (CS_ENTRY 0xC014 CS_TXT_IDX_ECDHE CS_TXT_IDX_RSA CS_TXT_IDX_AES256
                     CS_TXT_IDX_SHA CS_TXT_IDX_ CS_TXT_IDX_ CS_TXT_IDX_
                     CS_TXT_IDX_)))) as H2 by (vm_compute; reflexivity).
  split; [exact H2 |].
  exact (Curl_cipher_suite_lookup_id_complete _ _ (lit ":AES128-SHA") H1 H2).
Defined.

(** ** The buffer of the decoder *)

Lemma drop_list_inserts (buf out : list ascii) off m :
  off + length out ≤ m → drop m (list_inserts off out buf) = drop m buf.
Proof.
  intros H. apply list_eq. intros i. rewrite !lookup_drop.
  apply list_lookup_inserts_ge. lia.
Qed.

Lemma msnprintf_frame buf off size text :
  drop (off + size) (msnprintf buf off size text).2 = drop (off + size) buf
  ∧ take off (msnprintf buf off size text).2 = take off buf.
Proof.
  unfold msnprintf. destruct size as [|room]; [done |]. cbn [snd].
  assert (length (take room text) ≤ room) as Hl by (rewrite length_take; lia).
  split.
  - rewrite drop_insert_lt by lia. apply drop_list_inserts. lia.
  - rewrite take_insert_ge by lia. apply list_eq. intros i.
    destruct (decide (i < off)) as [Hi | Hi].
    + rewrite !lookup_take_lt by done. by apply list_lookup_inserts_lt.
    + by rewrite !lookup_take_ge by lia.
Qed.

Lemma cs_zip_to_str_loop_frame k indexes sep buf buf_size len :
  drop buf_size (cs_zip_to_str_loop k indexes sep buf buf_size len).2
  = drop buf_size buf.
Proof.
  revert buf len. induction k as [|k IH]; intros buf len; [done |].
  cbn [cs_zip_to_str_loop]. set (x := indexes !!! (8 - S k)).
  destruct (negb (x =? 0)%Z && (len <? buf_size)) eqn:E; [| done].
  apply andb_true_iff in E as [_ Hlen%Nat.ltb_lt].
  destruct (CS_TXT_LEN <=? x)%Z; [done |].
  set (p := if 0 <? 8 - S k then sep :: cs_part_text x else cs_part_text x).
  assert ((if 0 <? 8 - S k
           then msnprintf buf len (buf_size - len) (sep :: cs_part_text x)
           else msnprintf buf len (buf_size - len) (cs_part_text x))
          = msnprintf buf len (buf_size - len) p) as ->
    by (unfold p; by destruct (0 <? 8 - S k)).
  pose proof (msnprintf_frame buf len (buf_size - len) p) as [Hd _].
  replace (len + (buf_size - len)) with buf_size in Hd by lia.
  destruct (msnprintf buf len (buf_size - len) p) as [r buf1]. cbn [snd] in Hd.
  destruct (r <? 0)%Z; [done |]. by rewrite IH.
Qed.

(** X11: the decoder and its caller leave the bytes from [buf_size] on as they
    were, keep the size of the buffer, and with a size of at least 1 leave a
    C string that ends before [buf_size]. *)
Theorem Curl_cipher_suite_get_str_in_bounds id buf buf_size prefer_rfc :
  buf_size ≤ length buf →
  length (Curl_cipher_suite_get_str id buf buf_size prefer_rfc).2 = length buf
  ∧ drop buf_size (Curl_cipher_suite_get_str id buf buf_size prefer_rfc).2
    = drop buf_size buf
  ∧ (0 < buf_size →
     strlen (Curl_cipher_suite_get_str id buf buf_size prefer_rfc).2 < buf_size).
Proof.
  intros Hb. split; [| split].
  - destruct (Curl_cipher_suite_get_str_spec id buf buf_size prefer_rfc Hb)
      as (buf' & H & Hl & _).
    by destruct (cs_select id prefer_rfc); destruct H as [-> _].
  - unfold Curl_cipher_suite_get_str.
    destruct (cs_list !! _) as [e |].
    + unfold cs_zip_to_str.
      pose proof (cs_zip_to_str_loop_frame 8 (cs_unzip (cs_entry_zip e))
                    (cs_name_separator (cs_unzip (cs_entry_zip e)))
                    buf buf_size 0) as Hf.
      unfold cs_name_separator in Hf.
      destruct (cs_zip_to_str_loop _ _ _ _ _ _) as [r buf1]. cbn [snd] in Hf.
      destruct (r <? 0)%Z; cbn [snd]; [| done].
      pose proof (msnprintf_frame buf1 0 buf_size
                    (lit "TLS_UNKNOWN_0x" ++ fmt_04x id)) as [Hd _].
      cbn [Nat.add] in Hd. by rewrite Hd.
    + cbn -[msnprintf lit].
      by pose proof (msnprintf_frame buf 0 buf_size
                       (lit "TLS_UNKNOWN_0x" ++ fmt_04x id)) as [Hd _].
  - intros Hs.
    destruct (Curl_cipher_suite_get_str_spec id buf buf_size prefer_rfc Hb)
      as (buf' & H & _ & _).
    destruct (cs_select id prefer_rfc); destruct H as [-> Hstr]; cbn [snd];
      rewrite <- c_str_length, Hstr, length_take by done; lia.
Qed.

Lemma Curl_cipher_suite_get_str_in_bounds_witness :
  4 ≤ length (lit "abcdefgh")
  ∧ Curl_cipher_suite_get_str 0xC014 (lit "abcdefgh") 4 true
    = (0%Z, lit "TLS" ++ [NUL] ++ lit "efgh")
  ∧ drop 4 (Curl_cipher_suite_get_str 0xC014 (lit "abcdefgh") 4 true).2
    = drop 4 (lit "abcdefgh").
Proof.
  assert (4 ≤ length (lit "abcdefgh")) as H by (vm_compute; lia).
  split; [exact H |]. split; [vm_compute; reflexivity |].
  exact (proj1 (proj2 (Curl_cipher_suite_get_str_in_bounds 0xC014
                         (lit "abcdefgh") 4 true H))).
Defined.

(** X12: the value returned is 0 when an entry of the table has the identifier
    and -1 otherwise, whatever the size of the buffer and the preference. *)
Theorem Curl_cipher_suite_get_str_result id buf buf_size prefer_rfc :
  buf_size ≤ length buf →
  (Curl_cipher_suite_get_str id buf buf_size prefer_rfc).1
  = if existsb (λ e, (cs_entry_id e =? id)%Z) cs_list then 0%Z else (-1)%Z.
Proof.
  intros Hb.
  destruct (Curl_cipher_suite_get_str_spec id buf buf_size prefer_rfc Hb)
    as (buf' & H & _ & _).
  destruct (cs_select id prefer_rfc) as [e |] eqn:Hsel; destruct H as [-> _];
    cbn [fst].
  - apply cs_select_elem in Hsel as [He Hid].
    assert (existsb (λ e, (cs_entry_id e =? id)%Z) cs_list = true) as ->; [| done].
    apply existsb_exists. exists e. split; [by apply list_elem_of_In |].
    by apply Z.eqb_eq.
  - destruct (existsb _ cs_list) eqn:E; [| done].
    apply existsb_exists in E as (e & He & Hid).
    destruct (cs_select_present id prefer_rfc) as [e' He'].
    + exists e. split; [by apply list_elem_of_In | by apply Z.eqb_eq].
    + congruence.
Qed.

Lemma Curl_cipher_suite_get_str_result_witness :
  0 ≤ length (@nil ascii)
  ∧ (Curl_cipher_suite_get_str 0x0000 [] 0 true).1 = (-1)%Z
  ∧ (Curl_cipher_suite_get_str 0x1303 [] 0 false).1 = 0%Z.
Proof.
  assert (0 ≤ length (@nil ascii)) as H by (vm_compute; lia).
  split; [exact H |]. split.
  - exact (Curl_cipher_suite_get_str_result 0x0000 [] 0 true H).
  - exact (Curl_cipher_suite_get_str_result 0x1303 [] 0 false H).
Defined.

(** X13: whatever the preference, the name written for an identifier of the table
    into a buffer of 64 bytes or more resolves to that identifier. *)
Theorem Curl_cipher_suite_get_str_lookup_id id buf buf_size prefer_rfc :
  (∃ e, e ∈ cs_list ∧ cs_entry_id e = id) →
  64 ≤ buf_size → buf_size ≤ length buf →
  ∃ buf',
    Curl_cipher_suite_get_str id buf buf_size prefer_rfc = (0%Z, buf')
    ∧ Curl_cipher_suite_lookup_id buf' (strlen buf') = id.
Proof.
  intros Hid Hs Hb.
  destruct (cs_select_present id prefer_rfc Hid) as [e Hsel].
  destruct (Curl_cipher_suite_get_str_spec id buf buf_size prefer_rfc Hb)
    as (buf' & H & _ & _).
  rewrite Hsel in H. destruct H as [Hget Hstr].
  apply cs_select_elem in Hsel as [He <-].
  destruct (cs_list_ok e He) as [_ Hn].
  destruct (cs_list_round_trip e He) as [_ Hrt].
  rewrite take_ge in Hstr by lia. specialize (Hstr ltac:(lia)).
  exists buf'. split; [done |].
  rewrite <- Hrt, <- Hstr, c_str_length.
  apply lookup_id_take. unfold c_str. rewrite take_take. f_equal. lia.
Qed.

Lemma Curl_cipher_suite_get_str_lookup_id_witness :
  (∃ e, e ∈ cs_list ∧ cs_entry_id e = 0x1301%Z)
  ∧ ∃ buf',
      Curl_cipher_suite_get_str 0x1301 (replicate 64 "x"%char) 64 false
      = (0%Z, buf')
      ∧ Curl_cipher_suite_lookup_id buf' (strlen buf') = 0x1301%Z.
Proof.
  assert (∃ e, e ∈ cs_list ∧ cs_entry_id e = 0x1301%Z) as H.
  { eexists. split; [apply (list_elem_of_lookup_2 _ 136); reflexivity | reflexivity]. }
  split; [exact H |].
  refine (Curl_cipher_suite_get_str_lookup_id 0x1301 (replicate 64 "x"%char) 64
            false H _ _); vm_compute; lia.
Defined.

(** ** The walk over a list of names *)

Lemma cs_skip_separators_app seps p :
  Forall (λ c, cs_is_separator c = true) seps →
  cs_is_separator (deref p) = false →
  cs_skip_separators (seps ++ p) = length seps.
Proof.
  intros Hseps Hp. induction Hseps as [|c seps Hc _ IH]; cbn [app length].
  - destruct p as [|c p]; [done |]. cbn [deref hd] in Hp. cbn. by rewrite Hp.
  - cbn. by rewrite Hc, IH.
Qed.

Lemma cs_skip_name_app name p :
  Forall (λ c, is_nul c = false ∧ cs_is_separator c = false) name →
  is_nul (deref p) = true ∨ cs_is_separator (deref p) = true →
  cs_skip_name (name ++ p) = length name.
Proof.
  intros Hname Hp. induction Hname as [|c name [Hc1 Hc2] _ IH]; cbn [app length].
  - destruct p as [|c p]; [done |]. cbn [deref hd] in Hp. cbn.
    destruct Hp as [-> | ->]; [done | by rewrite andb_false_r].
  - cbn. by rewrite Hc1, Hc2, IH.
Qed.

(** X16: one step of the walk: after [pre], over the separators [seps], the name
    [name] is found and resolved; the string pointer is left on its first
    byte and the end pointer after its last one. *)
Theorem Curl_cipher_suite_walk_str_step pre seps name rest :
  Forall (λ c, cs_is_separator c = true) seps →
  name ≠ [] →
  Forall (λ c, is_nul c = false ∧ cs_is_separator c = false) name →
  is_nul (deref rest) = true ∨ cs_is_separator (deref rest) = true →
  Curl_cipher_suite_walk_str (pre ++ seps ++ name ++ rest) (length pre)
  = (Curl_cipher_suite_lookup_id name (length name),
     length pre + length seps,
     length pre + length seps + length name).
Proof.
  intros Hseps Hne Hname Hrest. unfold Curl_cipher_suite_walk_str.
  rewrite drop_app_length.
  rewrite cs_skip_separators_app; [| done |].
  2: { destruct name as [|c name]; [done |]. apply Forall_cons in Hname as [[_ Hc] _].
       done. }
  rewrite app_assoc, <- (length_app pre seps), drop_app_length.
  rewrite cs_skip_name_app by done.
  replace (length (pre ++ seps) + length name - length (pre ++ seps))
    with (length name) by lia.
  rewrite length_app.
  rewrite (lookup_id_take (name ++ rest) name (length name))
    by (by rewrite take_app_length, firstn_all).
  reflexivity.
Qed.

Lemma Curl_cipher_suite_walk_str_step_witness :
  Curl_cipher_suite_walk_str
    (lit "AES128-SHA" ++ lit ", " ++ lit "ECDHE-RSA-AES256-SHA" ++ lit ":x")
    (length (lit "AES128-SHA"))
  = (Curl_cipher_suite_lookup_id (lit "ECDHE-RSA-AES256-SHA")
       (length (lit "ECDHE-RSA-AES256-SHA")),
     length (lit "AES128-SHA") + length (lit ", "),
     length (lit "AES128-SHA") + length (lit ", ")
     + length (lit "ECDHE-RSA-AES256-SHA")).
Proof.
  refine (Curl_cipher_suite_walk_str_step (lit "AES128-SHA") (lit ", ")
            (lit "ECDHE-RSA-AES256-SHA") (lit ":x") _ _ _ _).
  - vm_compute. repeat constructor.
  - discriminate.
  - vm_compute. repeat constructor.
  - right. reflexivity.
Defined.

Lemma cs_skip_separators_spec p :
  cs_skip_separators p ≤ length p
  ∧ Forall (λ c, cs_is_separator c = true) (take (cs_skip_separators p) p)
  ∧ cs_is_separator (deref (drop (cs_skip_separators p) p)) = false.
Proof.
  induction p as [|c p (IH1 & IH2 & IH3)]; [by repeat split |].
  cbn [cs_skip_separators]. destruct (cs_is_separator c) eqn:E.
  - cbn [length take firstn drop skipn]. split; [lia |]. split; [| done].
    by apply Forall_cons.
  - cbn [take firstn drop skipn deref hd length]. split; [lia |]. by split.
Qed.

Lemma cs_skip_name_spec p :
  cs_skip_name p ≤ strlen p
  ∧ Forall (λ c, is_nul c = false ∧ cs_is_separator c = false)
      (take (cs_skip_name p) p)
  ∧ (is_nul (deref (drop (cs_skip_name p) p)) = true
     ∨ cs_is_separator (deref (drop (cs_skip_name p) p)) = true).
Proof.
  induction p as [|c p (IH1 & IH2 & IH3)].
  { split; [done |]. split; [done | by left]. }
  cbn [cs_skip_name strlen].
  destruct (is_nul c) eqn:E1; cbn [negb andb].
  { cbn [take firstn drop skipn deref hd]. split; [lia |]. split; [done | by left]. }
  destruct (cs_is_separator c) eqn:E2; cbn [negb].
  { cbn [take firstn drop skipn deref hd]. split; [lia |]. split; [done | by right]. }
  cbn [take firstn drop skipn]. split; [lia |]. split; [| done].
  by apply Forall_cons.
Qed.

(** X17: the pointers of the walk, for any input: they move forward and stay
    within the string; the bytes skipped are separators; the bytes between
    the pointers hold neither NUL nor separator; the end pointer is on a NUL
    or a separator; and the name is empty only at the end of the string. *)
Theorem Curl_cipher_suite_walk_str_pointers base str :
  str ≤ length base →
  let '(_, str', end') := Curl_cipher_suite_walk_str base str in
  str ≤ str' ∧ str' ≤ end' ∧ end' ≤ length base
  ∧ Forall (λ c, cs_is_separator c = true) (take (str' - str) (drop str base))
  ∧ Forall (λ c, is_nul c = false ∧ cs_is_separator c = false)
      (take (end' - str') (drop str' base))
  ∧ (is_nul (deref (drop end' base)) = true
     ∨ cs_is_separator (deref (drop end' base)) = true)
  ∧ (str' = end' → is_nul (deref (drop str' base)) = true).
Proof.
  intros Hs. unfold Curl_cipher_suite_walk_str.
  destruct (cs_skip_separators_spec (drop str base)) as (Ha1 & Ha2 & Ha3).
  set (a := cs_skip_separators (drop str base)) in *.
  destruct (cs_skip_name_spec (drop (str + a) base)) as (Hb1 & Hb2 & Hb3).
  set (b := cs_skip_name (drop (str + a) base)) in *.
  rewrite length_drop in Ha1.
  pose proof (strlen_le (drop (str + a) base)) as Hle. rewrite length_drop in Hle.
  rewrite drop_drop in Ha3, Hb3.
  replace (str + a - str) with a by lia.
  replace (str + a + b - (str + a)) with b by lia.
  repeat split; try done; try lia.
  intros Heq. assert (b = 0) as Hb0 by lia. rewrite Hb0, Nat.add_0_r in Hb3.
  destruct Hb3 as [? | Hsep]; [done | congruence].
Qed.

Lemma Curl_cipher_suite_walk_str_pointers_witness :
  0 ≤ length (lit " AES128-SHA:x")
  ∧ Curl_cipher_suite_walk_str (lit " AES128-SHA:x") 0 = (0x002F%Z, 1, 11)
  ∧ Forall (λ c, is_nul c = false ∧ cs_is_separator c = false)
      (take (11 - 1) (drop 1 (lit " AES128-SHA:x"))).
Proof.
  assert (0 ≤ length (lit " AES128-SHA:x")) as H by (vm_compute; lia).
  split; [exact H |]. split; [vm_compute; reflexivity |].
  pose proof (Curl_cipher_suite_walk_str_pointers (lit " AES128-SHA:x") 0 H) as T.
  change (Curl_cipher_suite_walk_str (lit " AES128-SHA:x") 0)
    with (0x002F%Z, 1, 11) in T.
  exact (proj1 (proj2 (proj2 (proj2 (proj2 T))))).
Defined.

(** ** A NUL before the given length *)

Lemma c_str_take_strlen p n : strlen p ≤ n → c_str (take n p) = c_str p.
Proof.
  revert n. induction p as [|c p IH]; intros n Hn; [by rewrite take_nil |].
  rewrite c_str_cons. cbn [strlen] in Hn. destruct (is_nul c) eqn:E.
  - destruct n; [done |]. cbn [take firstn]. by rewrite c_str_cons, E.
  - destruct n as [|n]; [lia |]. cbn [take firstn]. rewrite c_str_cons, E.
    rewrite IH by lia. done.
Qed.

Lemma lookup_id_strlen cs_str cs_len :
  strlen cs_str ≤ cs_len →
  Curl_cipher_suite_lookup_id cs_str cs_len
  = Curl_cipher_suite_lookup_id cs_str (strlen cs_str).
Proof.
  intros Hn.
  assert (cs_str_to_zip cs_str cs_len = cs_str_to_zip cs_str (strlen cs_str)) as E.
  { unfold cs_str_to_zip. rewrite !cs_str_to_indexes_fields.
    unfold cs_fields, cs_name_bytes. by rewrite !c_str_take_strlen by lia. }
  unfold Curl_cipher_suite_lookup_id. rewrite E.
  destruct (0 <? cs_len) eqn:E1, (0 <? strlen cs_str) eqn:E2; try done.
  - apply Nat.ltb_ge in E2. assert (strlen cs_str = 0) as E0 by lia.
    rewrite E0. unfold cs_str_to_zip. rewrite cs_str_to_indexes_fields.
    unfold cs_fields, cs_name_bytes. cbn [take firstn c_str strlen split_on].
    by destruct (cs_separator_cases cs_str) as [-> | ->].
  - apply Nat.ltb_lt in E2. apply Nat.ltb_ge in E1. lia.
Qed.

(** X7: the encoder stops at the first NUL: a length that reaches beyond the
    end of the C string gives the identifier of the C string. *)
Theorem Curl_cipher_suite_lookup_id_nul cs_str cs_len :
  strlen cs_str ≤ cs_len →
  Curl_cipher_suite_lookup_id cs_str cs_len
  = Curl_cipher_suite_lookup_id cs_str (strlen cs_str).
Proof. apply lookup_id_strlen. Qed.

Lemma Curl_cipher_suite_lookup_id_nul_witness :
  strlen (lit "AES128-SHA" ++ NUL :: lit "-SHA") ≤ 15
  ∧ Curl_cipher_suite_lookup_id (lit "AES128-SHA" ++ NUL :: lit "-SHA") 15
    = Curl_cipher_suite_lookup_id (lit "AES128-SHA" ++ NUL :: lit "-SHA")
        (strlen (lit "AES128-SHA" ++ NUL :: lit "-SHA")).
Proof.
  assert (strlen (lit "AES128-SHA" ++ NUL :: lit "-SHA") ≤ 15) as H
    by (vm_compute; lia).
  split; [exact H |].
  exact (Curl_cipher_suite_lookup_id_nul _ 15 H).
Defined.

(** ** The index lookup on any bytes *)

Lemma strncasecompare_prefix t cur :
  NUL ∉ t →
  strncasecompare t cur (length t) = true ↔ same_upper t (take (length t) cur).
Proof.
  revert cur. induction t as [|c t IH]; intros cur Ht; [done |].
  apply not_elem_of_cons in Ht as [Hc Ht].
  assert (is_nul c = false) as Hcn by (apply is_nul_false; congruence).
  cbn [length strncasecompare deref hd tl]. rewrite Hcn. cbn [negb andb].
  destruct cur as [|d cur].
  - cbn [deref hd tl take firstn]. change (is_nul NUL) with true. cbn [negb].
    split; [| discriminate]. intros E%Ascii.eqb_eq.
    rewrite <- is_nul_toupper, E in Hcn. discriminate Hcn.
  - cbn [deref hd tl take firstn]. unfold same_upper. cbn [map].
    destruct (is_nul d) eqn:Hd; cbn [negb].
    + split.
      * intros E%Ascii.eqb_eq. rewrite <- is_nul_toupper, E, is_nul_toupper in Hcn.
        congruence.
      * intros [= E _]. rewrite <- is_nul_toupper, E, is_nul_toupper in Hcn.
        congruence.
    + destruct (Ascii.eqb _ _) eqn:E.
      * apply Ascii.eqb_eq in E. rewrite IH by done. unfold same_upper.
        split; [by intros -> ; rewrite E | by intros [= _ ?]].
      * apply Ascii.eqb_neq in E. split; [done | by intros [= ? _]].
Qed.

Lemma part_matches_prefix cur len t :
  NUL ∉ t →
  part_matches cur len t = true ↔ length t = len ∧ same_upper t (take len cur).
Proof.
  intros Ht. unfold part_matches. rewrite andb_true_iff, Nat.eqb_eq.
  split; intros [<- H]; (split; [done |]); by apply strncasecompare_prefix.
Qed.

(** X8: the index lookup of the encoder, on any bytes: an index below
    [CS_TXT_LEN] is that of a part which equals the [len] bytes at [cur] up
    to the case of letters; [CS_TXT_LEN] means that no part does; and the
    text of every index from 1 on is found at that index. *)
Theorem cs_part_index_spec cur len :
  (cs_part_index cur len ≠ CS_TXT_LEN →
   (0 < cs_part_index cur len < CS_TXT_LEN)%Z
   ∧ length (cs_part_text (cs_part_index cur len)) = len
   ∧ same_upper (cs_part_text (cs_part_index cur len)) (take len cur))
  ∧ (cs_part_index cur len = CS_TXT_LEN →
     ∀ x, (0 < x < CS_TXT_LEN)%Z → length (cs_part_text x) = len →
          ¬ same_upper (cs_part_text x) (take len cur))
  ∧ (∀ x, (0 < x < CS_TXT_LEN)%Z →
          cs_part_index (cs_part_text x) (length (cs_part_text x)) = x).
Proof.
  pose proof (cs_part_index_range cur len) as Hr.
  pose proof cs_tokens_length as Hlen.
  pose proof (first_index_le (part_matches cur len) cs_tokens) as Hle.
  rewrite cs_part_index_first in *.
  set (k := first_index (part_matches cur len) cs_tokens) in *.
  split; [| split].
  - intros Hne. split; [lia |].
    assert (k < length cs_tokens) as Hk by lia.
    apply lookup_lt_is_Some in Hk as [t Ht].
    replace (1 + Z.of_nat k)%Z with (Z.of_nat (S k)) by lia.
    rewrite (cs_part_text_token k t Ht).
    pose proof (first_index_lookup _ _ _ Ht) as Hm.
    apply part_matches_prefix in Hm; [done |].
    apply cs_tokens_plain. by eapply list_elem_of_lookup_2.
  - intros Heq x Hx Hl Hs.
    assert (¬ k < length cs_tokens) as Hk by lia. apply Hk.
    apply first_index_lt. exists (cs_part_text x).
    destruct (cs_part_index_text x Hx) as [_ Hin]. split; [done |].
    apply part_matches_prefix; [by apply cs_tokens_plain | done].
  - intros x Hx. apply (cs_part_index_text x Hx).
Qed.

Lemma cs_part_index_spec_witness :
  cs_part_index (lit "sha256-x") 6 ≠ CS_TXT_LEN
  ∧ cs_part_index (lit "sha256-x") 6 = CS_TXT_IDX_SHA256
  ∧ same_upper (cs_part_text (cs_part_index (lit "sha256-x") 6))
      (take 6 (lit "sha256-x")).
Proof.
  assert (cs_part_index (lit "sha256-x") 6 ≠ CS_TXT_LEN) as H
    by (vm_compute; discriminate).
  split; [exact H |]. split; [vm_compute; reflexivity |].
  exact (proj2 (proj2 (proj1 (cs_part_index_spec (lit "sha256-x") 6) H))).
Defined.

(** ** The packed name of an accepted name *)

Lemma no_holes_app_zeros l m :
  Forall (λ x, x ≠ 0%Z) l → no_holes (l ++ replicate m 0%Z).
Proof.
  intros Hl i j x Hij Hi Hj.
  destruct (decide (i < length l)) as [Hlt | Hge].
  - rewrite lookup_app_l in Hi by done. rewrite Forall_forall in Hl.
    apply list_elem_of_lookup_2, Hl in Hi. done.
  - rewrite lookup_app_r in Hj by lia.
    by apply lookup_replicate in Hj as [-> _].
Qed.

(** X9: what the encoder returns for an accepted name: six bytes that unpack to
    the indexes of the fields of the name, each in the dictionary and not
    zero, followed by zeros only. *)
Theorem cs_str_to_zip_well_formed cs_str cs_len zip :
  cs_str_to_zip cs_str cs_len = inr zip →
  length zip = 6
  ∧ Forall (λ b, (0 ≤ b < 256)%Z) zip
  ∧ cs_unzip zip
    = map cs_field_index (cs_fields cs_str cs_len)
      ++ replicate (8 - length (cs_fields cs_str cs_len)) 0%Z
  ∧ Forall (λ x, (0 < x < CS_TXT_LEN)%Z)
      (map cs_field_index (cs_fields cs_str cs_len))
  ∧ no_holes (cs_unzip zip).
Proof.
  intros H. pose proof (cs_str_to_zip_length _ _ _ H) as Hz6.
  unfold cs_str_to_zip in H.
  destruct (cs_str_to_indexes cs_str cs_len) as [e | indexes] eqn:E; [done |].
  injection H as <-.
  apply cs_str_to_indexes_inr in E as (Hl & Hall & ->).
  set (fs := cs_fields cs_str cs_len) in *.
  assert (Forall (λ x, (0 < x < CS_TXT_LEN)%Z) (map cs_field_index fs)) as Hidx.
  { apply Forall_map. eapply Forall_impl; [exact Hall |].
    intros f Hf. by apply cs_field_index_range. }
  assert (Forall (λ x, (0 ≤ x < 64)%Z)
            (map cs_field_index fs ++ replicate (8 - length fs) 0%Z)) as H64.
  { apply Forall_app. split.
    - eapply Forall_impl; [exact Hidx |]. intros x Hx. unfold CS_TXT_LEN in Hx. lia.
    - by apply Forall_replicate. }
  assert (length (map cs_field_index fs ++ replicate (8 - length fs) 0%Z) = 8)
    as Hlen.
  { rewrite length_app, length_map, length_replicate. lia. }
  rewrite (cs_unzip_zip_list _ Hlen H64).
  split; [done |]. split; [| split; [done |]; split; [done |]].
  - unfold cs_zip_indexes, uint8_t.
    repeat (apply Forall_cons; split; [apply Z.mod_pos_bound; lia |]).
    by apply Forall_nil.
  - apply no_holes_app_zeros. eapply Forall_impl; [exact Hidx |].
    intros x Hx. cbv beta in Hx. lia.
Qed.

Lemma cs_str_to_zip_well_formed_witness :
  cs_str_to_zip (lit "PSK-AES128-CCM8") 15 = inr [100; 131; 64; 0; 0; 0]%Z
  ∧ cs_unzip [100; 131; 64; 0; 0; 0]%Z
    = map cs_field_index (cs_fields (lit "PSK-AES128-CCM8") 15)
      ++ replicate (8 - length (cs_fields (lit "PSK-AES128-CCM8") 15)) 0%Z.
Proof.
  assert (cs_str_to_zip (lit "PSK-AES128-CCM8") 15
          = inr [100; 131; 64; 0; 0; 0]%Z) as H by (vm_compute; reflexivity).
  split; [exact H |].
  exact (proj1 (proj2 (proj2 (cs_str_to_zip_well_formed _ 15 _ H)))).
Defined.

(** ** The two styles of names *)

(** X14: with the preference for RFC names every identifier of the table is
    given a name that starts with [TLS_]; without it, every identifier of
    the table but 0x1301 to 0x1305 is given a name that does not start with
    [TLS]. *)
Theorem Curl_cipher_suite_get_str_styles id buf buf_size :
  (∃ e, e ∈ cs_list ∧ cs_entry_id e = id) →
  64 ≤ buf_size → buf_size ≤ length buf →
  (∃ buf',
     Curl_cipher_suite_get_str id buf buf_size true = (0%Z, buf')
     ∧ take 4 (c_str buf') = lit "TLS_")
  ∧ (¬ (0x1301 ≤ id ≤ 0x1305)%Z →
     ∃ buf',
       Curl_cipher_suite_get_str id buf buf_size false = (0%Z, buf')
       ∧ take 3 (c_str buf') ≠ lit "TLS").
Proof.
  intros (e & He & <-) Hs Hb.
  assert (forallb cs_entry_stylesb cs_list = true) as H
    by (vm_compute; reflexivity).
  rewrite forallb_forall in H. pose proof He as Hin.
  apply list_elem_of_In, H in Hin. unfold cs_entry_stylesb in Hin.
  apply andb_true_iff in Hin as [H1 H2].
  assert (∀ prefer_rfc e',
            cs_select (cs_entry_id e) prefer_rfc = Some e' →
            ∃ buf',
              Curl_cipher_suite_get_str (cs_entry_id e) buf buf_size prefer_rfc
              = (0%Z, buf')
              ∧ c_str buf' = cs_zip_name (cs_entry_zip e')) as Hget.
  { intros prefer_rfc e' Hsel.
    destruct (Curl_cipher_suite_get_str_spec (cs_entry_id e) buf buf_size
                prefer_rfc Hb) as (buf' & Hspec & _ & _).
    rewrite Hsel in Hspec. destruct Hspec as [Hgs Hstr].
    exists buf'. split; [done |].
    apply cs_select_elem in Hsel as [[_ Hn]%cs_list_ok _].
    rewrite Hstr by lia. apply take_ge. lia. }
  split.
  - destruct (cs_select (cs_entry_id e) true) as [e' |] eqn:Hsel; [| done].
    destruct (Hget true e' Hsel) as (buf' & Hgs & Hstr).
    exists buf'. split; [done |]. rewrite Hstr. by apply bytes_eqb_eq.
  - intros Hid.
    destruct (cs_select (cs_entry_id e) false) as [e' |] eqn:Hsel; [| done].
    destruct (Hget false e' Hsel) as (buf' & Hgs & Hstr).
    exists buf'. split; [done |]. rewrite Hstr.
    apply orb_true_iff in H2 as [H2 | H2]; [lia |].
    intros E%bytes_eqb_eq. by rewrite E in H2.
Qed.

Lemma Curl_cipher_suite_get_str_styles_witness :
  (∃ e, e ∈ cs_list ∧ cs_entry_id e = 0xC014%Z)
  ∧ (∃ buf',
       Curl_cipher_suite_get_str 0xC014 (replicate 64 "x"%char) 64 true
       = (0%Z, buf')
       ∧ take 4 (c_str buf') = lit "TLS_")
  ∧ ¬ (0x1301 ≤ 0xC014 ≤ 0x1305)%Z
  ∧ ∃ buf',
      Curl_cipher_suite_get_str 0xC014 (replicate 64 "x"%char) 64 false
      = (0%Z, buf')
      ∧ take 3 (c_str buf') ≠ lit "TLS".
Proof.
  assert (∃ e, e ∈ cs_list ∧ cs_entry_id e = 0xC014%Z) as H.
  { eexists. split; [apply (list_elem_of_lookup_2 _ 26); reflexivity | reflexivity]. }
  assert (¬ (0x1301 ≤ 0xC014 ≤ 0x1305)%Z) as Hn by lia.
  assert (64 ≤ length (replicate 64 "x"%char)) as Hb by (vm_compute; lia).
  destruct (Curl_cipher_suite_get_str_styles 0xC014 (replicate 64 "x"%char) 64
              H ltac:(lia) Hb) as [T1 T2].
  split; [exact H |]. split; [exact T1 |]. split; [exact Hn | exact (T2 Hn)].
Defined.

(** ** Identifiers that are not in the table *)

Lemma hex_digit_plain d :
  (0 ≤ d < 16)%Z → hex_digit d ≠ NUL ∧ hex_digit d ≠ "_"%char.
Proof.
  intros Hd. unfold hex_digit.
  assert (Z.to_nat d < 16) as Hn by lia. revert Hn.
  generalize (Z.to_nat d) as n. intros n Hn.
  do 16 (destruct n as [|n]; [by vm_compute |]). lia.
Qed.

Lemma fmt_04x_plain v c : c ∈ fmt_04x v → c ≠ NUL ∧ c ≠ "_"%char.
Proof.
  unfold fmt_04x. intros H.
  repeat (apply elem_of_cons in H as [-> | H];
          [apply hex_digit_plain, Z.mod_pos_bound; lia |]).
  by apply elem_of_nil in H.
Qed.

Lemma cs_unknown_fields id :
  cs_fields (cs_unknown id) (length (cs_unknown id))
  = [lit "TLS"; lit "UNKNOWN"; lit "0x" ++ fmt_04x id].
Proof.
  unfold cs_fields, cs_name_bytes.
  rewrite firstn_all, c_str_no_nul_id by apply cs_unknown_no_nul.
  change (cs_separator (cs_unknown id)) with "_"%char.
  change (cs_unknown id)
    with (lit "TLS" ++ "_"%char :: lit "UNKNOWN" ++ "_"%char :: lit "0x" ++ fmt_04x id).
  rewrite split_on_app_sep.
  2: { intros H%list_elem_of_In. vm_compute in H. intuition discriminate. }
  rewrite split_on_app_sep.
  2: { intros H%list_elem_of_In. vm_compute in H. intuition discriminate. }
  rewrite split_on_no_sep; [done |].
  intros [H | H]%elem_of_app.
  - apply list_elem_of_In in H. vm_compute in H. intuition discriminate.
  - by apply fmt_04x_plain in H as [_ ?].
Qed.

(** X15: for an identifier that no entry has, the function returns -1 and leaves
    the text [TLS_UNKNOWN_0x] with the four hexadecimal digits, cut to the
    buffer; with a size of 0 nothing is written.  That text is not the name
    of any identifier: it resolves to 0. *)
Theorem Curl_cipher_suite_get_str_unknown id buf buf_size prefer_rfc :
  (∀ e, e ∈ cs_list → cs_entry_id e ≠ id) → buf_size ≤ length buf →
  (∃ buf',
     Curl_cipher_suite_get_str id buf buf_size prefer_rfc = ((-1)%Z, buf')
     ∧ (buf_size = 0 → buf' = buf)
     ∧ (0 < buf_size →
        c_str buf' = take (buf_size - 1) (lit "TLS_UNKNOWN_0x" ++ fmt_04x id)))
  ∧ Curl_cipher_suite_lookup_id (lit "TLS_UNKNOWN_0x" ++ fmt_04x id)
      (length (lit "TLS_UNKNOWN_0x" ++ fmt_04x id)) = 0%Z.
Proof.
  intros Hid Hb. split.
  - destruct (Curl_cipher_suite_get_str_spec id buf buf_size prefer_rfc Hb)
      as (buf' & H & _ & Hsame).
    destruct (cs_select id prefer_rfc) as [e |] eqn:Hsel.
    + apply cs_select_elem in Hsel as [He Heq]. by apply Hid in He.
    + destruct H as [Hget Hstr]. by exists buf'.
  - fold (cs_unknown id). unfold Curl_cipher_suite_lookup_id.
    destruct (0 <? _); [| done].
    destruct (cs_str_to_zip _ _) as [e | zip] eqn:E; [done |]. exfalso.
    assert (∃ zip, cs_str_to_zip (cs_unknown id) (length (cs_unknown id)) = inr zip)
      as [_ Hall]%cs_str_to_zip_inr by eauto.
    rewrite cs_unknown_fields in Hall.
    apply Forall_cons in Hall as [_ [Hu%is_tokenb_true _]%Forall_cons].
    vm_compute in Hu. discriminate Hu.
Qed.

Lemma Curl_cipher_suite_get_str_unknown_witness :
  (∀ e, e ∈ cs_list → cs_entry_id e ≠ 0x0004%Z)
  ∧ ∃ buf',
      Curl_cipher_suite_get_str 0x0004 (replicate 8 "x"%char) 8 true
      = ((-1)%Z, buf')
      ∧ (8 = 0 → buf' = replicate 8 "x"%char)
      ∧ (0 < 8 →
         c_str buf' = take (8 - 1) (lit "TLS_UNKNOWN_0x" ++ fmt_04x 0x0004)).
Proof.
  assert (∀ e, e ∈ cs_list → cs_entry_id e ≠ 0x0004%Z) as H.
  { intros e He.
    assert (forallb (λ e, negb (cs_entry_id e =? 0x0004)%Z) cs_list = true) as Hc
      by (vm_compute; reflexivity).
    rewrite forallb_forall in Hc. apply list_elem_of_In, Hc in He.
    apply negb_true_iff, Z.eqb_neq in He. exact He. }
  assert (8 ≤ length (replicate 8 "x"%char)) as Hb by (vm_compute; lia).
  split; [exact H |].
  exact (proj1 (Curl_cipher_suite_get_str_unknown 0x0004 (replicate 8 "x"%char) 8
                  true H Hb)).
Defined.

(** ** Indexes that are not in the dictionary *)

Lemma cs_zip_to_str_loop_code k indexes sep buf buf_size len :
  length indexes = 8 → k ≤ 8 → len < buf_size → buf_size ≤ length buf →
  (cs_zip_to_str_loop k indexes sep buf buf_size len).1
  = if forallb (λ x, (x <? CS_TXT_LEN)%Z)
         (cs_name_indexes (drop (8 - k) indexes))
    then 0%Z else (-1)%Z.
Proof.
  intros Hlen. revert buf len.
  induction k as [|k IH]; intros buf len Hk Hl Hb.
  - by rewrite drop_ge by lia.
  - destruct (lookup_lt_is_Some_2 indexes (8 - S k)) as [x Hx]; [lia |].
    rewrite (drop_S _ _ _ Hx). cbn [cs_zip_to_str_loop cs_name_indexes].
    rewrite (list_lookup_total_correct _ _ _ Hx).
    destruct (x =? 0)%Z; cbn [negb andb]; [done |].
    assert ((len <? buf_size) = true) as -> by (apply Nat.ltb_lt; lia).
    cbn [forallb]. rewrite Z.leb_antisym.
    destruct (x <? CS_TXT_LEN)%Z; cbn [negb andb]; [| done].
    set (p := if 0 <? 8 - S k then sep :: cs_part_text x else cs_part_text x).
    assert ((if 0 <? 8 - S k
             then msnprintf buf len (buf_size - len) (sep :: cs_part_text x)
             else msnprintf buf len (buf_size - len) (cs_part_text x))
            = msnprintf buf len (buf_size - len) p) as ->
      by (unfold p; by destruct (0 <? 8 - S k)).
    destruct (msnprintf_spec buf len (buf_size - len) p)
      as (buf1 & -> & Hl1 & _ & _); [lia | lia |].
    assert ((Z.of_nat (min (length p) (buf_size - len - 1)) <? 0)%Z = false) as ->
      by (apply Z.ltb_ge; lia).
    rewrite Nat2Z.id. replace (S (8 - S k)) with (8 - k) by lia.
    apply IH; lia.
Qed.

(** X10: the value that the decoder returns: with a buffer of at least one byte
    it is -1 exactly when one of the indexes before the first zero is not in
    the dictionary; with a buffer of no bytes it is 0. *)
Theorem cs_zip_to_str_result zip buf buf_size :
  buf_size ≤ length buf →
  (cs_zip_to_str zip buf buf_size).1
  = if Nat.eqb buf_size 0
       || forallb (λ x, (x <? CS_TXT_LEN)%Z) (cs_name_indexes (cs_unzip zip))
    then 0%Z else (-1)%Z.
Proof.
  intros Hb. unfold cs_zip_to_str.
  destruct (Nat.eqb buf_size 0) eqn:E; cbn [orb].
  - apply Nat.eqb_eq in E. subst buf_size.
    cbn [cs_zip_to_str_loop Nat.ltb Nat.leb]. by rewrite andb_false_r.
  - apply Nat.eqb_neq in E.
    by rewrite cs_zip_to_str_loop_code by (done || lia).
Qed.

Lemma cs_zip_to_str_result_witness :
  4 ≤ length (replicate 4 "x"%char)
  ∧ cs_name_indexes (cs_unzip (CS_ZIP_IDX 1 40 0 0 0 0 0 0)) = [1; 40]%Z
  ∧ (cs_zip_to_str (CS_ZIP_IDX 1 40 0 0 0 0 0 0) (replicate 4 "x"%char) 4).1
    = (-1)%Z.
Proof.
  assert (4 ≤ length (replicate 4 "x"%char)) as H by (vm_compute; lia).
  split; [exact H |]. split; [vm_compute; reflexivity |].
  exact (cs_zip_to_str_result (CS_ZIP_IDX 1 40 0 0 0 0 0 0)
           (replicate 4 "x"%char) 4 H).
Defined.

(** ** The value 0 *)

Lemma cs_list_id_range e : e ∈ cs_list → (0 < cs_entry_id e < 65536)%Z.
Proof.
  intros He.
  assert (forallb (λ e, (0 <? cs_entry_id e)%Z && (cs_entry_id e <? 65536)%Z)
            cs_list = true) as H by (vm_compute; reflexivity).
  rewrite forallb_forall in H. apply list_elem_of_In, H in He. lia.
Qed.

Lemma lookup_id_name_bytes cs_str cs_len :
  Curl_cipher_suite_lookup_id cs_str cs_len
  = Curl_cipher_suite_lookup_id (cs_name_bytes cs_str cs_len)
      (length (cs_name_bytes cs_str cs_len)).
Proof.
  unfold cs_name_bytes.
  rewrite (lookup_id_take cs_str (take cs_len cs_str) cs_len)
    by by rewrite take_take, Nat.min_id.
  rewrite lookup_id_strlen.
  2: { pose proof (strlen_le (take cs_len cs_str)) as H.
       rewrite length_take in H. lia. }
  rewrite c_str_length. apply lookup_id_take.
  unfold c_str. by rewrite (take_take (take cs_len cs_str)), Nat.min_id.
Qed.

(** X6: the value 0 means that the name was not found, and only that: the
    result is a 16-bit value, no entry of the table has the identifier 0,
    and when the result is 0 no entry of the table has the name given in
    upper case. *)
Theorem Curl_cipher_suite_lookup_id_zero cs_str cs_len :
  (0 ≤ Curl_cipher_suite_lookup_id cs_str cs_len < 65536)%Z
  ∧ (∀ e, e ∈ cs_list → cs_entry_id e ≠ 0%Z)
  ∧ (Curl_cipher_suite_lookup_id cs_str cs_len = 0%Z →
     ∀ e, e ∈ cs_list →
          cs_zip_name (cs_entry_zip e)
          ≠ map Curl_raw_toupper (cs_name_bytes cs_str cs_len)).
Proof.
  assert (∀ e, e ∈ cs_list →
               cs_zip_name (cs_entry_zip e)
               = map Curl_raw_toupper (cs_name_bytes cs_str cs_len) →
               Curl_cipher_suite_lookup_id cs_str cs_len = cs_entry_id e) as Hfound.
  { intros e He Hname. destruct (cs_list_round_trip e He) as [_ Hid].
    rewrite lookup_id_name_bytes, <- Hid.
    assert (same_upper (cs_name_bytes cs_str cs_len) (cs_zip_name (cs_entry_zip e)))
      as Hs.
    { unfold same_upper. rewrite Hname, map_map.
      apply map_ext. intros c. by rewrite toupper_idem. }
    rewrite (same_upper_length _ _ Hs). unfold Curl_cipher_suite_lookup_id.
    by rewrite (cs_str_to_zip_upper _ _ _ Hs). }
  split; [| split].
  - destruct (Z.eq_dec (Curl_cipher_suite_lookup_id cs_str cs_len) 0%Z)
      as [-> | Hne]; [lia |].
    unfold Curl_cipher_suite_lookup_id in *. destruct (0 <? cs_len); [| done].
    destruct (cs_str_to_zip cs_str cs_len) as [err | zip]; [done |].
    apply cs_list_scan_found in Hne as (e & He & _ & <-).
    pose proof (cs_list_id_range e He). lia.
  - intros e He. pose proof (cs_list_id_range e He). lia.
  - intros H0 e He Hname. pose proof (cs_list_id_range e He).
    rewrite (Hfound e He Hname) in H0. lia.
Qed.

Lemma Curl_cipher_suite_lookup_id_zero_witness :
  Curl_cipher_suite_lookup_id (lit "NOT-A-REAL-CIPHER") 17 = 0%Z
  ∧ ∀ e, e ∈ cs_list →
         cs_zip_name (cs_entry_zip e)
         ≠ map Curl_raw_toupper (cs_name_bytes (lit "NOT-A-REAL-CIPHER") 17).
Proof.
  assert (Curl_cipher_suite_lookup_id (lit "NOT-A-REAL-CIPHER") 17 = 0%Z) as H
    by (vm_compute; reflexivity).
  split; [exact H |].
  exact (proj2 (proj2 (Curl_cipher_suite_lookup_id_zero
                         (lit "NOT-A-REAL-CIPHER") 17)) H).
Defined.
